(** * GNSSLoggerToRinex: a shallow embedding of the two converters

    The repository holds two Python scripts, [android_to_rinex_2.11.py] and
    [android_to_rinex_3.03.py].  Each reads the [Raw] lines of an Android
    GnssLogger file, turns every line into one observable and collects the
    observables of one epoch in a [RinexBatch], which is printed when the
    epoch changes.

    The embedding follows the scripts function by function and, inside the
    [__main__] loop, variable by variable.  Python's [float] is kept abstract
    behind the class [PyFloat]; it has two instances:
    - [F64]: IEEE 754 binary64 with round-to-nearest-even, which is what
      CPython executes (Rocq's primitive floats);
    - [Exact]: the rationals, i.e. the same program text read with
      rounding-free arithmetic.
    Theorems that only depend on the control flow are proved for every
    instance at once; concrete runs are evaluated with [F64]. *)

From Stdlib Require Import ZArith QArith Qround Qabs Floats.
From Stdlib Require Import String Ascii List Bool Lia Lqa Zpower Permutation.
From Stdlib Require Import DecimalString.
Import ListNotations.

Set Implicit Arguments.
Set Warnings "-inexact-float".
Close Scope Q_scope.
Open Scope Z_scope.

(* ================================================================== *)
(** ** Python exceptions as an error monad *)

Inductive exn : Type :=
| TypeError          (* float(None), None / x, format(None, '.3f') *)
| ValueError         (* int(nan), check_adr_state *)
| OverflowError      (* int(inf), date out of range *)
| ZeroDivisionError  (* x / 0.0 *)
| IndexError         (* tuple index out of range *)
| AttributeError     (* None.print() *)
| Exception.         (* raise Exception(...) in check_state *)

Inductive res (A : Type) : Type :=
| Ok (a : A)
| Raise (e : exn).
Arguments Ok {A} a.
Arguments Raise {A} e.

Definition bind {A B : Type} (m : res A) (k : A -> res B) : res B :=
  match m with
  | Ok a => k a
  | Raise e => Raise e
  end.

Declare Scope py_monad_scope.
Delimit Scope py_monad_scope with pym.
Notation "x <- m ;; k" := (bind m (fun x => k))
  (at level 100, m at next level, right associativity) : py_monad_scope.
Notation "' pat <- m ;; k" := (bind m (fun x => match x with pat => k end))
  (at level 100, pat pattern, m at next level, right associativity)
  : py_monad_scope.
Open Scope py_monad_scope.

(* ================================================================== *)
(** ** Python's float *)

(** What a float denotes: a finite number with its sign bit (the sign bit
    tells [-0.0] from [0.0]), an infinity, or a NaN. *)
Inductive fclass : Type :=
| FFinite (neg : bool) (q : Q)
| FInf (neg : bool)
| FNaN.

Class PyFloat (F : Type) : Type := {
  fadd : F -> F -> F;
  fsub : F -> F -> F;
  fmul : F -> F -> F;
  (** True division.  Python raises [ZeroDivisionError] on a zero divisor;
      the embedding divides by the scripts' non-zero constants with [fdiv]
      directly and tests a variable divisor first (see [py_div]). *)
  fdiv : F -> F -> F;
  fopp : F -> F;
  fltb : F -> F -> bool;
  fleb : F -> F -> bool;
  feqb : F -> F -> bool;
  (** [float(n)] for a Python int [n], rounded to nearest-even. *)
  of_int : Z -> F;
  fvalue : F -> fclass
}.

Declare Scope py_scope.
Delimit Scope py_scope with py.
Notation "x + y" := (fadd x y) : py_scope.
Notation "x - y" := (fsub x y) : py_scope.
Notation "x * y" := (fmul x y) : py_scope.
Notation "x / y" := (fdiv x y) : py_scope.
Notation "- x" := (fopp x) : py_scope.
Notation "x <? y" := (fltb x y) : py_scope.
Notation "x <=? y" := (fleb x y) : py_scope.
Notation "x >? y" := (fltb y x) : py_scope.
Notation "x >=? y" := (fleb y x) : py_scope.
Notation "x =? y" := (feqb x y) : py_scope.

(** *** Instance 1: IEEE 754 binary64 *)

Definition Z_of_shift (m : Z) (e : Z) : Q :=
  match e with
  | Z0 => inject_Z m
  | Zpos p => inject_Z (m * 2 ^ Zpos p)
  | Zneg p => Qmake m (2 ^ p)%positive
  end.

Definition SF_class (x : spec_float) : fclass :=
  match x with
  | S754_zero s => FFinite s 0%Q
  | S754_infinity s => FInf s
  | S754_nan => FNaN
  | S754_finite s m e => FFinite s (Z_of_shift (if s then Zneg m else Zpos m) e)
  end.

Definition float_of_Z (n : Z) : float :=
  SF2Prim (binary_normalize prec emax n 0 false).

#[export] Instance F64 : PyFloat float := {
  fadd := PrimFloat.add;
  fsub := PrimFloat.sub;
  fmul := PrimFloat.mul;
  fdiv := PrimFloat.div;
  fopp := PrimFloat.opp;
  fltb := PrimFloat.ltb;
  fleb := PrimFloat.leb;
  feqb := PrimFloat.eqb;
  of_int := float_of_Z;
  fvalue := fun x => SF_class (Prim2SF x)
}.

(** *** Instance 2: exact rational arithmetic *)



(* ================================================================== *)
(** ** Conversions between Python's int and float *)

(** Truncation toward zero, the rounding of [int(x)]. *)
Definition Qtrunc (q : Q) : Z := Z.quot (Qnum q) (Zpos (Qden q)).

(** Round half to even, the rounding of [round(x)] and of ['{:.3f}']. *)
Definition Qround_half_even (q : Q) : Z :=
  let n := Qfloor q in
  let r := (Qnum q mod Zpos (Qden q))%Z in
  match (2 * r ?= Zpos (Qden q))%Z with
  | Lt => n
  | Gt => (n + 1)%Z
  | Eq => if Z.even n then n else (n + 1)%Z
  end.

Section Conversions.
Context {F : Type} `{PyFloat F}.

(** [int(x)] on a float. *)
Definition py_int (x : F) : res Z :=
  match fvalue x with
  | FFinite _ q => Ok (Qtrunc q)
  | FInf _ => Raise OverflowError
  | FNaN => Raise ValueError
  end.

(** [math.floor(x)]. *)
Definition math_floor (x : F) : res Z :=
  match fvalue x with
  | FFinite _ q => Ok (Qfloor q)
  | FInf _ => Raise OverflowError
  | FNaN => Raise ValueError
  end.

(** [round(x)] with no digits argument: an int, half to even. *)
Definition py_round (x : F) : res Z :=
  match fvalue x with
  | FFinite _ q => Ok (Qround_half_even q)
  | FInf _ => Raise OverflowError
  | FNaN => Raise ValueError
  end.

(** The implicit [float(n)] of mixed int/float arithmetic: an int too
    large for a float raises [OverflowError]. *)
Definition float_of_int (n : Z) : res F :=
  let x := of_int n in
  match fvalue x with
  | FFinite _ _ => Ok x
  | _ => Raise OverflowError
  end.

(** [x / y] with a divisor that is not a constant of the script. *)
Definition py_div (x y : F) : res F :=
  if (y =? of_int 0)%py then Raise ZeroDivisionError else Ok (x / y)%py.

(** [float(v)] and [int(v)] on a field of the [values] dict: an empty
    field was stored as [None], and [float(None)] is a [TypeError]. *)
Definition py_float (v : option F) : res F :=
  match v with
  | Some x => Ok x
  | None => Raise TypeError
  end.

Definition py_int_field (v : option F) : res Z :=
  match v with
  | Some x => py_int x
  | None => Raise TypeError
  end.
End Conversions.

(* ================================================================== *)
(** ** String formatting ([str.format]) *)

Open Scope string_scope.
Open Scope Z_scope.

Definition dec_of_Z (n : Z) : string := NilZero.string_of_int (Z.to_int n).

Fixpoint repeat_string (c : string) (n : nat) : string :=
  match n with
  | O => ""
  | S k => c ++ repeat_string c k
  end%nat.

(** ['{:>w}'] on a string, and the default alignment of numbers. *)
Definition pad_left (c : string) (w : nat) (s : string) : string :=
  repeat_string c (w - String.length s)%nat ++ s.

(** ['{:w}'] and ['{:<w}'] on a string. *)
Definition pad_right (c : string) (w : nat) (s : string) : string :=
  s ++ repeat_string c (w - String.length s)%nat.

(** ['{0:02d}']: zero padding counts the sign in the width. *)
Definition fmt_02d (n : Z) : string :=
  if (n <? 0)%Z then "-" ++ pad_left "0" 1 (dec_of_Z (Z.abs n))
  else pad_left "0" 2 (dec_of_Z n).

(** ['{0:3d}']. *)
Definition fmt_3d (n : Z) : string := pad_left " " 3 (dec_of_Z n).

(** ['{:.3f}'] on the number [q] with sign bit [neg]: the exact value is
    rounded half-to-even to three decimals. *)
Definition fmt_3f_Q (neg : bool) (q : Q) : string :=
  let n := Qround_half_even (Qabs q * inject_Z 1000)%Q in
  (if neg then "-" else "") ++
  dec_of_Z (n / 1000) ++ "." ++ pad_left "0" 3 (dec_of_Z (n mod 1000)).

Definition fmt_3f {F : Type} `{PyFloat F} (x : F) : string :=
  match fvalue x with
  | FFinite neg q => fmt_3f_Q neg q
  | FInf neg => if neg then "-inf" else "inf"
  | FNaN => "nan"
  end.

(** ['{:.3f}'] on a Python int (the scripts format the int [0]). *)
Definition fmt_3f_int (n : Z) : string := fmt_3f_Q (n <? 0)%Z (inject_Z n).

(** ['{0:14.3f}']. *)
Definition fmt_14_3f {F : Type} `{PyFloat F} (x : F) : string :=
  pad_left " " 14 (fmt_3f x).

(** [c in s] for a one-character string [c]. *)
Fixpoint contains_char (c : ascii) (s : string) : bool :=
  match s with
  | EmptyString => false
  | String a s' => Ascii.eqb a c || contains_char c s'
  end.

Definition newline : string := String (ascii_of_nat 10) "".

(* ================================================================== *)
(** ** [datetime]

    A naive [datetime] is represented by the number of microseconds that
    separate it from [GPSTIME = datetime(1980, 1, 6)]; equality of
    datetimes is equality of these numbers. *)

Definition datetime : Type := Z.

Definition GPSTIME : datetime := 0%Z.

Definition US_PER_SECOND : Z := 1000000.
Definition US_PER_DAY : Z := 86400 * US_PER_SECOND.

(** [date.toordinal()] of [GPSTIME], [date.min] and [date.max]. *)
Definition GPSTIME_ORDINAL : Z := 722820.
Definition MIN_ORDINAL : Z := 1.
Definition MAX_ORDINAL : Z := 3652059.

Definition datetime_in_range (t : Z) : bool :=
  ((MIN_ORDINAL - GPSTIME_ORDINAL) * US_PER_DAY <=? t)%Z &&
  (t <? (MAX_ORDINAL + 1 - GPSTIME_ORDINAL) * US_PER_DAY)%Z.

Section Datetime.
Context {F : Type} `{PyFloat F}.

(** [datetime.timedelta(weeks=week, seconds=sow)] in microseconds: the
    whole seconds are taken exactly, the fractional part is scaled to
    microseconds in floating point and rounded half-to-even. *)
Definition timedelta (week : Z) (sow : F) : res Z :=
  whole <- py_int sow ;;
  let secondsfrac := (sow - of_int whole)%py in
  us <- py_round (secondsfrac * of_int 1000000)%py ;;
  Ok (week * 7 * US_PER_DAY + whole * US_PER_SECOND + us)%Z.

(** [gpstime_to_epoch(week, sow)]: [GPSTIME + timedelta(...)], an
    [OverflowError] outside the years 1..9999. *)
Definition gpstime_to_epoch (week : Z) (sow : F) : res datetime :=
  d <- timedelta week sow ;;
  let t := (GPSTIME + d)%Z in
  if datetime_in_range t then Ok t else Raise OverflowError.
End Datetime.

(** Calendar fields of a datetime. *)
Record civil : Type := {
  year : Z; month : Z; day : Z;
  hour : Z; minute : Z; second : Z; microsecond : Z
}.

Definition civil_from_days (days_since_gps : Z) : Z * Z * Z :=
  let z := (days_since_gps + 3657 + 719468)%Z in
  let era := (z / 146097)%Z in
  let doe := (z - era * 146097)%Z in
  let yoe := ((doe - doe / 1460 + doe / 36524 - doe / 146096) / 365)%Z in
  let doy := (doe - (365 * yoe + yoe / 4 - yoe / 100))%Z in
  let mp := ((5 * doy + 2) / 153)%Z in
  let d := (doy - (153 * mp + 2) / 5 + 1)%Z in
  let m := (if mp <? 10 then mp + 3 else mp - 9)%Z in
  let y := (yoe + era * 400 + (if m <=? 2 then 1 else 0))%Z in
  (y, m, d).

Definition civil_of (t : datetime) : civil :=
  let days := (t / US_PER_DAY)%Z in
  let rest := (t mod US_PER_DAY)%Z in
  let secs := (rest / US_PER_SECOND)%Z in
  let '(y, m, d) := civil_from_days days in
  {| year := y; month := m; day := d;
     hour := secs / 3600; minute := (secs / 60) mod 60; second := secs mod 60;
     microsecond := rest mod US_PER_SECOND |}.

Definition d2 (n : Z) : string := pad_left "0" 2 (dec_of_Z n).
Definition d6 (n : Z) : string := pad_left "0" 6 (dec_of_Z n).

(** [strftime("%Y<s>%m<s>%d<s>%H<s>%M<s>%S.%f")] with separator [s]. *)
Definition strftime_fields (sep : string) (y : string) (c : civil) : string :=
  y ++ sep ++ d2 (month c) ++ sep ++ d2 (day c) ++ sep ++ d2 (hour c) ++ sep ++
  d2 (minute c) ++ sep ++ d2 (second c) ++ "." ++ d6 (microsecond c).

(** ["%Y %m %d %H %M %S.%f"] *)
Definition strftime_Y (sep : string) (t : datetime) : string :=
  let c := civil_of t in strftime_fields sep (dec_of_Z (year c)) c.

(** ["%y %m %d %H %M %S.%f"] *)
Definition strftime_y (sep : string) (t : datetime) : string :=
  let c := civil_of t in strftime_fields sep (d2 (year c mod 100)) c.


(* ================================================================== *)
(** ** What both scripts share *)

(** The [values] dict of one [Raw] line, restricted to the keys the
    scripts read.  A field the line leaves empty is [None].  (The header is
    assumed to declare all of these columns; a missing column would be a
    [KeyError] at the first access.) *)
Record raw (F : Type) : Type := {
  State : option F;
  FullBiasNanos : option F;
  TimeNanos : option F;
  BiasNanos : option F;
  TimeOffsetNanos : option F;
  LeapSecond : option F;
  ConstellationType : option F;
  CarrierFrequencyHz : option F;
  ReceivedSvTimeNanos : option F;
  PseudorangeRateMetersPerSecond : option F;
  Svid : option F;
  AccumulatedDeltaRangeMeters : option F;
  AccumulatedDeltaRangeState : option F;
  Cn0DbHz : option F
}.

(** The command line options the loop reads. *)
Record options : Type := {
  fix_bias : bool;
  integerize : bool;
  skip_edit : bool
}.

(** What the scripts write to [sys.stderr], one constructor per message. *)
Inductive diag : Type :=
| InvalidState (e : exn)          (* "Invalid state [ e ] for measurement: [ line ]" *)
| FrequencySlotNumber             (* "Receiver is giving Frequency slot number (FSN) ..." *)
| ConstellationNotSupported       (* "Constellation SBAS not supported" *)
| ConstellationUnknown            (* "Constellation unknown. Skipping" *)
| AdrStateWarning (svid : string) (* "-- WARNING: ... for satellite [ svid ]" *)
| OutOfBounds (svid : string)     (* "Measurement [ .. ] for svid [ .. ] rejected. Out of bounds" *)
| RepeatedEntries (epoch : datetime). (* "Detected repeated entries in epoch [ .. ]. Skipping" *)

(** What the loop wrote to [out]. *)
Inductive written : Type :=
| EndHeader (first_epoch : datetime)  (* out.write(end_header(epoch)) *)
| Epoch (text : string).              (* out.write(rinex_batch.print()) *)

Definition GPS_WEEKSECS : Z := 604800.

Definition STATE_CODE_LOCK : Z := 1.
Definition STATE_TOW_DECODED : Z := 8.

Definition CONSTELLATION_GPS : Z := 1.
Definition CONSTELLATION_SBAS : Z := 2.
Definition CONSTELLATION_GLONASS : Z := 3.
Definition CONSTELLATION_QZSS : Z := 4.
Definition CONSTELLATION_BEIDOU : Z := 5.
Definition CONSTELLATION_GALILEO : Z := 6.
Definition CONSTELLATION_UNKNOWN : Z := 0.

(** [check_state(state)]: both sync bits are required. *)
Definition check_state (state : Z) : res bool :=
  if Z.land state STATE_CODE_LOCK =? 0 then Raise Exception
  else if Z.land state STATE_TOW_DECODED =? 0 then Raise Exception
  else Ok true.

(** Python's [t[i]] on a tuple: a negative index counts from the end. *)
Definition py_index {A : Type} (t : list A) (i : Z) : res A :=
  let n := Z.of_nat (List.length t) in
  let j := if i <? 0 then i + n else i in
  if (0 <=? j) && (j <? n) then
    match nth_error t (Z.to_nat j) with
    | Some a => Ok a
    | None => Raise IndexError
    end
  else Raise IndexError.

(** [l[i] = v] on a list, for the non-negative indices the scripts use. *)
Fixpoint list_set {A : Type} (l : list A) (i : nat) (v : A) : res (list A) :=
  match l, i with
  | [], _ => Raise IndexError
  | _ :: tl, O => Ok (v :: tl)
  | a :: tl, S k => tl' <- list_set tl k v ;; Ok (a :: tl')
  end.

Definition list_get {A : Type} (l : list A) (i : nat) : res A :=
  match nth_error l i with
  | Some a => Ok a
  | None => Raise IndexError
  end.

(** [l.count(x)] on a list of strings. *)
Definition count (x : string) (l : list string) : nat :=
  count_occ string_dec l x.

(** The test that opens [RinexBatch.print] in both scripts:
    [for sat in self.svids: if self.svids.count(sat) > 1: ...]. *)
Definition has_repeated (svids : list string) : bool :=
  existsb (fun sat => (1 <? count sat svids)%nat) svids.

Section Shared.
Context {F : Type} `{PyFloat F}.

Definition SPEED_OF_LIGHT : F := of_int 299792458.
(** [1.0e-9]: the correctly rounded quotient of [1] and [10^9] is the
    float nearest to the decimal literal. *)
Definition NS_TO_S : F := (of_int 1 / of_int 1000000000)%py.
Definition half : F := (of_int 1 / of_int 2)%py.
End Shared.

(* ================================================================== *)
(** ** android_to_rinex_3.03.py *)

Module V303.

(** The fields of [RinexBatch]: parallel lists, one entry per satellite.
    The script stores every observable already formatted, so the columns
    hold strings; a band that was never populated holds [""]. *)
Module B.
Record RinexBatch : Type := {
  epoch : datetime;
  svids : list string;
  c1 : list string; c2 : list string;
  l1 : list string; l2 : list string;
  s1 : list string; s2 : list string;
  d1 : list string; d2 : list string
}.
End B.
Definition RinexBatch : Type := B.RinexBatch.

(** [RinexBatch(epoch)]. *)
Definition new_batch (epoch : datetime) : RinexBatch :=
  {| B.epoch := epoch; B.svids := [];
     B.c1 := []; B.c2 := []; B.l1 := []; B.l2 := [];
     B.s1 := []; B.s2 := []; B.d1 := []; B.d2 := [] |}.

(** [codeType == "L1" or codeType == "E1" or codeType == "B1"]. *)
Definition is_primary (codeType : string) : bool :=
  ((codeType =? "L1") || (codeType =? "E1") || (codeType =? "B1"))%string.

(** The index at which the loop [for id in self.svids] first meets [svid]. *)
Fixpoint find_svid (svid : string) (ids : list string) (i : nat) : option nat :=
  match ids with
  | [] => None
  | id :: rest => if (svid =? id)%string then Some i else find_svid svid rest (S i)
  end.

(** [RinexBatch.add(codeType, svid, c1, s1, l1, d1)]. *)
Definition add (codeType svid c1 s1 l1 d1 : string) (self : RinexBatch)
  : res RinexBatch :=
  match find_svid svid (B.svids self) 0 with
  | Some i =>
      if is_primary codeType then
        c1' <- list_set (B.c1 self) i c1 ;;
        s1' <- list_set (B.s1 self) i s1 ;;
        l1' <- list_set (B.l1 self) i l1 ;;
        d1' <- list_set (B.d1 self) i d1 ;;
        Ok {| B.epoch := B.epoch self; B.svids := B.svids self;
              B.c1 := c1'; B.c2 := B.c2 self; B.l1 := l1'; B.l2 := B.l2 self;
              B.s1 := s1'; B.s2 := B.s2 self; B.d1 := d1'; B.d2 := B.d2 self |}
      else
        c2' <- list_set (B.c2 self) i c1 ;;
        s2' <- list_set (B.s2 self) i s1 ;;
        l2' <- list_set (B.l2 self) i l1 ;;
        d2' <- list_set (B.d2 self) i d1 ;;
        Ok {| B.epoch := B.epoch self; B.svids := B.svids self;
              B.c1 := B.c1 self; B.c2 := c2'; B.l1 := B.l1 self; B.l2 := l2';
              B.s1 := B.s1 self; B.s2 := s2'; B.d1 := B.d1 self; B.d2 := d2' |}
  | None =>
      if is_primary codeType then
        Ok {| B.epoch := B.epoch self; B.svids := (B.svids self ++ [svid])%list;
              B.c1 := (B.c1 self ++ [c1])%list; B.c2 := (B.c2 self ++ [""])%list;
              B.l1 := (B.l1 self ++ [l1])%list; B.l2 := (B.l2 self ++ [""])%list;
              B.s1 := (B.s1 self ++ [s1])%list; B.s2 := (B.s2 self ++ [""])%list;
              B.d1 := (B.d1 self ++ [d1])%list; B.d2 := (B.d2 self ++ [""])%list |}
      else
        Ok {| B.epoch := B.epoch self; B.svids := (B.svids self ++ [svid])%list;
              B.c1 := (B.c1 self ++ [""])%list; B.c2 := (B.c2 self ++ [c1])%list;
              B.l1 := (B.l1 self ++ [""])%list; B.l2 := (B.l2 self ++ [l1])%list;
              B.s1 := (B.s1 self ++ [""])%list; B.s2 := (B.s2 self ++ [s1])%list;
              B.d1 := (B.d1 self ++ [""])%list; B.d2 := (B.d2 self ++ [d1])%list |}
  end.

(** The data line of one satellite:
    ["{0:5}{1:>12}  {2:>14}  {3:>14}  {4:>14}  {5:>14}  {6:>14}  {7:>14}  {8:>14}\n"]
    filled with [svid, c1, l1, d1, s1, c2, l2, d2, s2]. *)
Definition format_line (svid c1 l1 d1 s1 c2 l2 d2 s2 : string) : string :=
  pad_right " " 5 svid ++ pad_left " " 12 c1 ++
  "  " ++ pad_left " " 14 l1 ++ "  " ++ pad_left " " 14 d1 ++
  "  " ++ pad_left " " 14 s1 ++ "  " ++ pad_left " " 14 c2 ++
  "  " ++ pad_left " " 14 l2 ++ "  " ++ pad_left " " 14 d2 ++
  "  " ++ pad_left " " 14 s2 ++ newline.

(** The line of index [i]: every [self.x[i]] may raise [IndexError]. *)
Definition line_at (self : RinexBatch) (i : nat) : res string :=
  svid <- list_get (B.svids self) i ;;
  c1 <- list_get (B.c1 self) i ;;
  l1 <- list_get (B.l1 self) i ;;
  d1 <- list_get (B.d1 self) i ;;
  s1 <- list_get (B.s1 self) i ;;
  c2 <- list_get (B.c2 self) i ;;
  l2 <- list_get (B.l2 self) i ;;
  d2 <- list_get (B.d2 self) i ;;
  s2 <- list_get (B.s2 self) i ;;
  Ok (format_line svid c1 l1 d1 s1 c2 l2 d2 s2).

(** One of the five loops of [print]:
    [for i in range(len(self.svids)): if letter in self.svids[i]: data += ...]. *)
Fixpoint print_block (letter : ascii) (self : RinexBatch) (range : list nat)
  : res string :=
  match range with
  | [] => Ok ""
  | i :: rest =>
      svid <- list_get (B.svids self) i ;;
      line <- (if contains_char letter svid then line_at self i else Ok "") ;;
      data <- print_block letter self rest ;;
      Ok (line ++ data)
  end.

(** The epoch line [b]: ["> %Y %m %d %H %M %S.%f   0"] followed by the
    number of satellites as ["{0:3d}"]. *)
Definition epoch_line (self : RinexBatch) : string :=
  "> " ++ strftime_Y " " (B.epoch self) ++ "   0" ++
  fmt_3d (Z.of_nat (List.length (B.svids self))).

(** The constellation letters in the order of the five loops. *)
Definition block_order : list ascii := ["G"; "C"; "E"; "R"; "J"]%char.

Fixpoint print_blocks (letters : list ascii) (self : RinexBatch) : res string :=
  match letters with
  | [] => Ok ""
  | letter :: rest =>
      block <- print_block letter self (seq 0 (List.length (B.svids self))) ;;
      data <- print_blocks rest self ;;
      Ok (block ++ data)
  end.

(** [RinexBatch.print()]: the returned string and what went to stderr. *)
Definition print (self : RinexBatch) : res (string * list diag) :=
  if has_repeated (B.svids self) then
    Ok ("", [RepeatedEntries (B.epoch self)])
  else
    data <- print_blocks block_order self ;;
    Ok (epoch_line self ++ newline ++ data, []).

(** [GLN_LIST], the frequency channel of each GLONASS orbital slot. *)
Definition GLN_LIST : list Z :=
  [1; -4; 5; 6; 1; -4; 5; 6; -2; -7; 0; -1; -2; -7; 0; -1; -6; -3; 3; 2; 4; -3; 3; 2].

Definition ADR_STATE_VALID : Z := 1.

(** [check_adr_state(state)]. *)
Definition check_adr_state (state : Z) : res bool :=
  if Z.land state ADR_STATE_VALID =? 0 then Raise ValueError else Ok true.

Section Program.
Context {F : Type} `{PyFloat F}.
Local Open Scope py_scope.

Definition S_TO_NS : F := of_int 1000000000.

Definition GPS_L1_FREQ : F := of_int 1575420000.
Definition GPS_L1_WAVELENGTH : F := SPEED_OF_LIGHT / GPS_L1_FREQ.
Definition GPS_L2_FREQ : F := of_int 1227600000.
Definition GPS_L2_WAVELENGTH : F := SPEED_OF_LIGHT / GPS_L2_FREQ.
Definition GPS_L5_FREQ : F := of_int 1176450000.
Definition GPS_L5_WAVELENGTH : F := SPEED_OF_LIGHT / GPS_L5_FREQ.

Definition BDS_L1_FREQ : F := of_int 1561098000.
Definition BDS_L1_WAVELENGTH : F := SPEED_OF_LIGHT / BDS_L1_FREQ.
Definition BDS_L2_FREQ : F := of_int 1207140000.
Definition BDS_L2_WAVELENGTH : F := SPEED_OF_LIGHT / BDS_L2_FREQ.
Definition BDS_L3_FREQ : F := of_int 1268520000.
Definition BDS_L3_WAVELENGTH : F := SPEED_OF_LIGHT / BDS_L3_FREQ.

Definition GAL_E1_FREQ : F := of_int 1575420000.
Definition GAL_E1_WAVELENGTH : F := SPEED_OF_LIGHT / GAL_E1_FREQ.
Definition GAL_E5A_FREQ : F := of_int 1176450000.
Definition GAL_E5A_WAVELENGTH : F := SPEED_OF_LIGHT / GAL_E5A_FREQ.
Definition GAL_E5B_FREQ : F := of_int 1207140000.
Definition GAL_E5B_WAVELENGTH : F := SPEED_OF_LIGHT / GAL_E5B_FREQ.
Definition GAL_E6_FREQ : F := of_int 1278750000.
Definition GAL_E6_WAVELENGTH : F := SPEED_OF_LIGHT / GAL_E6_FREQ.

Definition GLO_L1_FREQ_BASE : F := of_int 1602000000.
Definition GLO_L2_FREQ_BASE : F := of_int 1246000000.
Definition GLO_L1_FREQ_STEP : F := of_int 562500.
Definition GLO_L2_FREQ_STEP : F := of_int 437500.

Definition NUM_NANOSEC_WEEK : F := of_int 604800000000000.
Definition NUM_NANOSEC_DAY : F := of_int 86400000000000.
Definition NUM_NANOSEC_100MILL : F := of_int 100000000.
Definition MAX_VALUE : Z := 8388608.

(** The thresholds the carrier frequency is compared with. *)
Definition MHZ_1500 : F := of_int 1500000000.
Definition MHZ_1250 : F := of_int 1250000000.
Definition MHZ_1200 : F := of_int 1200000000.
Definition MHZ_1100 : F := of_int 1100000000.

(** [get_glo_L1(chel)] and [get_glo_L2(chel)]; [chel] is an int. *)
Definition get_glo_L1 (chel : Z) : res F :=
  py_div SPEED_OF_LIGHT (GLO_L1_FREQ_BASE + of_int chel * GLO_L1_FREQ_STEP).

Definition get_glo_L2 (chel : Z) : res F :=
  py_div SPEED_OF_LIGHT (GLO_L2_FREQ_BASE + of_int chel * GLO_L2_FREQ_STEP).

(** [get_correction_adr(psr, adr_cycles, wave_length)]. *)
Definition get_correction_adr (psr adr_cycles wave_length : F) : res F :=
  q <- py_div psr wave_length ;;
  let adr_rolls := (q + adr_cycles) / of_int MAX_VALUE in
  let adr_rolls :=
    if adr_rolls <=? of_int 0 then adr_rolls - half else adr_rolls + half in
  let adr_cycles := - (adr_cycles - (of_int MAX_VALUE * adr_rolls)) in
  Ok adr_cycles.

(** A value that is the int [0] on some paths and a float on others. *)
Inductive pynum : Type :=
| PyInt (n : Z)
| PyFlt (x : F).

(** ['{:.3f}'.format(v)]. *)
Definition fmt_3f_num (v : pynum) : string :=
  match v with
  | PyInt n => fmt_3f_int n
  | PyFlt x => fmt_3f x
  end.

(** The variables of the loop that outlive one iteration, and the two
    streams the loop writes to. *)
Record state : Type := {
  first_epoch : option bool;
  rinex_batch : option RinexBatch;
  fullbiasnanos : option F;
  out : list written;
  err : list diag
}.

(** The state before the first line. *)
Definition initial : state :=
  {| first_epoch := None; rinex_batch := None; fullbiasnanos := None;
     out := []; err := [] |}.

Definition write_err (d : diag) (st : state) : state :=
  {| first_epoch := first_epoch st; rinex_batch := rinex_batch st;
     fullbiasnanos := fullbiasnanos st;
     out := out st; err := (err st ++ [d])%list |}.

(** [try: check_state(int(values['State'])) except Exception as e: ...]:
    whatever is raised is written to stderr and the loop body goes on. *)
Definition sync_check (values : raw F) (st : state) : state :=
  match (s <- py_int_field (State values) ;; check_state s) with
  | Ok _ => st
  | Raise e => write_err (InvalidState e) st
  end.

(** [if fullbiasnanos is None or not args.fix_bias: fullbiasnanos = ...]. *)
Definition update_fullbiasnanos (args : options) (values : raw F)
    (current : option F) : res F :=
  match current with
  | None => py_float (FullBiasNanos values)
  | Some fb =>
      if negb (fix_bias args) then py_float (FullBiasNanos values) else Ok fb
  end.

(** [gpsweek = math.floor(-fullbiasnanos * NS_TO_S / GPS_WEEKSECS)]. *)
Definition gpsweek_of (fullbiasnanos : F) : res Z :=
  math_floor (- fullbiasnanos * NS_TO_S / of_int GPS_WEEKSECS).

(** [local_est_GPS_time] and [gpssow]. *)
Definition gpssow_of (fullbiasnanos : F) (gpsweek : Z) (values : raw F) : res F :=
  TimeNanos <- py_float (TimeNanos values) ;;
  BiasNanos <- py_float (BiasNanos values) ;;
  let local_est_GPS_time := TimeNanos - (fullbiasnanos + BiasNanos) in
  weeksecs <- float_of_int (gpsweek * GPS_WEEKSECS)%Z ;;
  Ok (local_est_GPS_time * NS_TO_S - weeksecs).

(** [frac = 0.0; if args.integerize: frac = gpssow - int(gpssow+0.5)]. *)
Definition frac_of (args : options) (gpssow : F) : res F :=
  if integerize args then
    n <- py_int (gpssow + half) ;;
    nf <- float_of_int n ;;
    Ok (gpssow - nf)
  else Ok (of_int 0).

(** [math.floor(-fullbiasnanos / unit) * unit], the start in nanoseconds
    of the [unit] (week, day, 100 ms) that contains the clock reading. *)
Definition number_nanos (unit : F) (fullbiasnanos : F) : res F :=
  n <- math_floor (- fullbiasnanos / unit) ;;
  nf <- float_of_int n ;;
  Ok (nf * unit).

Definition week_number_nanos := number_nanos NUM_NANOSEC_WEEK.
Definition day_number_nanos := number_nanos NUM_NANOSEC_DAY.
Definition millSec_number_nanos := number_nanos NUM_NANOSEC_100MILL.

(** [tRx_GNSS = TimeNanos + TimeOffsetNanos - FullBiasNanos - BiasNanos]. *)
Definition tRx_GNSS_of (values : raw F) : res F :=
  TimeNanos <- py_float (TimeNanos values) ;;
  TimeOffsetNanos <- py_float (TimeOffsetNanos values) ;;
  FullBiasNanos <- py_float (FullBiasNanos values) ;;
  BiasNanos <- py_float (BiasNanos values) ;;
  Ok (TimeNanos + TimeOffsetNanos - FullBiasNanos - BiasNanos).

(** [int(values['LeapSecond'])] after
    [if values['LeapSecond'] is None: values['LeapSecond'] = "0"]. *)
Definition leap_second (values : raw F) : res Z :=
  match LeapSecond values with
  | None => Ok 0%Z
  | Some x => py_int x
  end.

(** The branch that sets [tRx_nanos] (lines 552-564). *)
Definition tRx_nanos_of (values : raw F) (fullbiasnanos : F) : res F :=
  week_number_nanos <- week_number_nanos fullbiasnanos ;;
  day_number_nanos <- day_number_nanos fullbiasnanos ;;
  millSec_number_nanos <- millSec_number_nanos fullbiasnanos ;;
  tRx_GNSS <- tRx_GNSS_of values ;;
  constellation <- py_int_field (ConstellationType values) ;;
  if (constellation =? CONSTELLATION_GPS)%Z then
    Ok (tRx_GNSS - week_number_nanos)
  else if (constellation =? CONSTELLATION_GLONASS)%Z then
    LeapSecond <- leap_second values ;;
    offset <- float_of_int (3 * 3600 - LeapSecond)%Z ;;
    Ok (tRx_GNSS - day_number_nanos + offset * S_TO_NS)
  else if (constellation =? CONSTELLATION_GALILEO)%Z then
    CarrierFrequencyHz <- py_float (CarrierFrequencyHz values) ;;
    if CarrierFrequencyHz >? MHZ_1500 then
      Ok (tRx_GNSS - millSec_number_nanos)
    else
      Ok (tRx_GNSS - week_number_nanos)
  else if (constellation =? CONSTELLATION_BEIDOU)%Z then
    Ok (tRx_GNSS - week_number_nanos - of_int 14 * S_TO_NS)
  else
    Ok (tRx_GNSS - week_number_nanos).

(** [tau = tRxSeconds - tTxSeconds; if tau < 0: tau += GPS_WEEKSECS]. *)
Definition tau_of (tRxSeconds tTxSeconds : F) : F :=
  let tau := tRxSeconds - tTxSeconds in
  if tau <? of_int 0 then tau + of_int GPS_WEEKSECS else tau.

(** [c1]: the travel time scaled by the speed of light and, under
    [--integerize], referred to the integer epoch with the range rate. *)
Definition c1_of (args : options) (values : raw F) (tRx_nanos frac : F) : res F :=
  let tRxSeconds := tRx_nanos * NS_TO_S in
  ReceivedSvTimeNanos <- py_float (ReceivedSvTimeNanos values) ;;
  let tTxSeconds := ReceivedSvTimeNanos * NS_TO_S in
  let tau := tau_of tRxSeconds tTxSeconds in
  let c1 := tau * SPEED_OF_LIGHT in
  if integerize args then
    rate <- py_float (PseudorangeRateMetersPerSecond values) ;;
    Ok (c1 - frac * rate)
  else Ok c1.

(** [float(values['CarrierFrequencyHz'])] after the default of line 604
    ([if values['CarrierFrequencyHz'] is None: ... = "2000e6"]). *)
Definition carrier_frequency (values : raw F) : F :=
  match CarrierFrequencyHz values with
  | None => of_int 2000000000
  | Some x => x
  end.

(** The three statements every band branch repeats: the phase in cycles
    and its correction with wavelength [wl], the Doppler with wavelength
    [wl_doppler] (the E6 branch divides the rate by [GAL_E5B_WAVELENGTH]). *)
Definition band (codeType : string) (values : raw F) (c1 wl wl_doppler : F)
  : res (string * pynum * pynum) :=
  adr <- py_float (AccumulatedDeltaRangeMeters values) ;;
  l1 <- get_correction_adr c1 (adr / wl) wl ;;
  rate <- py_float (PseudorangeRateMetersPerSecond values) ;;
  Ok (codeType, PyFlt l1, PyFlt (- rate / wl_doppler)).

(** The initial values [codeType = ''], [l1 = 0], [d1 = 0]. *)
Definition no_band : string * pynum * pynum := ("", PyInt 0, PyInt 0).

(** What the constellation branch (lines 607-738) decides: [continue]
    after a message, or an observable for the batch.  The BeiDou branch
    compares [values['CarrierFrequencyHz']] without [float()] in its
    second and third test; they are reached only when the first test
    failed, hence never with the string default. *)
Inductive decision : Type :=
| Continue (d : diag)
| Observable (svid codeType : string) (l1 d1 : pynum).

Definition observable (svid : string) (b : string * pynum * pynum) : decision :=
  let '(codeType, l1, d1) := b in Observable svid codeType l1 d1.

Definition classify (values : raw F) (c1 : F) (prn : Z) : res decision :=
  let f := carrier_frequency values in
  constellation <- py_int_field (ConstellationType values) ;;
  if (constellation =? CONSTELLATION_GPS)%Z then
    let svid := "G" ++ fmt_02d prn in
    b <- (if f >? MHZ_1500 then band "L1" values c1 GPS_L1_WAVELENGTH GPS_L1_WAVELENGTH
          else if f >? MHZ_1200 then band "L2" values c1 GPS_L2_WAVELENGTH GPS_L2_WAVELENGTH
          else if f >? MHZ_1100 then band "L5" values c1 GPS_L5_WAVELENGTH GPS_L5_WAVELENGTH
          else Ok no_band) ;;
    Ok (observable svid b)
  else if (constellation =? CONSTELLATION_GLONASS)%Z then
    if (93 <=? prn)%Z then Ok (Continue FrequencySlotNumber)
    else
      let svid := "R" ++ fmt_02d prn in
      b <- (if f >? MHZ_1500 then
              chel <- py_index GLN_LIST (prn - 1) ;;
              wl <- get_glo_L1 chel ;;
              band "L1" values c1 wl wl
            else if f >? MHZ_1200 then
              chel <- py_index GLN_LIST (prn - 1) ;;
              wl <- get_glo_L2 chel ;;
              band "L2" values c1 wl wl
            else Ok no_band) ;;
      Ok (observable svid b)
  else if (constellation =? CONSTELLATION_GALILEO)%Z then
    let svid := "E" ++ fmt_02d prn in
    b <- (if f >? MHZ_1500 then band "E1" values c1 GAL_E1_WAVELENGTH GAL_E1_WAVELENGTH
          else if f >? MHZ_1250 then band "E6" values c1 GAL_E6_WAVELENGTH GAL_E5B_WAVELENGTH
          else if f >? MHZ_1200 then band "E5b" values c1 GAL_E5B_WAVELENGTH GAL_E5B_WAVELENGTH
          else if f >? MHZ_1100 then band "E5a" values c1 GAL_E5A_WAVELENGTH GAL_E5A_WAVELENGTH
          else Ok no_band) ;;
    Ok (observable svid b)
  else if (constellation =? CONSTELLATION_BEIDOU)%Z then
    let svid := "C" ++ fmt_02d prn in
    b <- (if f >? MHZ_1500 then band "B1" values c1 BDS_L1_WAVELENGTH BDS_L1_WAVELENGTH
          else if f >? MHZ_1250 then band "B3" values c1 BDS_L3_WAVELENGTH BDS_L3_WAVELENGTH
          else if f >? MHZ_1100 then band "B2" values c1 BDS_L2_WAVELENGTH BDS_L2_WAVELENGTH
          else Ok no_band) ;;
    Ok (observable svid b)
  else if (constellation =? CONSTELLATION_QZSS)%Z then
    Ok (Continue ConstellationNotSupported)
  else if (constellation =? CONSTELLATION_SBAS)%Z then
    Ok (Continue ConstellationNotSupported)
  else Ok (Continue ConstellationUnknown).

Definition set_batch (b : RinexBatch) (st : state) : state :=
  {| first_epoch := first_epoch st; rinex_batch := Some b;
     fullbiasnanos := fullbiasnanos st; out := out st; err := err st |}.

Definition set_fullbiasnanos (fb : F) (st : state) : state :=
  {| first_epoch := first_epoch st; rinex_batch := rinex_batch st;
     fullbiasnanos := Some fb; out := out st; err := err st |}.

Definition write_out (w : written) (st : state) : state :=
  {| first_epoch := first_epoch st; rinex_batch := rinex_batch st;
     fullbiasnanos := fullbiasnanos st;
     out := (out st ++ [w])%list; err := err st |}.

(** [if first_epoch is None: out.write(end_header(epoch)); first_epoch = False]. *)
Definition end_header_once (epoch : datetime) (st : state) : state :=
  match first_epoch st with
  | None =>
      {| first_epoch := Some false; rinex_batch := rinex_batch st;
         fullbiasnanos := fullbiasnanos st;
         out := (out st ++ [EndHeader epoch])%list; err := err st |}
  | Some _ => st
  end.

(** [rinex_batch.print()] with its two effects: the warnings go to
    stderr, the returned string to [out]. *)
Definition flush (b : RinexBatch) (st : state) : res state :=
  '(text, warnings) <- print b ;;
  Ok {| first_epoch := first_epoch st; rinex_batch := rinex_batch st;
        fullbiasnanos := fullbiasnanos st;
        out := (out st ++ [Epoch text])%list;
        err := (err st ++ warnings)%list |}.

(** [if rinex_batch is None: ... elif rinex_batch.epoch != epoch: ...]. *)
Definition switch_batch (epoch : datetime) (st : state) : res state :=
  match rinex_batch st with
  | None => Ok (set_batch (new_batch epoch) st)
  | Some b =>
      if negb (B.epoch b =? epoch)%Z then
        st <- flush b st ;;
        Ok (set_batch (new_batch epoch) st)
      else Ok st
  end.

(** [try: check_adr_state(int(...)) except ValueError as e: ...; l1 = 0]:
    only a [ValueError] is caught. *)
Definition adr_check (values : raw F) (svid : string) (l1 : pynum) (st : state)
  : res (pynum * state) :=
  match (s <- py_int_field (AccumulatedDeltaRangeState values) ;;
         check_adr_state s) with
  | Ok _ => Ok (l1, st)
  | Raise ValueError => Ok (PyInt 0, write_err (AdrStateWarning svid) st)
  | Raise e => Raise e
  end.

(** [rinex_batch.add(codeType, svid, '{:.3f}'.format(c1), ...)]. *)
Definition store (codeType svid : string) (c1 s1 : F) (l1 d1 : pynum)
    (st : state) : res state :=
  match rinex_batch st with
  | None => Raise AttributeError
  | Some b =>
      b' <- add codeType svid (fmt_3f c1) (fmt_3f s1)
                (fmt_3f_num l1) (fmt_3f_num d1) b ;;
      Ok (set_batch b' st)
  end.

(** The body of the loop [for line in fh], from the line on which
    [values] is built to the end of the iteration. *)
Definition process_values (args : options) (values : raw F) (st : state)
  : res state :=
  let st := sync_check values st in
  fullbiasnanos <- update_fullbiasnanos args values (fullbiasnanos st) ;;
  let st := set_fullbiasnanos fullbiasnanos st in
  gpsweek <- gpsweek_of fullbiasnanos ;;
  gpssow <- gpssow_of fullbiasnanos gpsweek values ;;
  frac <- frac_of args gpssow ;;
  epoch <- gpstime_to_epoch gpsweek (gpssow - frac) ;;
  let st := end_header_once epoch st in
  st <- switch_batch epoch st ;;
  tRx_nanos <- tRx_nanos_of values fullbiasnanos ;;
  c1 <- c1_of args values tRx_nanos frac ;;
  prn <- py_int_field (Svid values) ;;
  decision <- classify values c1 prn ;;
  match decision with
  | Continue message => Ok (write_err message st)
  | Observable svid codeType l1 d1 =>
      '(l1, st) <- adr_check values svid l1 st ;;
      s1 <- py_float (Cn0DbHz values) ;;
      store codeType svid c1 s1 l1 d1 st
  end.

(** The loop over the well-formed [Raw] lines. *)
Fixpoint process_all (args : options) (lines : list (raw F)) (st : state)
  : res state :=
  match lines with
  | [] => Ok st
  | values :: rest =>
      st <- process_values args values st ;;
      process_all args rest st
  end.

(** The loop followed by [out.write(rinex_batch.print())]. *)
Definition main (args : options) (lines : list (raw F)) : res state :=
  st <- process_all args lines initial ;;
  match rinex_batch st with
  | None => Raise AttributeError
  | Some b => flush b st
  end.
End Program.

End V303.

(* ================================================================== *)
(** ** android_to_rinex_2.11.py *)

Module V211.

(** The fields of [RinexBatch]: parallel lists, one entry per [add].  The
    observables are stored as they were computed; [s1] is
    [values['Cn0DbHz']] itself and may be [None]. *)
Module B.
Record RinexBatch (F : Type) : Type := {
  epoch : datetime;
  svids : list string;
  c1 : list F;
  l1 : list F;
  s1 : list (option F);
  d1 : list F
}.
End B.

Section Program.
Context {F : Type} `{PyFloat F}.
Local Open Scope py_scope.

Definition RinexBatch : Type := B.RinexBatch F.

(** [RinexBatch(epoch)]. *)
Definition new_batch (epoch : datetime) : RinexBatch :=
  {| B.epoch := epoch; B.svids := [];
     B.c1 := []; B.l1 := []; B.s1 := []; B.d1 := [] |}.

(** [RinexBatch.add(svid, c1, s1, l1, d1)]. *)
Definition add (svid : string) (c1 : F) (s1 : option F) (l1 d1 : F)
    (self : RinexBatch) : RinexBatch :=
  {| B.epoch := B.epoch self;
     B.svids := (B.svids self ++ [svid])%list;
     B.c1 := (B.c1 self ++ [c1])%list;
     B.l1 := (B.l1 self ++ [l1])%list;
     B.s1 := (B.s1 self ++ [s1])%list;
     B.d1 := (B.d1 self ++ [d1])%list |}.

(** ["{0:14.3f}  {1:14.3f}  {2:14.3f}  {3:14.3f}\n".format(c1, s1, l1, d1)];
    formatting [None] with a float format is a [TypeError]. *)
Definition format_line (c1 : F) (s1 : option F) (l1 d1 : F) : res string :=
  match s1 with
  | None => Raise TypeError
  | Some s1 =>
      Ok (fmt_14_3f c1 ++ "  " ++ fmt_14_3f s1 ++ "  " ++
          fmt_14_3f l1 ++ "  " ++ fmt_14_3f d1 ++ newline)%string
  end.

(** The loop of [print] over [range(len(self.svids))], from index [i]
    on: it extends the epoch line [b] and the data lines [data]. *)
Fixpoint print_loop (self : RinexBatch) (range : list nat) (b data : string)
  : res (string * string) :=
  match range with
  | [] => Ok (b, data)
  | i :: rest =>
      let b := if (0 <? i)%nat && (i mod 12 =? 0)%nat
               then (b ++ newline ++ pad_right " " 32 " ")%string else b in
      svid <- list_get (B.svids self) i ;;
      let b := (b ++ svid)%string in
      c1 <- list_get (B.c1 self) i ;;
      s1 <- list_get (B.s1 self) i ;;
      l1 <- list_get (B.l1 self) i ;;
      d1 <- list_get (B.d1 self) i ;;
      line <- format_line c1 s1 l1 d1 ;;
      print_loop self rest b (data ++ line)%string
  end.

(** The start of the epoch line: [" %y %m %d %H %M %S.%f   0"] followed
    by the number of satellites as ["{0:3d}"]. *)
Definition epoch_line (self : RinexBatch) : string :=
  (" " ++ strftime_y " " (B.epoch self) ++ "   0" ++
   fmt_3d (Z.of_nat (List.length (B.svids self))))%string.

(** [RinexBatch.print()]: the returned string and what went to stderr. *)
Definition print (self : RinexBatch) : res (string * list diag) :=
  if has_repeated (B.svids self) then
    Ok (""%string, [RepeatedEntries (B.epoch self)])
  else
    '(b, data) <- print_loop self (seq 0 (List.length (B.svids self)))
                    (epoch_line self) "" ;;
    Ok ((b ++ newline ++ data)%string, []).

Definition GPS_L1_FREQ : F := of_int 154 * of_int 10230000.
Definition GPS_L1_WAVELENGTH : F := SPEED_OF_LIGHT / GPS_L1_FREQ.

(** The bounds of the pseudorange edit, [40e6] and [10e6]. *)
Definition C1_MAX : F := of_int 40000000.
Definition C1_MIN : F := of_int 10000000.

Record state : Type := {
  first_epoch : option bool;
  rinex_batch : option RinexBatch;
  fullbiasnanos : option F;
  out : list written;
  err : list diag
}.

Definition initial : state :=
  {| first_epoch := None; rinex_batch := None; fullbiasnanos := None;
     out := []; err := [] |}.

Definition write_err (d : diag) (st : state) : state :=
  {| first_epoch := first_epoch st; rinex_batch := rinex_batch st;
     fullbiasnanos := fullbiasnanos st;
     out := out st; err := (err st ++ [d])%list |}.

Definition set_batch (b : RinexBatch) (st : state) : state :=
  {| first_epoch := first_epoch st; rinex_batch := Some b;
     fullbiasnanos := fullbiasnanos st; out := out st; err := err st |}.

Definition set_fullbiasnanos (fb : F) (st : state) : state :=
  {| first_epoch := first_epoch st; rinex_batch := rinex_batch st;
     fullbiasnanos := Some fb; out := out st; err := err st |}.

(** [try: check_state(int(values['State'])) except Exception as e: ...]
    under the comment "Skip this measurement if no synched": the handler
    writes to stderr and has no [continue]. *)
Definition sync_check (values : raw F) (st : state) : state :=
  match (s <- py_int_field (State values) ;; check_state s) with
  | Ok _ => st
  | Raise e => write_err (InvalidState e) st
  end.

Definition update_fullbiasnanos (args : options) (values : raw F)
    (current : option F) : res F :=
  match current with
  | None => py_float (FullBiasNanos values)
  | Some fb =>
      if negb (fix_bias args) then py_float (FullBiasNanos values) else Ok fb
  end.

(** [gpsweek = math.floor(-fullbiasnanos * NS_TO_S / GPS_WEEKSECS)]. *)
Definition gpsweek_of (fullbiasnanos : F) : res Z :=
  math_floor (- fullbiasnanos * NS_TO_S / of_int GPS_WEEKSECS).

(** [local_est_GPS_time] and [gpssow]; a [None] operand is a [TypeError]. *)
Definition gpssow_of (fullbiasnanos : F) (gpsweek : Z) (values : raw F) : res F :=
  TimeNanos <- py_float (TimeNanos values) ;;
  BiasNanos <- py_float (BiasNanos values) ;;
  let local_est_GPS_time := TimeNanos - (fullbiasnanos + BiasNanos) in
  weeksecs <- float_of_int (gpsweek * GPS_WEEKSECS)%Z ;;
  Ok (local_est_GPS_time * NS_TO_S - weeksecs).

(** [frac = 0.0; if args.integerize: frac = gpssow - int(gpssow+0.5)]. *)
Definition frac_of (args : options) (gpssow : F) : res F :=
  if integerize args then
    n <- py_int (gpssow + half) ;;
    nf <- float_of_int n ;;
    Ok (gpssow - nf)
  else Ok (of_int 0).

Definition end_header_once (epoch : datetime) (st : state) : state :=
  match first_epoch st with
  | None =>
      {| first_epoch := Some false; rinex_batch := rinex_batch st;
         fullbiasnanos := fullbiasnanos st;
         out := (out st ++ [EndHeader epoch])%list; err := err st |}
  | Some _ => st
  end.

Definition flush (b : RinexBatch) (st : state) : res state :=
  '(text, warnings) <- print b ;;
  Ok {| first_epoch := first_epoch st; rinex_batch := rinex_batch st;
        fullbiasnanos := fullbiasnanos st;
        out := (out st ++ [Epoch text])%list;
        err := (err st ++ warnings)%list |}.

Definition switch_batch (epoch : datetime) (st : state) : res state :=
  match rinex_batch st with
  | None => Ok (set_batch (new_batch epoch) st)
  | Some b =>
      if negb (B.epoch b =? epoch)%Z then
        st <- flush b st ;;
        Ok (set_batch (new_batch epoch) st)
      else Ok st
  end.

(** [values['TimeOffsetNanos']] after
    [if values['TimeOffsetNanos'] is None: values['TimeOffsetNanos'] = 0.0]. *)
Definition time_offset_nanos (values : raw F) : F :=
  match TimeOffsetNanos values with
  | None => of_int 0
  | Some x => x
  end.

(** [tau = tRxSeconds - tTxSeconds; if tau < 0: tau += GPS_WEEKSECS]. *)
Definition tau_of (tRxSeconds tTxSeconds : F) : F :=
  let tau := tRxSeconds - tTxSeconds in
  if tau <? of_int 0 then tau + of_int GPS_WEEKSECS else tau.

(** [c1] (lines 408-425). *)
Definition c1_of (args : options) (values : raw F) (gpssow frac : F) : res F :=
  let tRxSeconds := gpssow - time_offset_nanos values * NS_TO_S in
  ReceivedSvTimeNanos <- py_float (ReceivedSvTimeNanos values) ;;
  let tTxSeconds := ReceivedSvTimeNanos * NS_TO_S in
  let tau := tau_of tRxSeconds tTxSeconds in
  let c1 := tau * SPEED_OF_LIGHT in
  if integerize args then
    rate <- py_float (PseudorangeRateMetersPerSecond values) ;;
    Ok (c1 - frac * rate)
  else Ok c1.

(** [values['ConstellationType'] == c] on the field as it was parsed: a
    float compared with an int, and [None == c] is [False]. *)
Definition constellation_is (values : raw F) (c : Z) : bool :=
  match ConstellationType values with
  | None => false
  | Some x => x =? of_int c
  end.

(** [values['Svid'] >= 93]. *)
Definition svid_ge_93 (values : raw F) : res bool :=
  x <- py_float (Svid values) ;;
  Ok (x >=? of_int 93).

(** The constellation branch (lines 428-454): [None] stands for
    [continue] after the message, otherwise the satellite id. *)
Definition svid_of (values : raw F) (prn : Z) : res (diag + string) :=
  if constellation_is values CONSTELLATION_GPS then
    Ok (inr ("G" ++ fmt_02d prn)%string)
  else if constellation_is values CONSTELLATION_GLONASS then
    fsn <- svid_ge_93 values ;;
    if fsn then Ok (inl FrequencySlotNumber)
    else Ok (inr ("R" ++ fmt_02d prn)%string)
  else if constellation_is values CONSTELLATION_GALILEO then
    Ok (inr ("E" ++ fmt_02d prn)%string)
  else if constellation_is values CONSTELLATION_BEIDOU then
    Ok (inr ("C" ++ fmt_02d prn)%string)
  else if constellation_is values CONSTELLATION_QZSS then
    Ok (inl ConstellationNotSupported)
  else if constellation_is values CONSTELLATION_SBAS then
    Ok (inl ConstellationNotSupported)
  else Ok (inl ConstellationUnknown).

(** [not args.skip_edit and (c1 > 40e6 or c1 < 10e6)]. *)
Definition out_of_bounds (args : options) (c1 : F) : bool :=
  negb (skip_edit args) && ((c1 >? C1_MAX) || (c1 <? C1_MIN)).

(** The body of the loop [for line in fh], from the line on which
    [values] is built to the end of the iteration. *)
Definition process_values (args : options) (values : raw F) (st : state)
  : res state :=
  let st := sync_check values st in
  fullbiasnanos <- update_fullbiasnanos args values (fullbiasnanos st) ;;
  let st := set_fullbiasnanos fullbiasnanos st in
  gpsweek <- gpsweek_of fullbiasnanos ;;
  gpssow <- gpssow_of fullbiasnanos gpsweek values ;;
  frac <- frac_of args gpssow ;;
  epoch <- gpstime_to_epoch gpsweek (gpssow - frac) ;;
  let st := end_header_once epoch st in
  st <- switch_batch epoch st ;;
  c1 <- c1_of args values gpssow frac ;;
  prn <- py_int_field (Svid values) ;;
  id <- svid_of values prn ;;
  match id with
  | inl message => Ok (write_err message st)
  | inr svid =>
      if out_of_bounds args c1 then Ok (write_err (OutOfBounds svid) st)
      else
        adr <- py_float (AccumulatedDeltaRangeMeters values) ;;
        let l1 := adr / GPS_L1_WAVELENGTH in
        rate <- py_float (PseudorangeRateMetersPerSecond values) ;;
        let d1 := - rate / GPS_L1_WAVELENGTH in
        match rinex_batch st with
        | None => Raise AttributeError
        | Some b => Ok (set_batch (add svid c1 (Cn0DbHz values) l1 d1 b) st)
        end
  end.

Fixpoint process_all (args : options) (lines : list (raw F)) (st : state)
  : res state :=
  match lines with
  | [] => Ok st
  | values :: rest =>
      st <- process_values args values st ;;
      process_all args rest st
  end.

(** The loop followed by [out.write(rinex_batch.print())]. *)
Definition main (args : options) (lines : list (raw F)) : res state :=
  st <- process_all args lines initial ;;
  match rinex_batch st with
  | None => Raise AttributeError
  | Some b => flush b st
  end.
End Program.

End V211.
(* ================================================================== *)
(** ** Definitions the statements below are phrased with *)

(** *** Batches built by [add] (3.03) *)

(** The six arguments of one call of [RinexBatch.add]. *)
Record observation : Type := {
  o_codeType : string;
  o_svid : string;
  o_c1 : string;
  o_s1 : string;
  o_l1 : string;
  o_d1 : string
}.

Definition add_obs (o : observation) (b : V303.RinexBatch) : res V303.RinexBatch :=
  V303.add (o_codeType o) (o_svid o) (o_c1 o) (o_s1 o) (o_l1 o) (o_d1 o) b.

(** A sequence of calls of [add] on one batch. *)
Fixpoint add_all (obs : list observation) (b : V303.RinexBatch)
  : res V303.RinexBatch :=
  match obs with
  | [] => Ok b
  | o :: rest => b' <- add_obs o b ;; add_all rest b'
  end.

Definition mem (x : string) (l : list string) : bool :=
  existsb (String.eqb x) l.

(** The ids of [ids] that are not in [seen], each at its first occurrence. *)
Fixpoint first_seen (ids seen : list string) : list string :=
  match ids with
  | [] => []
  | id :: rest =>
      if mem id seen then first_seen rest seen
      else id :: first_seen rest (seen ++ [id])
  end.

(** All parallel lists of a batch have the length of [svids]. *)
Definition wf_batch (b : V303.RinexBatch) : bool :=
  let n := List.length (V303.B.svids b) in
  (List.length (V303.B.c1 b) =? n)%nat && (List.length (V303.B.c2 b) =? n)%nat &&
  (List.length (V303.B.l1 b) =? n)%nat && (List.length (V303.B.l2 b) =? n)%nat &&
  (List.length (V303.B.s1 b) =? n)%nat && (List.length (V303.B.s2 b) =? n)%nat &&
  (List.length (V303.B.d1 b) =? n)%nat && (List.length (V303.B.d2 b) =? n)%nat.

(** One satellite of a batch: its id and the two bands' four columns. *)
Record row : Type := {
  r_svid : string;
  r_c1 : string; r_l1 : string; r_d1 : string; r_s1 : string;
  r_c2 : string; r_l2 : string; r_d2 : string; r_s2 : string
}.

Definition row_at (b : V303.RinexBatch) (i : nat) : row :=
  {| r_svid := nth i (V303.B.svids b) "";
     r_c1 := nth i (V303.B.c1 b) ""; r_l1 := nth i (V303.B.l1 b) "";
     r_d1 := nth i (V303.B.d1 b) ""; r_s1 := nth i (V303.B.s1 b) "";
     r_c2 := nth i (V303.B.c2 b) ""; r_l2 := nth i (V303.B.l2 b) "";
     r_d2 := nth i (V303.B.d2 b) ""; r_s2 := nth i (V303.B.s2 b) "" |}.

(** The satellites of a batch in the order of [svids]. *)
Definition rows (b : V303.RinexBatch) : list row :=
  map (row_at b) (seq 0 (List.length (V303.B.svids b))).

Definition format_row (r : row) : string :=
  V303.format_line (r_svid r) (r_c1 r) (r_l1 r) (r_d1 r) (r_s1 r)
                   (r_c2 r) (r_l2 r) (r_d2 r) (r_s2 r).

(** The strings of a list, one after the other. *)
Definition join (l : list string) : string := fold_right append "" l.

(** The data lines of the satellites whose id contains [letter], in the
    order of [rs]. *)
Definition block (letter : ascii) (rs : list row) : string :=
  join (map format_row (filter (fun r => contains_char letter (r_svid r)) rs)).

(** The blocks of [letters], one after the other. *)
Definition blocks (letters : list ascii) (rs : list row) : string :=
  join (map (fun letter => block letter rs) letters).

(** *** Sync state (both scripts) *)

(** [check_state(int(values['State']))]. *)
Definition sync {F : Type} `{PyFloat F} (values : raw F) : res bool :=
  s <- py_int_field (State values) ;; check_state s.

(** [values] with another [State] field. *)
Definition with_State {F : Type} (s : option F) (v : raw F) : raw F :=
  {| State := s;
     FullBiasNanos := FullBiasNanos v; TimeNanos := TimeNanos v;
     BiasNanos := BiasNanos v; TimeOffsetNanos := TimeOffsetNanos v;
     LeapSecond := LeapSecond v; ConstellationType := ConstellationType v;
     CarrierFrequencyHz := CarrierFrequencyHz v;
     ReceivedSvTimeNanos := ReceivedSvTimeNanos v;
     PseudorangeRateMetersPerSecond := PseudorangeRateMetersPerSecond v;
     Svid := Svid v;
     AccumulatedDeltaRangeMeters := AccumulatedDeltaRangeMeters v;
     AccumulatedDeltaRangeState := AccumulatedDeltaRangeState v;
     Cn0DbHz := Cn0DbHz v |}.

(** *** The statements of the specification that the code does not follow *)

Section AsClaimed.
Context {F : Type} `{PyFloat F}.
Local Open Scope py_scope.

(** The reception-time origin as the specification words it: Galileo
    takes the week start in the high band and the 100 ms boundary in the
    low band (carrier frequency below 1500 MHz). *)
Definition tRx_nanos_as_claimed (values : raw F) (fullbiasnanos : F) : res F :=
  week_number_nanos <- V303.week_number_nanos fullbiasnanos ;;
  day_number_nanos <- V303.day_number_nanos fullbiasnanos ;;
  millSec_number_nanos <- V303.millSec_number_nanos fullbiasnanos ;;
  tRx_GNSS <- V303.tRx_GNSS_of values ;;
  constellation <- py_int_field (ConstellationType values) ;;
  if (constellation =? CONSTELLATION_GPS)%Z then
    Ok (tRx_GNSS - week_number_nanos)
  else if (constellation =? CONSTELLATION_GLONASS)%Z then
    LeapSecond <- V303.leap_second values ;;
    offset <- float_of_int (3 * 3600 - LeapSecond)%Z ;;
    Ok (tRx_GNSS - day_number_nanos + offset * V303.S_TO_NS)
  else if (constellation =? CONSTELLATION_GALILEO)%Z then
    CarrierFrequencyHz <- py_float (CarrierFrequencyHz values) ;;
    if CarrierFrequencyHz <? V303.MHZ_1500 then
      Ok (tRx_GNSS - millSec_number_nanos)
    else
      Ok (tRx_GNSS - week_number_nanos)
  else if (constellation =? CONSTELLATION_BEIDOU)%Z then
    Ok (tRx_GNSS - week_number_nanos - of_int 14 * V303.S_TO_NS)
  else
    Ok (tRx_GNSS - week_number_nanos).

(** The ambiguity correction as the specification words it: the wrap
    count is the ratio rounded away from zero to an integer. *)
Definition correction_as_claimed (psr rawCycles wl : F) : res F :=
  q <- py_div psr wl ;;
  let ratio := (q + rawCycles) / of_int V303.MAX_VALUE in
  wrapCount <- py_int (if ratio <=? of_int 0 then ratio - half else ratio + half) ;;
  wraps <- float_of_int (V303.MAX_VALUE * wrapCount)%Z ;;
  Ok (- (rawCycles - wraps)).

(** A record fails every band test of its constellation (the tests of
    lines 611-627, 647-655, 668-692 and 705-721). *)
Definition below_every_band (values : raw F) : bool :=
  let f := V303.carrier_frequency values in
  match py_int_field (ConstellationType values), py_int_field (Svid values) with
  | Ok c, Ok prn =>
      if (c =? CONSTELLATION_GPS)%Z then
        negb (f >? V303.MHZ_1500) && negb (f >? V303.MHZ_1200) &&
        negb (f >? V303.MHZ_1100)
      else if (c =? CONSTELLATION_GLONASS)%Z then
        (prn <? 93)%Z && negb (f >? V303.MHZ_1500) && negb (f >? V303.MHZ_1200)
      else if (c =? CONSTELLATION_GALILEO)%Z then
        negb (f >? V303.MHZ_1500) && negb (f >? V303.MHZ_1250) &&
        negb (f >? V303.MHZ_1200) && negb (f >? V303.MHZ_1100)
      else if (c =? CONSTELLATION_BEIDOU)%Z then
        negb (f >? V303.MHZ_1500) && negb (f >? V303.MHZ_1250) &&
        negb (f >? V303.MHZ_1100)
      else false
  | _, _ => false
  end.
End AsClaimed.

(** *** Sample inputs *)

Definition default_options : options :=
  {| fix_bias := false; integerize := false; skip_edit := false |}.


(** A GPS L1 measurement of satellite 5, about 73 ms of travel time. *)
Definition gps_l1 : raw float :=
  {| State := Some 15%float;
     FullBiasNanos := Some (-1270000000123456789)%float;
     TimeNanos := Some 5000000000%float;
     BiasNanos := Some 0.25%float;
     TimeOffsetNanos := Some 0%float;
     LeapSecond := None;
     ConstellationType := Some 1%float;
     CarrierFrequencyHz := Some 1575420000%float;
     ReceivedSvTimeNanos := Some 524805050000000%float;
     PseudorangeRateMetersPerSecond := Some (-123.5)%float;
     Svid := Some 5%float;
     AccumulatedDeltaRangeMeters := Some 1000%float;
     AccumulatedDeltaRangeState := Some 1%float;
     Cn0DbHz := Some 35.5%float |}.

(** [gps_l1] with other values in four of its fields. *)
Definition variant (state constellation svid carrier : float) : raw float :=
  {| State := Some state;
     FullBiasNanos := FullBiasNanos gps_l1;
     TimeNanos := TimeNanos gps_l1;
     BiasNanos := BiasNanos gps_l1;
     TimeOffsetNanos := TimeOffsetNanos gps_l1;
     LeapSecond := LeapSecond gps_l1;
     ConstellationType := Some constellation;
     CarrierFrequencyHz := Some carrier;
     ReceivedSvTimeNanos := ReceivedSvTimeNanos gps_l1;
     PseudorangeRateMetersPerSecond := PseudorangeRateMetersPerSecond gps_l1;
     Svid := Some svid;
     AccumulatedDeltaRangeMeters := AccumulatedDeltaRangeMeters gps_l1;
     AccumulatedDeltaRangeState := AccumulatedDeltaRangeState gps_l1;
     Cn0DbHz := Cn0DbHz gps_l1 |}.

(** The same measurement with neither sync bit set. *)
Definition gps_l1_unsynced : raw float := variant 0 1 5 1575420000.

(** A GPS record whose carrier frequency is 1000 MHz. *)
Definition gps_low : raw float := variant 15 1 5 1000000000.

(** A Galileo E1 record and a Galileo E5a record. *)
Definition galileo_e1 : raw float := variant 15 6 11 1575420000.
Definition galileo_e5a : raw float := variant 15 6 11 1176450000.

(** A GLONASS L1 record with [Svid = 25]. *)
Definition glonass_25 : raw float := variant 15 3 25 1602000000.

Definition sample_fullbiasnanos : float := (-1270000000123456789)%float.


(** [gps_l1] with a transmission time of 1808190 s, more than a week
    after the reception time of 524805 s. *)
Definition gps_late : raw float :=
  {| State := State gps_l1;
     FullBiasNanos := FullBiasNanos gps_l1;
     TimeNanos := TimeNanos gps_l1;
     BiasNanos := BiasNanos gps_l1;
     TimeOffsetNanos := TimeOffsetNanos gps_l1;
     LeapSecond := LeapSecond gps_l1;
     ConstellationType := ConstellationType gps_l1;
     CarrierFrequencyHz := CarrierFrequencyHz gps_l1;
     ReceivedSvTimeNanos := Some 1808190000000000%float;
     PseudorangeRateMetersPerSecond := PseudorangeRateMetersPerSecond gps_l1;
     Svid := Svid gps_l1;
     AccumulatedDeltaRangeMeters := AccumulatedDeltaRangeMeters gps_l1;
     AccumulatedDeltaRangeState := AccumulatedDeltaRangeState gps_l1;
     Cn0DbHz := Cn0DbHz gps_l1 |}.

(** A GLONASS L1 record of slot 7 and a BeiDou B1 record. *)
Definition glonass_l1 : raw float := variant 15 3 7 1602000000.
Definition beidou_b1 : raw float := variant 15 5 9 1561098000.

(** [tRx_GNSS] of the samples and the starts of the week, of the day and
    of the 100 ms interval that contain [-sample_fullbiasnanos]. *)
Definition sample_tRx_GNSS : float := 1270000005123456768%float.
Definition sample_week : float := 1269475200000000000%float.
Definition sample_day : float := 1269993600000000000%float.
Definition sample_100ms : float := 1270000000100000000%float.

(** A 3.03 batch and a 2.11 batch in which ["G05"] occurs twice. *)
Definition repeated_303 : V303.RinexBatch :=
  {| V303.B.epoch := 0; V303.B.svids := ["G05"; "G05"];
     V303.B.c1 := ["1.000"; "2.000"]; V303.B.c2 := [""; ""];
     V303.B.l1 := ["1.000"; "2.000"]; V303.B.l2 := [""; ""];
     V303.B.s1 := ["1.000"; "2.000"]; V303.B.s2 := [""; ""];
     V303.B.d1 := ["1.000"; "2.000"]; V303.B.d2 := [""; ""] |}.

Definition repeated_211 : V211.RinexBatch (F := float) :=
  V211.add "G05" 2%float (Some 2%float) 2%float 2%float
    (V211.add "G05" 1%float (Some 1%float) 1%float 1%float (V211.new_batch 0)).

(** The state in which the loop body leaves [gps_low], run first. *)
Definition gps_low_state : @V303.state float :=
  Eval vm_compute in
    match V303.process_values default_options gps_low V303.initial with
    | Ok st => st
    | Raise _ => V303.initial
    end.

(** *** Batches and states reached by the 3.03 loop *)

(** The ids the loop builds: a constellation letter and ['{0:02d}'] of the
    PRN. *)
Definition loop_svid (svid : string) : Prop :=
  exists (letter : string) (prn : Z),
    In letter ["G"; "R"; "E"; "C"] /\ svid = letter ++ fmt_02d prn.

(** The batch invariant of the loop: parallel lists of one length, no id
    twice, every id built by the loop. *)
Definition batch_inv (b : V303.RinexBatch) : Prop :=
  wf_batch b = true /\ NoDup (V303.B.svids b) /\ Forall loop_svid (V303.B.svids b).

Definition state_inv {F : Type} (st : @V303.state F) : Prop :=
  match V303.rinex_batch st with
  | None => True
  | Some b => batch_inv b
  end.

(** The rows in the order in which [print] writes their lines: for each
    letter of [block_order], the rows whose id contains the letter. *)
Definition printed_rows (rs : list row) : list row :=
  concat (map (fun letter => filter (fun r => contains_char letter (r_svid r)) rs)
              V303.block_order).

(** The number of blocks in which [print] writes the line of [svid]. *)
Definition times_printed (svid : string) : nat :=
  List.length (filter (fun letter => contains_char letter svid) V303.block_order).

(** *** A sample run of the 3.03 loop *)

(** Three records of one epoch: GPS 5 on L1, Galileo 11 on E1, and GPS 5
    again on L5. *)
Definition gps_l5 : raw float := variant 15 1 5 1176450000.

Definition sample_lines : list (raw float) := [gps_l1; galileo_e1; gps_l5].

(** The state in which the loop leaves [sample_lines]. *)
Definition sample_state : @V303.state float :=
  Eval vm_compute in
    match V303.process_all default_options sample_lines V303.initial with
    | Ok st => st
    | Raise _ => V303.initial
    end.

(** The text of the lines that [print] returns for a batch built by the
    loop. *)
Definition batch_text (b : V303.RinexBatch) : string :=
  V303.epoch_line b ++ newline ++ join (map format_row (printed_rows (rows b))).

(** *** Records that the constellation branch rejects (3.03) *)

(** The record is of QZSS, of SBAS, of no known constellation, or of
    GLONASS with a frequency slot number (93 and above) as its id. *)
Definition rejected {F : Type} `{PyFloat F} (values : raw F) : bool :=
  match py_int_field (ConstellationType values), py_int_field (Svid values) with
  | Ok c, Ok prn =>
      if (c =? CONSTELLATION_GPS) then false
      else if (c =? CONSTELLATION_GLONASS) then (93 <=? prn)
      else if (c =? CONSTELLATION_GALILEO) then false
      else if (c =? CONSTELLATION_BEIDOU) then false
      else true
  | _, _ => false
  end.

(** The messages of the constellation branch. *)
Definition rejection_messages : list diag :=
  [FrequencySlotNumber; ConstellationNotSupported; ConstellationUnknown].

(** [values] with other values in three of its fields. *)
Definition with_fields {F : Type} (values : raw F)
    (constellation carrier adr_state : option F) : raw F :=
  {| State := State values;
     FullBiasNanos := FullBiasNanos values;
     TimeNanos := TimeNanos values;
     BiasNanos := BiasNanos values;
     TimeOffsetNanos := TimeOffsetNanos values;
     LeapSecond := LeapSecond values;
     ConstellationType := constellation;
     CarrierFrequencyHz := carrier;
     ReceivedSvTimeNanos := ReceivedSvTimeNanos values;
     PseudorangeRateMetersPerSecond := PseudorangeRateMetersPerSecond values;
     Svid := Svid values;
     AccumulatedDeltaRangeMeters := AccumulatedDeltaRangeMeters values;
     AccumulatedDeltaRangeState := adr_state;
     Cn0DbHz := Cn0DbHz values |}.

Definition qzss_l1 : raw float :=
  with_fields gps_l1 (Some 4%float) (Some 1575420000%float) (Some 1%float).
Definition galileo_no_carrier : raw float :=
  with_fields gps_l1 (Some 6%float) None (Some 1%float).


(** *** Batches and states reached by the 2.11 loop *)

(** The test a pseudorange passes to be stored when the edit is on:
    neither [c1 > 40e6] nor [c1 < 10e6]. *)
Definition within_bounds {F : Type} `{PyFloat F} (c1 : F) : bool :=
  negb ((c1 >? V211.C1_MAX) || (c1 <? V211.C1_MIN))%py.

(** Every pseudorange of the batch passed the edit. *)
Definition edited {F : Type} `{PyFloat F} (st : @V211.state F) : Prop :=
  match V211.rinex_batch st with
  | None => True
  | Some b => Forall (fun c1 => within_bounds c1 = true) (V211.B.c1 b)
  end.

(** The five arguments of one call of the 2.11 [RinexBatch.add]. *)
Record measurement (F : Type) : Type := {
  m_svid : string;
  m_c1 : F;
  m_s1 : option F;
  m_l1 : F;
  m_d1 : F
}.

Definition add_measurement {F : Type} (b : V211.RinexBatch (F := F))
    (m : measurement F) : V211.RinexBatch (F := F) :=
  V211.add (m_svid m) (m_c1 m) (m_s1 m) (m_l1 m) (m_d1 m) b.

(** [add] called once for each measurement of [ms], in order. *)
Definition add_measurements {F : Type} (ms : list (measurement F))
    (b : V211.RinexBatch (F := F)) : V211.RinexBatch (F := F) :=
  fold_left add_measurement ms b.

(** The text [print] puts before the ids of a continuation line:
    ["\n{0:32}".format(" ")]. *)
Definition continuation : string := newline ++ pad_right " " 32 " ".

(** What the loop of the 2.11 [print] appends to the epoch line for the
    ids [ids], the first of which has index [i]. *)
Fixpoint ids_from (i : nat) (ids : list string) : string :=
  match ids with
  | [] => ""
  | id :: rest =>
      (if (0 <? i)%nat && (i mod 12 =? 0)%nat then continuation else "") ++
      id ++ ids_from (S i) rest
  end.

(** The ids split into lines of twelve. *)
Fixpoint id_lines (fuel : nat) (ids : list string) : list string :=
  match fuel, ids with
  | S fuel, _ :: _ => join (firstn 12 ids) :: id_lines fuel (skipn 12 ids)
  | _, _ => []
  end.

(** [sep.join(l)]. *)
Definition join_with (sep : string) (l : list string) : string :=
  match l with
  | [] => ""
  | x :: rest => x ++ join (map (append sep) rest)
  end.

Definition has_s1 {F : Type} (m : measurement F) : bool :=
  match m_s1 m with
  | Some _ => true
  | None => false
  end.

(** The data line of a measurement whose [s1] is a number. *)
Definition data_line {F : Type} `{PyFloat F} (m : measurement F) : string :=
  match V211.format_line (m_c1 m) (m_s1 m) (m_l1 m) (m_d1 m) with
  | Ok line => line
  | Raise _ => ""
  end.

(** Thirteen GPS measurements, and one whose log line had no [Cn0DbHz]. *)
Definition sample_measurements : list (measurement float) :=
  map (fun prn =>
         {| m_svid := "G" ++ fmt_02d prn; m_c1 := 22021841.069510743%float;
            m_s1 := Some 35.5%float; m_l1 := 5255.0354685707271%float;
            m_d1 := 648.99688036848477%float |})
      [1; 2; 3; 4; 5; 6; 7; 8; 9; 10; 11; 12; 13].

Definition measurement_without_cn0 : measurement float :=
  {| m_svid := "G05"; m_c1 := 22021841.069510743%float;
     m_s1 := None; m_l1 := 5255.0354685707271%float;
     m_d1 := 648.99688036848477%float |}.

(** The state and the batch the 2.11 loop reaches on [sample_lines]. *)
Definition sample_state_211 : @V211.state float :=
  Eval vm_compute in
    match V211.process_all default_options sample_lines V211.initial with
    | Ok st => st
    | Raise _ => V211.initial
    end.

Definition sample_batch_211 : V211.RinexBatch (F := float) :=
  Eval vm_compute in
    match V211.rinex_batch sample_state_211 with
    | Some b => b
    | None => V211.new_batch 0
    end.

(** *** The output stream of the 3.03 loop *)

(** The epoch the loop computes for a record while [fullbiasnanos] is
    [fb] (lines 510-521). *)
Definition epoch_of {F : Type} `{PyFloat F} (args : options) (fb : F)
    (values : raw F) : res datetime :=
  gpsweek <- V303.gpsweek_of fb ;;
  gpssow <- V303.gpssow_of fb gpsweek values ;;
  frac <- V303.frac_of args gpssow ;;
  gpstime_to_epoch gpsweek (gpssow - frac)%py.

Definition is_epoch (w : written) : bool :=
  match w with
  | Epoch _ => true
  | EndHeader _ => false
  end.

(** The state in which the 3.03 script ends on [sample_lines]. *)
Definition sample_output : @V303.state float :=
  Eval vm_compute in
    match V303.main default_options sample_lines with
    | Ok st => st
    | Raise _ => V303.initial
    end.

Definition fix_bias_options : options :=
  {| fix_bias := true; integerize := false; skip_edit := false |}.

(** *** The header (3.03) *)

(** What [check_rinex_field] writes to stderr: the name of the field, the
    value given and the size it is cropped to. *)
Inductive notice : Type :=
| TooLong (name value : string) (size : nat).

(** [check_rinex_field(name, value, size)]: the field to print and what
    went to stderr. *)
Definition check_rinex_field (name : string) (value : option string) (size : nat)
  : string * list notice :=
  match value with
  | None => ("UNKN", [])
  | Some value =>
      if (size <? String.length value)%nat then
        (substring 0 size value, [TooLong name value size])
      else (value, [])
  end.

Module H303.

(** The header lines that list the observation types (lines 229-233); the
    last one has a double quote in front of its line break. *)
Definition observation_types : string :=
  "G    8 C1C L1C D1C S1C C5Q L5Q D5Q S5Q                      SYS / # / OBS TYPES" ++ newline ++
  "R    4 C1C L1C D1C S1C                                      SYS / # / OBS TYPES" ++ newline ++
  "E   12 C1C L1C D1C S1C C5I L5I D5I S5I C7I L7I D7I S7I      SYS / # / OBS TYPES" ++ newline ++
  "C    4 C2I L2I D2I S2I                                      SYS / # / OBS TYPES" ++ newline ++
  "J    8 C1C L1C D1C S1C C5Q L5Q D5Q S5Q                      SYS / # / OBS TYPES" ++
  String "034" newline.

(** [rinex_header(...)] with the reading of the clock, [datestr], as an
    argument: the header and what went to stderr.  [approx_position] and
    [antenna_hen] are the defaults, which [__main__] never replaces;
    ["{0:9.2f}"] of [3.03] is ["     3.03"] and ["{0:14.4f}"] of [0] is
    ["        0.0000"]. *)
Definition rinex_header (datestr : string)
    (runby marker observer agency receiver rxtype version antenna anttype
       : option string) : string * list notice :=
  let h := "     3.03" ++ "           " ++ pad_right " " 20 "OBSERVATION DATA" ++
           pad_right " " 20 "M: Mixed" ++ "RINEX VERSION / TYPE" ++ newline in
  let '(runby, w1) := check_rinex_field "RUNBY" runby 20 in
  let h := h ++ pad_right " " 20 "ANDROID_RINEX" ++ pad_right " " 20 runby ++
           pad_right " " 20 datestr ++ "PGM / RUN BY / DATE" ++ newline in
  let h := h ++ pad_right " " 60 "Generated by Hi-target android_rinex program" ++
           "COMMENT" ++ newline in
  let h := h ++ pad_right " " 60 "Contact us at Nander@hitargetgroup.com.cn" ++
           "COMMENT" ++ newline in
  let '(marker, w2) := check_rinex_field "MARKER NAME" marker 60 in
  let h := h ++ pad_right " " 60 marker ++ "MARKER NAME" ++ newline in
  let '(marker, w3) := check_rinex_field "MARKER TYPE" (Some marker) 60 in
  let h := h ++ pad_right " " 60 marker ++ "MARKER TYPE" ++ newline in
  let '(observer, w4) := check_rinex_field "OBSERVER" observer 20 in
  let '(agency, w5) := check_rinex_field "AGENCY" agency 40 in
  let h := h ++ pad_right " " 20 observer ++ pad_right " " 40 agency ++
           "OBSERVER / AGENCY" ++ newline in
  let '(receiver, w6) := check_rinex_field "RECEIVER NUMBER" receiver 20 in
  let '(rxtype, w7) := check_rinex_field "RECEIVER TYPE" rxtype 20 in
  let '(version, w8) := check_rinex_field "RECEIVER VERSION" version 20 in
  let h := h ++ pad_right " " 20 receiver ++ pad_right " " 20 rxtype ++
           pad_right " " 20 version ++ "REC # / TYPE / VERS" ++ newline in
  let '(antenna, w9) := check_rinex_field "ANTENNA NUMBER" antenna 20 in
  let '(anttype, w10) := check_rinex_field "ANTENNA TYPE" anttype 40 in
  let h := h ++ pad_right " " 20 antenna ++ pad_right " " 40 anttype ++
           "ANT # / TYPE" ++ newline in
  let h := h ++ "        0.0000" ++ "        0.0000" ++ "        0.0000" ++
           "                  APPROX POSITION XYZ" ++ newline in
  let h := h ++ "        0.0000" ++ "        0.0000" ++ "        0.0000" ++
           "                  ANTENNA: DELTA H/E/N" ++ newline in
  let h := h ++ observation_types in
  (h, (w1 ++ w2 ++ w3 ++ w4 ++ w5 ++ w6 ++ w7 ++ w8 ++ w9 ++ w10)%list).

(** The string literal that [end_header] appends to the line of the first
    epoch (lines 241-253). *)
Definition glonass_and_phase_shift : string :=
  " 24 R01  1 R02 -4 R03  5 R04  6 R05  1 R06 -4 R07  5 R08  6 GLONASS SLOT / FRQ #" ++ newline ++
  "    R09 -2 R10 -5 R11  0 R12 -1 R13 -2 R14 -7 R15  0 R16 -1 GLONASS SLOT / FRQ #" ++ newline ++
  "    R17  4 R18 -3 R19  3 R20  2 R21  4 R22 -3 R23  3 R24  2 GLONASS SLOT / FRQ #" ++ newline ++
  "G L1C                                                       SYS / PHASE SHIFT" ++ newline ++
  "G L5Q -0.25000                                              SYS / PHASE SHIFT" ++ newline ++
  "R L1C                                                       SYS / PHASE SHIFT" ++ newline ++
  "E L1B                                                       SYS / PHASE SHIFT" ++ newline ++
  "E L1C +0.50000                                              SYS / PHASE SHIFT" ++ newline ++
  "E L5Q -0.25000                                              SYS / PHASE SHIFT" ++ newline ++
  "C L2I                                                       SYS / PHASE SHIFT" ++ newline ++
  "J L1C                                                       SYS / PHASE SHIFT" ++ newline ++
  "J L5Q -0.25000                                              SYS / PHASE SHIFT" ++ newline ++
  " C1C    0.000 C1P    0.000 C2C    0.000 C2P    0.000        GLONASS COD/PHS/BIS" ++ newline.

(** [end_header(first_epoch)]. *)
Definition end_header (first_epoch : datetime) : string :=
  "  " ++ strftime_Y "    " first_epoch ++
  "                 TIME OF FIRST OBS" ++ newline ++
  glonass_and_phase_shift ++
  pad_right " " 60 " " ++ "END OF HEADER" ++ newline.

End H303.

(** One header record: 60 columns of content, then the label. *)
Definition header_row (r : string * string) : string :=
  fst r ++ snd r ++ newline.

(** *** Reading the GLONASS SLOT / FRQ # records of a header

    The record is [I3,1X,8(A1,I2.2,1X,I2,1X)] with its label in columns
    61-80; continuation records leave the count blank. *)

Definition digit_of (c : ascii) : option Z :=
  let n := nat_of_ascii c in
  if (48 <=? n)%nat && (n <=? 57)%nat then Some (Z.of_nat (n - 48)) else None.

(** A field [I2]: two digits, or a blank or a minus sign and one digit. *)
Definition read_I2 (s : string) : option Z :=
  match s with
  | String a (String b EmptyString) =>
      match digit_of b with
      | None => None
      | Some d =>
          if Ascii.eqb a " " then Some d
          else if Ascii.eqb a "-" then Some (- d)
          else match digit_of a with
               | Some t => Some (10 * t + d)
               | None => None
               end
      end
  | _ => None
  end.

(** The [k]-th entry of a GLONASS SLOT / FRQ # record: slot and channel. *)
Definition read_slot (line : string) (k : nat) : option (Z * Z) :=
  if (substring (4 + 7 * k) 1 line =? "R")%string then
    match read_I2 (substring (5 + 7 * k) 2 line),
          read_I2 (substring (8 + 7 * k) 2 line) with
    | Some slot, Some channel => Some (slot, channel)
    | _, _ => None
    end
  else None.

(** [s.split("\n")]. *)
Fixpoint split_lines (s : string) : list string :=
  match s with
  | EmptyString => [""]
  | String c rest =>
      if Ascii.eqb c (ascii_of_nat 10) then "" :: split_lines rest
      else match split_lines rest with
           | line :: lines => String c line :: lines
           | [] => [String c ""]
           end
  end.

(** The slots and channels a reader finds in the records of [header]
    labelled GLONASS SLOT / FRQ #. *)
Definition glonass_slots (header : string) : list (Z * Z) :=
  flat_map
    (fun line =>
       if (substring 60 20 line =? "GLONASS SLOT / FRQ #")%string then
         flat_map (fun k => match read_slot line k with
                            | Some entry => [entry]
                            | None => []
                            end) (seq 0 8)
       else [])
    (split_lines header).

(** A record whose log line leaves [ConstellationType] empty. *)
Definition no_constellation : raw float :=
  with_fields gps_l1 None (Some 1575420000%float) (Some 1%float).

(** *** Skipped epochs *)

Definition is_repeated_entries (d : diag) : bool :=
  match d with
  | RepeatedEntries _ => true
  | _ => false
  end.

(** [out.write("")], what the loop writes for a batch that [print] skips. *)
Definition is_skipped_epoch (w : written) : bool :=
  match w with
  | Epoch EmptyString => true
  | _ => false
  end.

(** The batch holds what [add] was given since [RinexBatch(epoch)]. *)
Definition built {F : Type} (st : @V211.state F) : Prop :=
  match V211.rinex_batch st with
  | None => True
  | Some b => exists ms epoch, b = add_measurements ms (V211.new_batch epoch)
  end.

(** The text the 2.11 [print] returns for the measurements [ms] of
    [epoch]: the epoch line with the ids twelve to a line, then the data
    lines. *)
Definition epoch_text {F : Type} `{PyFloat F} (epoch : datetime)
    (ms : list (measurement F)) : string :=
  (" " ++ strftime_y " " epoch ++ "   0" ++
   fmt_3d (Z.of_nat (List.length ms)) ++
   join_with continuation
     (id_lines (List.length ms) (map (@m_svid F) ms))) ++
  newline ++ join (map data_line ms).

(** *** What one iteration of the loops computes from a record *)

(** The letter the constellation branch puts in front of the PRN. *)
Definition constellation_letter (c : Z) : option string :=
  if c =? CONSTELLATION_GPS then Some "G"
  else if c =? CONSTELLATION_GLONASS then Some "R"
  else if c =? CONSTELLATION_GALILEO then Some "E"
  else if c =? CONSTELLATION_BEIDOU then Some "C"
  else None.

Section RecordValues.
Context {F : Type} `{PyFloat F}.

(** The satellite id of a record in 3.03: the letter of
    [int(values['ConstellationType'])] and ['{0:02d}'] of
    [int(values['Svid'])]. *)
Definition record_svid (values : raw F) : option string :=
  match py_int_field (ConstellationType values), py_int_field (Svid values) with
  | Ok c, Ok prn =>
      option_map (fun letter => letter ++ fmt_02d prn) (constellation_letter c)
  | _, _ => None
  end.

(** The epoch of a record in 3.03 (lines 505-521), in the state in which
    the loop meets it. *)
Definition record_epoch (args : options) (values : raw F) (st : @V303.state F)
  : res datetime :=
  fb <- V303.update_fullbiasnanos args values (V303.fullbiasnanos st) ;;
  epoch_of args fb values.

(** The pseudorange of a record in 3.03 (lines 505-590). *)
Definition record_c1 (args : options) (values : raw F) (st : @V303.state F)
  : res F :=
  fb <- V303.update_fullbiasnanos args values (V303.fullbiasnanos st) ;;
  gpsweek <- V303.gpsweek_of fb ;;
  gpssow <- V303.gpssow_of fb gpsweek values ;;
  frac <- V303.frac_of args gpssow ;;
  tRx_nanos <- V303.tRx_nanos_of values fb ;;
  V303.c1_of args values tRx_nanos frac.

(** The batch a record of epoch [epoch] is added to in 3.03: the batch of
    the state while it has this epoch, an empty one otherwise. *)
Definition batch_for (epoch : datetime) (st : @V303.state F) : V303.RinexBatch :=
  match V303.rinex_batch st with
  | Some b => if (V303.B.epoch b =? epoch)%Z then b else V303.new_batch epoch
  | None => V303.new_batch epoch
  end.

(** The GPS week and the time of week of a record in 2.11 (lines 364-372). *)
Definition record_gpssow_211 (args : options) (values : raw F)
    (st : @V211.state F) : res (Z * F) :=
  fb <- V211.update_fullbiasnanos args values (V211.fullbiasnanos st) ;;
  gpsweek <- V211.gpsweek_of fb ;;
  gpssow <- V211.gpssow_of fb gpsweek values ;;
  Ok (gpsweek, gpssow).

(** The epoch of a record in 2.11 (lines 364-381). *)
Definition record_epoch_211 (args : options) (values : raw F)
    (st : @V211.state F) : res datetime :=
  '(gpsweek, gpssow) <- record_gpssow_211 args values st ;;
  frac <- V211.frac_of args gpssow ;;
  gpstime_to_epoch gpsweek (gpssow - frac)%py.

(** The pseudorange of a record in 2.11 (lines 364-425). *)
Definition record_c1_211 (args : options) (values : raw F)
    (st : @V211.state F) : res F :=
  '(gpsweek, gpssow) <- record_gpssow_211 args values st ;;
  frac <- V211.frac_of args gpssow ;;
  V211.c1_of args values gpssow frac.

(** The batch a record of epoch [epoch] is added to in 2.11. *)
Definition batch_for_211 (epoch : datetime) (st : @V211.state F)
  : V211.RinexBatch :=
  match V211.rinex_batch st with
  | Some b => if (V211.B.epoch b =? epoch)%Z then b else V211.new_batch epoch
  | None => V211.new_batch epoch
  end.
End RecordValues.

(** *** The carrier phase of a record (3.03) *)

Section Phase.
Context {F : Type} `{PyFloat F}.

(** The wavelength with which the branch of band [codeType] of
    constellation [c] turns the accumulated delta range into cycles and
    corrects it; GLONASS takes it from the channel of the slot. *)
Definition band_wavelength (c : Z) (codeType : string) (prn : Z)
  : res (option F) :=
  if c =? CONSTELLATION_GPS then
    Ok (if (codeType =? "L1")%string then Some V303.GPS_L1_WAVELENGTH
        else if (codeType =? "L2")%string then Some V303.GPS_L2_WAVELENGTH
        else if (codeType =? "L5")%string then Some V303.GPS_L5_WAVELENGTH
        else None)
  else if c =? CONSTELLATION_GLONASS then
    if (codeType =? "L1")%string then
      chel <- py_index V303.GLN_LIST (prn - 1) ;;
      wl <- V303.get_glo_L1 chel ;;
      Ok (Some wl)
    else if (codeType =? "L2")%string then
      chel <- py_index V303.GLN_LIST (prn - 1) ;;
      wl <- V303.get_glo_L2 chel ;;
      Ok (Some wl)
    else Ok None
  else if c =? CONSTELLATION_GALILEO then
    Ok (if (codeType =? "E1")%string then Some V303.GAL_E1_WAVELENGTH
        else if (codeType =? "E6")%string then Some V303.GAL_E6_WAVELENGTH
        else if (codeType =? "E5b")%string then Some V303.GAL_E5B_WAVELENGTH
        else if (codeType =? "E5a")%string then Some V303.GAL_E5A_WAVELENGTH
        else None)
  else if c =? CONSTELLATION_BEIDOU then
    Ok (if (codeType =? "B1")%string then Some V303.BDS_L1_WAVELENGTH
        else if (codeType =? "B3")%string then Some V303.BDS_L3_WAVELENGTH
        else if (codeType =? "B2")%string then Some V303.BDS_L2_WAVELENGTH
        else None)
  else Ok None.

(** [check_adr_state(int(values['AccumulatedDeltaRangeState']))] returns. *)
Definition adr_state_valid (values : raw F) : bool :=
  match (s <- py_int_field (AccumulatedDeltaRangeState values) ;;
         V303.check_adr_state s) with
  | Ok _ => true
  | Raise _ => false
  end.

(** The phase column that receives the phase of band [codeType]. *)
Definition phase_column (codeType : string) (b : V303.RinexBatch) : list string :=
  if V303.is_primary codeType then V303.B.l1 b else V303.B.l2 b.
End Phase.

(** The states in which the loop bodies leave [gps_l1_unsynced], run
    first. *)
Definition gps_l1_unsynced_state : @V303.state float :=
  Eval vm_compute in
    match V303.process_values default_options gps_l1_unsynced V303.initial with
    | Ok st => st
    | Raise _ => V303.initial
    end.

Definition gps_l1_unsynced_state_211 : @V211.state float :=
  Eval vm_compute in
    match V211.process_values default_options gps_l1_unsynced V211.initial with
    | Ok st => st
    | Raise _ => V211.initial
    end.

(** A Galileo record on the E6 carrier, and the state in which the loop
    body leaves it, run first. *)
Definition galileo_e6 : raw float := variant 15 6 11 1278750000.

Definition galileo_e6_state : @V303.state float :=
  Eval vm_compute in
    match V303.process_values default_options galileo_e6 V303.initial with
    | Ok st => st
    | Raise _ => V303.initial
    end.

(** *** Tactics *)

(** [H : (x <- m ;; k) = Ok r]: [m] returned some [x], recorded as [E]. *)
Ltac bind_ok H x E :=
  match type of H with
  | bind ?m _ = Ok _ =>
      destruct m as [x|] eqn:E; cbn [bind] in H; [|discriminate H]
  end.

(** Evaluates the tests [a =? b] between constellation numbers. *)
Ltac decide_constellation :=
  repeat match goal with
  | |- context [(?a =? ?b)%Z] =>
      let v := eval vm_compute in (a =? b)%Z in
      change (a =? b)%Z with v
  end; cbv iota.

(* ================================================================== *)
(** * Properties *)

Unset Implicit Arguments.

(** ** Lists and strings *)

Lemma mem_In (x : string) (l : list string) : mem x l = true <-> In x l.
Proof.
  unfold mem. rewrite existsb_exists. split.
  - intros [y [Hy Heq]]. apply String.eqb_eq in Heq. now subst.
  - intros Hin. exists x. split; [assumption | apply String.eqb_refl].
Qed.

Lemma has_repeated_true (svids : list string) (sat : string) :
  (1 < count sat svids)%nat -> has_repeated svids = true.
Proof.
  intros Hc. unfold has_repeated. apply existsb_exists. exists sat. split.
  - apply (count_occ_In string_dec). unfold count in Hc. lia.
  - apply Nat.ltb_lt. exact Hc.
Qed.

Lemma has_repeated_NoDup (svids : list string) :
  NoDup svids -> has_repeated svids = false.
Proof.
  intros Hnd. unfold has_repeated.
  destruct (existsb _ svids) eqn:E; [|reflexivity].
  apply existsb_exists in E. destruct E as [x [_ Hx]].
  apply Nat.ltb_lt in Hx.
  rewrite (NoDup_count_occ string_dec) in Hnd. specialize (Hnd x).
  unfold count in Hx. lia.
Qed.

(** ** C4: repeated satellite ids suppress the epoch *)

(** C4.  In both scripts, when some satellite id occurs more than once in
    [self.svids], [print] returns the empty string (no epoch line, no data
    line) and writes the "repeated entries" message to stderr. *)
Theorem print_repeated_entries
    (F : Type) (PF : PyFloat F)
    (b3 : V303.RinexBatch) (b2 : V211.RinexBatch (F := F)) (sat3 sat2 : string)
    (H3 : (1 < count sat3 (V303.B.svids b3))%nat)
    (H2 : (1 < count sat2 (V211.B.svids b2))%nat) :
  V303.print b3 = Ok ("", [RepeatedEntries (V303.B.epoch b3)]) /\
  V211.print b2 = Ok ("", [RepeatedEntries (V211.B.epoch b2)]).
Proof.
  split.
  - unfold V303.print. now rewrite (@has_repeated_true _ _ H3).
  - unfold V211.print. now rewrite (@has_repeated_true _ _ H2).
Qed.

Lemma print_repeated_entries_witness :
  V303.print repeated_303 = Ok ("", [RepeatedEntries 0]) /\
  V211.print repeated_211 = Ok ("", [RepeatedEntries 0]).
Proof.
  apply (@print_repeated_entries float F64 repeated_303 repeated_211 "G05" "G05");
    vm_compute; lia.
Defined.

(** ** C9: the order of the data lines (3.03) *)

Lemma list_set_length (A : Type) (l l' : list A) (i : nat) (v : A) :
  list_set l i v = Ok l' -> List.length l' = List.length l.
Proof.
  revert l' i. induction l as [|a tl IH]; intros l' i Hs; simpl in Hs.
  - discriminate.
  - destruct i as [|k].
    + injection Hs as <-. reflexivity.
    + destruct (list_set tl k v) as [tl'|e] eqn:E; simpl in Hs; [|discriminate].
      injection Hs as <-. simpl. f_equal. eapply IH. eassumption.
Qed.

Lemma list_set_total (A : Type) (l : list A) (i : nat) (v : A) :
  (i < List.length l)%nat -> exists l', list_set l i v = Ok l'.
Proof.
  revert i. induction l as [|a tl IH]; intros i Hi; simpl in Hi; [lia|].
  destruct i as [|k]; simpl.
  - eexists. reflexivity.
  - destruct (IH k) as [tl' Htl]; [lia|]. rewrite Htl. simpl. eexists. reflexivity.
Qed.

Lemma list_set_nth (A : Type) (l l' : list A) (i : nat) (v : A) :
  list_set l i v = Ok l' -> nth_error l' i = Some v.
Proof.
  revert l' i. induction l as [|a tl IH]; intros l' i Hs; simpl in Hs.
  - discriminate.
  - destruct i as [|k].
    + injection Hs as <-. reflexivity.
    + destruct (list_set tl k v) as [tl'|e] eqn:E; simpl in Hs; [|discriminate].
      injection Hs as <-. simpl. eapply IH. eassumption.
Qed.

Lemma find_svid_Some (svid : string) (ids : list string) (k i : nat) :
  V303.find_svid svid ids k = Some i ->
  (k <= i < k + List.length ids)%nat /\ nth_error ids (i - k) = Some svid.
Proof.
  revert k. induction ids as [|id rest IH]; intros k Hf; simpl in Hf.
  - discriminate.
  - destruct (String.eqb svid id) eqn:E.
    + injection Hf as <-. apply String.eqb_eq in E. subst id.
      rewrite Nat.sub_diag. simpl. split; [lia | reflexivity].
    + apply IH in Hf. destruct Hf as [Hr Hn]. simpl. split; [lia|].
      replace (i - k)%nat with (S (i - S k)) by lia. exact Hn.
Qed.

Lemma find_svid_mem (svid : string) (ids : list string) (k : nat) :
  match V303.find_svid svid ids k with
  | Some _ => mem svid ids = true
  | None => mem svid ids = false
  end.
Proof.
  revert k. induction ids as [|id rest IH]; intros k; simpl; [reflexivity|].
  destruct (String.eqb svid id); simpl; [reflexivity | apply IH].
Qed.

Lemma wf_batch_lengths (b : V303.RinexBatch) :
  wf_batch b = true <->
  let n := List.length (V303.B.svids b) in
  List.length (V303.B.c1 b) = n /\ List.length (V303.B.c2 b) = n /\
  List.length (V303.B.l1 b) = n /\ List.length (V303.B.l2 b) = n /\
  List.length (V303.B.s1 b) = n /\ List.length (V303.B.s2 b) = n /\
  List.length (V303.B.d1 b) = n /\ List.length (V303.B.d2 b) = n.
Proof.
  unfold wf_batch. cbv zeta.
  rewrite !andb_true_iff, !Nat.eqb_eq. tauto.
Qed.

(** On a well-formed batch [add] never raises; the batch stays well
    formed, and [svids] grows by [svid] exactly when [svid] is new. *)
Lemma add_wf (codeType svid c1 s1 l1 d1 : string) (b : V303.RinexBatch) :
  wf_batch b = true ->
  exists b', V303.add codeType svid c1 s1 l1 d1 b = Ok b' /\
    wf_batch b' = true /\
    V303.B.epoch b' = V303.B.epoch b /\
    V303.B.svids b' =
      (if mem svid (V303.B.svids b) then V303.B.svids b
       else V303.B.svids b ++ [svid])%list.
Proof.
  intros Hwf. pose proof Hwf as Hl. apply wf_batch_lengths in Hl. cbv zeta in Hl.
  destruct Hl as (Hc1 & Hc2 & Hl1 & Hl2 & Hs1 & Hs2 & Hd1 & Hd2).
  unfold V303.add.
  pose proof (find_svid_mem svid (V303.B.svids b) 0) as Hm.
  destruct (V303.find_svid svid (V303.B.svids b) 0) as [i|] eqn:Ef.
  - rewrite Hm. apply find_svid_Some in Ef. destruct Ef as [Hi _].
    destruct (V303.is_primary codeType).
    + destruct (@list_set_total _ (V303.B.c1 b) i c1) as [x1 E1]; [lia|].
      destruct (@list_set_total _ (V303.B.s1 b) i s1) as [x2 E2]; [lia|].
      destruct (@list_set_total _ (V303.B.l1 b) i l1) as [x3 E3]; [lia|].
      destruct (@list_set_total _ (V303.B.d1 b) i d1) as [x4 E4]; [lia|].
      rewrite E1, E2, E3, E4. simpl. eexists. split; [reflexivity|].
      split; [|split; reflexivity].
      apply wf_batch_lengths. simpl.
      rewrite (list_set_length _ _ _ _ _ E1), (list_set_length _ _ _ _ _ E2),
        (list_set_length _ _ _ _ _ E3), (list_set_length _ _ _ _ _ E4). tauto.
    + destruct (@list_set_total _ (V303.B.c2 b) i c1) as [x1 E1]; [lia|].
      destruct (@list_set_total _ (V303.B.s2 b) i s1) as [x2 E2]; [lia|].
      destruct (@list_set_total _ (V303.B.l2 b) i l1) as [x3 E3]; [lia|].
      destruct (@list_set_total _ (V303.B.d2 b) i d1) as [x4 E4]; [lia|].
      rewrite E1, E2, E3, E4. simpl. eexists. split; [reflexivity|].
      split; [|split; reflexivity].
      apply wf_batch_lengths. simpl.
      rewrite (list_set_length _ _ _ _ _ E1), (list_set_length _ _ _ _ _ E2),
        (list_set_length _ _ _ _ _ E3), (list_set_length _ _ _ _ _ E4). tauto.
  - rewrite Hm.
    destruct (V303.is_primary codeType); eexists; (split; [reflexivity|]);
      (split; [|split; reflexivity]);
      apply wf_batch_lengths; simpl; rewrite !length_app; simpl; lia.
Qed.

Lemma add_all_wf (obs : list observation) (b : V303.RinexBatch) :
  wf_batch b = true ->
  exists b', add_all obs b = Ok b' /\
    wf_batch b' = true /\
    V303.B.epoch b' = V303.B.epoch b /\
    V303.B.svids b' =
      (V303.B.svids b ++ first_seen (map o_svid obs) (V303.B.svids b))%list.
Proof.
  revert b. induction obs as [|o rest IH]; intros b Hwf; simpl.
  - exists b. rewrite app_nil_r. auto.
  - unfold add_obs.
    destruct (add_wf (o_codeType o) (o_svid o) (o_c1 o) (o_s1 o) (o_l1 o)
                (o_d1 o) b Hwf) as (b1 & Hadd & Hwf1 & He1 & Hs1).
    rewrite Hadd. simpl.
    destruct (IH b1 Hwf1) as (b2 & Hall & Hwf2 & He2 & Hs2).
    exists b2. split; [exact Hall|]. split; [exact Hwf2|].
    split; [congruence|].
    rewrite Hs2, Hs1. destruct (mem (o_svid o) (V303.B.svids b)).
    + reflexivity.
    + rewrite <- app_assoc. reflexivity.
Qed.

Lemma first_seen_NoDup (ids seen : list string) :
  NoDup seen -> NoDup (seen ++ first_seen ids seen).
Proof.
  revert seen. induction ids as [|id rest IH]; intros seen Hnd; simpl.
  - now rewrite app_nil_r.
  - destruct (mem id seen) eqn:E.
    + apply IH, Hnd.
    + replace (seen ++ id :: first_seen rest (seen ++ [id]))%list
        with ((seen ++ [id]) ++ first_seen rest (seen ++ [id]))%list
        by (rewrite <- app_assoc; reflexivity).
      apply IH. apply NoDup_app; [exact Hnd | repeat constructor; intros [] |].
      intros x Hx [Hy|[]]. subst x.
      apply mem_In in Hx. congruence.
Qed.

Lemma list_get_nth (l : list string) (i : nat) :
  (i < List.length l)%nat -> list_get l i = Ok (nth i l "").
Proof.
  intros Hi. unfold list_get.
  destruct (nth_error l i) as [a|] eqn:E.
  - now rewrite (nth_error_nth _ _ "" E).
  - apply nth_error_None in E. lia.
Qed.

Lemma line_at_row (b : V303.RinexBatch) (i : nat) :
  wf_batch b = true -> (i < List.length (V303.B.svids b))%nat ->
  V303.line_at b i = Ok (format_row (row_at b i)).
Proof.
  intros Hwf Hi. apply wf_batch_lengths in Hwf. cbv zeta in Hwf.
  destruct Hwf as (Hc1 & Hc2 & Hl1 & Hl2 & Hs1 & Hs2 & Hd1 & Hd2).
  unfold V303.line_at.
  rewrite !list_get_nth by lia. reflexivity.
Qed.

Lemma join_filter (A : Type) (p : A -> bool) (f : A -> string) (l : list A) :
  join (map (fun a => if p a then f a else "") l) = join (map f (filter p l)).
Proof.
  induction l as [|a tl IH]; simpl; [reflexivity|].
  destruct (p a); simpl; now rewrite IH.
Qed.

Lemma print_block_rows (letter : ascii) (b : V303.RinexBatch) (range : list nat) :
  wf_batch b = true ->
  Forall (fun i => (i < List.length (V303.B.svids b))%nat) range ->
  V303.print_block letter b range = Ok (block letter (map (row_at b) range)).
Proof.
  intros Hwf Hr. unfold block. rewrite <- join_filter.
  induction Hr as [|i rest Hi Hrest IH]; simpl; [reflexivity|].
  rewrite list_get_nth by exact Hi. simpl.
  rewrite IH. rewrite map_map in *.
  destruct (contains_char letter (nth i (V303.B.svids b) "")).
  - rewrite (line_at_row b i Hwf Hi). reflexivity.
  - reflexivity.
Qed.

Lemma print_blocks_rows (letters : list ascii) (b : V303.RinexBatch) :
  wf_batch b = true ->
  V303.print_blocks letters b = Ok (blocks letters (rows b)).
Proof.
  intros Hwf. induction letters as [|letter rest IH]; simpl; [reflexivity|].
  rewrite print_block_rows; [|exact Hwf|].
  - simpl. rewrite IH. reflexivity.
  - apply Forall_forall. intros i Hi. apply in_seq in Hi. lia.
Qed.

(** C9.  A batch filled by any sequence of [add] calls is printed as the
    epoch line followed by the data lines of the ids containing 'G', then
    'C', 'E', 'R' and 'J'; inside a block the satellites keep the order of
    [svids], which is the order in which the ids were first added.  Nothing
    but the epoch line precedes the data lines. *)
Theorem print_constellation_blocks (epoch : datetime) (obs : list observation) :
  exists b,
    add_all obs (V303.new_batch epoch) = Ok b /\
    V303.B.svids b = first_seen (map o_svid obs) [] /\
    map r_svid (rows b) = V303.B.svids b /\
    V303.print b =
      Ok (V303.epoch_line b ++ newline ++
          blocks ["G"; "C"; "E"; "R"; "J"]%char (rows b), []).
Proof.
  destruct (add_all_wf obs (V303.new_batch epoch) eq_refl)
    as (b & Hall & Hwf & _ & Hs).
  exists b. simpl in Hs. split; [exact Hall|]. split; [exact Hs|]. split.
  - unfold rows. rewrite map_map. simpl.
    apply nth_ext with (d := "") (d' := "").
    + now rewrite length_map, length_seq.
    + intros n Hn. rewrite length_map, length_seq in Hn.
      rewrite (nth_indep _ "" (nth 0 (V303.B.svids b) "")) by
        (now rewrite length_map, length_seq).
      rewrite (map_nth (fun i => nth i (V303.B.svids b) "")).
      now rewrite seq_nth by exact Hn.
  - unfold V303.print.
    rewrite has_repeated_NoDup.
    + rewrite (print_blocks_rows _ b Hwf). reflexivity.
    + rewrite Hs. apply (first_seen_NoDup (map o_svid obs) []).
      constructor.
Qed.

(** ** C10: a record below every band threshold (3.03) *)

Lemma find_svid_shift (svid : string) (ids : list string) (k : nat) :
  V303.find_svid svid ids (S k) = option_map S (V303.find_svid svid ids k).
Proof.
  revert k. induction ids as [|id rest IH]; intros k; simpl; [reflexivity|].
  destruct (String.eqb svid id); [reflexivity | apply IH].
Qed.

Lemma find_svid_new (svid : string) (ids : list string) :
  mem svid ids = false ->
  V303.find_svid svid (ids ++ [svid]) 0 = Some (List.length ids).
Proof.
  induction ids as [|id rest IH]; simpl; intros Hm.
  - now rewrite String.eqb_refl.
  - apply orb_false_iff in Hm. destruct Hm as [Hne Hm].
    rewrite Hne. rewrite find_svid_shift, (IH Hm). reflexivity.
Qed.

Lemma nth_error_last (l : list string) (n : nat) (x : string) :
  List.length l = n -> nth_error (l ++ [x]) n = Some x.
Proof.
  intros <-. rewrite nth_error_app2 by lia. now rewrite Nat.sub_diag.
Qed.

(** [add] with a band code other than L1, E1, B1 writes its four values
    into the second-band columns of the satellite's row, and [print]
    serializes them in the last four fields of the satellite's line. *)
Lemma add_second_band (codeType svid c1 s1 l1 d1 : string)
    (b b' : V303.RinexBatch) :
  wf_batch b = true ->
  V303.is_primary codeType = false ->
  V303.add codeType svid c1 s1 l1 d1 b = Ok b' ->
  exists i,
    V303.find_svid svid (V303.B.svids b') 0 = Some i /\
    nth_error (V303.B.c2 b') i = Some c1 /\
    nth_error (V303.B.l2 b') i = Some l1 /\
    nth_error (V303.B.d2 b') i = Some d1 /\
    nth_error (V303.B.s2 b') i = Some s1 /\
    V303.line_at b' i =
      Ok (V303.format_line svid
            (nth i (V303.B.c1 b') "") (nth i (V303.B.l1 b') "")
            (nth i (V303.B.d1 b') "") (nth i (V303.B.s1 b') "")
            c1 l1 d1 s1).
Proof.
  intros Hwf Hprim Hadd.
  destruct (add_wf codeType svid c1 s1 l1 d1 b Hwf) as (b1 & Hadd1 & Hwf1 & _ & Hsv).
  rewrite Hadd in Hadd1. injection Hadd1 as <-.
  pose proof Hwf as Hl. apply wf_batch_lengths in Hl. cbv zeta in Hl.
  destruct Hl as (Hc1 & Hc2 & Hl1 & Hl2 & Hs1 & Hs2 & Hd1 & Hd2).
  assert (Hrow : exists i,
    V303.find_svid svid (V303.B.svids b') 0 = Some i /\
    nth_error (V303.B.c2 b') i = Some c1 /\
    nth_error (V303.B.l2 b') i = Some l1 /\
    nth_error (V303.B.d2 b') i = Some d1 /\
    nth_error (V303.B.s2 b') i = Some s1).
  { unfold V303.add in Hadd. rewrite Hprim in Hadd.
    pose proof (find_svid_mem svid (V303.B.svids b) 0) as Hm.
    destruct (V303.find_svid svid (V303.B.svids b) 0) as [i|] eqn:Ef.
    - bind_ok Hadd x1 E1. bind_ok Hadd x2 E2. bind_ok Hadd x3 E3.
      bind_ok Hadd x4 E4.
      injection Hadd as <-. simpl. exists i. rewrite Ef.
      repeat split; eapply list_set_nth; eassumption.
    - injection Hadd as <-. simpl. exists (List.length (V303.B.svids b)).
      rewrite (find_svid_new _ _ Hm).
      repeat split; apply nth_error_last; assumption. }
  destruct Hrow as (i & Hf & Hc & Hl & Hd & Hs). exists i.
  repeat (split; [assumption|]).
  pose proof (find_svid_Some _ _ _ _ Hf) as [Hi Hn].
  rewrite Nat.sub_0_r in Hn.
  rewrite (line_at_row b' i Hwf1) by lia. unfold format_row, row_at. simpl.
  rewrite (nth_error_nth _ _ "" Hn), (nth_error_nth _ _ "" Hc),
    (nth_error_nth _ _ "" Hl), (nth_error_nth _ _ "" Hd),
    (nth_error_nth _ _ "" Hs).
  reflexivity.
Qed.

Section BelowBand.
Context {F : Type} `{PyFloat F}.

(** A record that fails every band test leaves the constellation branch
    with the initial [codeType = ''], [l1 = 0] and [d1 = 0]. *)
Lemma classify_below_every_band (values : raw F) (c1 : F) (prn : Z) :
  below_every_band values = true ->
  py_int_field (Svid values) = Ok prn ->
  exists letter,
    In letter ["G"; "R"; "E"; "C"] /\
    V303.classify values c1 prn =
      Ok (V303.Observable (letter ++ fmt_02d prn) ""
            (V303.PyInt 0) (V303.PyInt 0)).
Proof.
  intros Hb Hprn. unfold below_every_band in Hb. rewrite Hprn in Hb.
  unfold V303.classify.
  destruct (py_int_field (ConstellationType values)) as [c|e]; [|discriminate].
  simpl.
  destruct (c =? CONSTELLATION_GPS)%Z.
  { exists "G". split; [simpl; tauto|].
    rewrite !andb_true_iff, !negb_true_iff in Hb.
    destruct Hb as [[-> ->] ->]. reflexivity. }
  destruct (c =? CONSTELLATION_GLONASS)%Z.
  { exists "R". split; [simpl; tauto|].
    rewrite !andb_true_iff, !negb_true_iff in Hb.
    destruct Hb as [[Hp ->] ->].
    apply Z.ltb_lt in Hp.
    destruct (93 <=? prn)%Z eqn:E; [apply Z.leb_le in E; lia|]. reflexivity. }
  destruct (c =? CONSTELLATION_GALILEO)%Z.
  { exists "E". split; [simpl; tauto|].
    rewrite !andb_true_iff, !negb_true_iff in Hb.
    destruct Hb as [[[-> ->] ->] ->]. reflexivity. }
  destruct (c =? CONSTELLATION_BEIDOU)%Z.
  { exists "C". split; [simpl; tauto|].
    rewrite !andb_true_iff, !negb_true_iff in Hb.
    destruct Hb as [[-> ->] ->]. reflexivity. }
  discriminate.
Qed.
End BelowBand.


(** The run of [gps_low] alone, as the script prints it: the satellite's
    line has empty first-band fields and the values in the second band. *)
Example gps_low_printed :
  exists st, V303.main default_options [gps_low] = Ok st /\
    V303.err st = [] /\
    V303.out st =
      [EndHeader 1270000005123457;
       Epoch ("> 2020 04 04 01 46 45.123457   0  1" ++ newline ++
              "G05                                                                " ++
              "  22021785.019           0.000           0.000          35.500" ++
              newline)].
Proof.
  eexists. split; [vm_compute; reflexivity|]. split; vm_compute; reflexivity.
Qed.

(** ** C7: a record without sync bits is processed all the same *)

Section Unsynced.
Context {F : Type} `{PyFloat F}.

Lemma check_state_unsynced (s : Z) :
  Z.land s STATE_CODE_LOCK = 0 \/ Z.land s STATE_TOW_DECODED = 0 ->
  check_state s = Raise Exception.
Proof.
  unfold check_state. intros [-> | Ht]; [reflexivity|].
  destruct (Z.land s STATE_CODE_LOCK =? 0); [reflexivity|].
  now rewrite Ht.
Qed.

End Unsynced.


(** ** C8: the GLONASS channel lookup (3.03) *)

(** For the orbital slots 1..24 the lookup [GLN_LIST[prn-1]] succeeds. *)
Lemma GLN_LIST_slots (prn : Z) :
  1 <= prn <= 24 -> exists chel, py_index V303.GLN_LIST (prn - 1) = Ok chel.
Proof.
  intros Hp.
  assert (Hcases : prn = 1 \/ prn = 2 \/ prn = 3 \/ prn = 4 \/ prn = 5 \/ prn = 6 \/
          prn = 7 \/ prn = 8 \/ prn = 9 \/ prn = 10 \/ prn = 11 \/ prn = 12 \/
          prn = 13 \/ prn = 14 \/ prn = 15 \/ prn = 16 \/ prn = 17 \/ prn = 18 \/
          prn = 19 \/ prn = 20 \/ prn = 21 \/ prn = 22 \/ prn = 23 \/ prn = 24)
    by lia.
  repeat (destruct Hcases as [-> | Hcases]; [eexists; reflexivity|]).
  subst prn. eexists; reflexivity.
Qed.

(** For 25 <= prn < 93 the PRN test lets the record pass and the lookup
    raises [IndexError]. *)
Lemma GLN_LIST_out_of_range (prn : Z) :
  25 <= prn < 93 ->
  (93 <=? prn) = false /\ py_index V303.GLN_LIST (prn - 1) = Raise IndexError.
Proof.
  intros Hp. split; [apply Z.leb_gt; lia|].
  unfold py_index. change (Z.of_nat (List.length V303.GLN_LIST)) with 24.
  destruct (prn - 1 <? 0) eqn:E; [apply Z.ltb_lt in E; lia|].
  destruct (0 <=? prn - 1) eqn:E0; [|apply Z.leb_gt in E0; lia].
  destruct (prn - 1 <? 24) eqn:E1; [apply Z.ltb_lt in E1; lia|].
  reflexivity.
Qed.

(** C8 (the code departs from it).  The GLONASS L1 record with
    [Svid = 25] passes the PRN test and the run ends in the [IndexError]
    of [GLN_LIST[24]]. *)
Theorem glonass_slot_25_raises :
  (93 <=? 25) = false /\
  V303.process_values default_options glonass_25 V303.initial = Raise IndexError /\
  V303.main default_options [glonass_25] = Raise IndexError.
Proof.
  repeat split; vm_compute; reflexivity.
Qed.

(** ** C1: the origin of the reception time (3.03) *)

Section Origin.
Context {F : Type} `{PyFloat F}.
Local Open Scope py_scope.

(** C1, amended.  With the week, day and 100 ms starts [w], [d], [m] of
    the clock reading and [t = tRx_GNSS]: GPS takes [t - w]; GLONASS takes
    [t - d] plus three hours minus the leap seconds; Galileo takes the
    100 ms start when the carrier frequency is above 1500 MHz and the week
    start otherwise; BeiDou takes [t - w] minus 14 seconds. *)
Theorem tRx_nanos_origin
    (values : raw F) (fullbiasnanos w d m t : F) (c : Z)
    (Hw : V303.week_number_nanos fullbiasnanos = Ok w)
    (Hd : V303.day_number_nanos fullbiasnanos = Ok d)
    (Hm : V303.millSec_number_nanos fullbiasnanos = Ok m)
    (Ht : V303.tRx_GNSS_of values = Ok t)
    (Hc : py_int_field (ConstellationType values) = Ok c) :
  (c = CONSTELLATION_GPS ->
     V303.tRx_nanos_of values fullbiasnanos = Ok (t - w)) /\
  (c = CONSTELLATION_GLONASS ->
     forall leap offset,
       V303.leap_second values = Ok leap ->
       float_of_int (3 * 3600 - leap) = Ok offset ->
       V303.tRx_nanos_of values fullbiasnanos =
         Ok (t - d + offset * V303.S_TO_NS)) /\
  (c = CONSTELLATION_GALILEO ->
     forall f,
       CarrierFrequencyHz values = Some f ->
       V303.tRx_nanos_of values fullbiasnanos =
         Ok (if f >? V303.MHZ_1500 then t - m else t - w)) /\
  (c = CONSTELLATION_BEIDOU ->
     V303.tRx_nanos_of values fullbiasnanos =
       Ok (t - w - of_int 14 * V303.S_TO_NS)).
Proof.
  unfold V303.tRx_nanos_of. rewrite Hw, Hd, Hm, Ht, Hc. cbn [bind].
  repeat split.
  - intros ->. reflexivity.
  - intros -> leap offset Hl Ho. decide_constellation.
    rewrite Hl. cbn [bind]. rewrite Ho. reflexivity.
  - intros -> f Hf. decide_constellation.
    rewrite Hf. cbn [bind py_float].
    destruct (f >? V303.MHZ_1500); reflexivity.
  - intros ->. reflexivity.
Qed.
End Origin.

Lemma tRx_nanos_origin_witness :
  V303.tRx_nanos_of gps_l1 sample_fullbiasnanos
    = Ok (sample_tRx_GNSS - sample_week)%float /\
  V303.tRx_nanos_of glonass_l1 sample_fullbiasnanos
    = Ok (sample_tRx_GNSS - sample_day + 10800 * 1000000000)%float /\
  V303.tRx_nanos_of galileo_e1 sample_fullbiasnanos
    = Ok (sample_tRx_GNSS - sample_100ms)%float /\
  V303.tRx_nanos_of galileo_e5a sample_fullbiasnanos
    = Ok (sample_tRx_GNSS - sample_week)%float /\
  V303.tRx_nanos_of beidou_b1 sample_fullbiasnanos
    = Ok (sample_tRx_GNSS - sample_week - 14 * 1000000000)%float.
Proof.
  assert (Hw : V303.week_number_nanos sample_fullbiasnanos = Ok sample_week)
    by (vm_compute; reflexivity).
  assert (Hd : V303.day_number_nanos sample_fullbiasnanos = Ok sample_day)
    by (vm_compute; reflexivity).
  assert (Hm : V303.millSec_number_nanos sample_fullbiasnanos = Ok sample_100ms)
    by (vm_compute; reflexivity).
  assert (Ht : forall a b c d, V303.tRx_GNSS_of (variant a b c d) = Ok sample_tRx_GNSS)
    by (intros; vm_compute; reflexivity).
  pose proof (@tRx_nanos_origin float F64) as T.
  split; [|split; [|split; [|split]]].
  - exact (proj1 (T gps_l1 _ _ _ _ _ 1 Hw Hd Hm (Ht 15 1 5 1575420000)%float eq_refl)
             eq_refl).
  - exact (proj1 (proj2 (T glonass_l1 _ _ _ _ _ 3 Hw Hd Hm (Ht _ _ _ _) eq_refl))
             eq_refl 0 10800%float eq_refl eq_refl).
  - exact (proj1 (proj2 (proj2 (T galileo_e1 _ _ _ _ _ 6 Hw Hd Hm (Ht _ _ _ _) eq_refl)))
             eq_refl _ eq_refl).
  - exact (proj1 (proj2 (proj2 (T galileo_e5a _ _ _ _ _ 6 Hw Hd Hm (Ht _ _ _ _) eq_refl)))
             eq_refl _ eq_refl).
  - exact (proj2 (proj2 (proj2 (T beidou_b1 _ _ _ _ _ 5 Hw Hd Hm (Ht _ _ _ _) eq_refl)))
             eq_refl).
Defined.

(** C1 as the specification words it fails on a Galileo E1 record: the
    code subtracts the 100 ms start (5.02 s remain), the specification the
    week start (524805.12 s remain). *)
Lemma galileo_e1_origin_counterexample :
  V303.tRx_nanos_of galileo_e1 sample_fullbiasnanos = Ok 5023456768%float /\
  tRx_nanos_as_claimed galileo_e1 sample_fullbiasnanos = Ok 524805123456768%float /\
  V303.tRx_nanos_of galileo_e1 sample_fullbiasnanos <>
    tRx_nanos_as_claimed galileo_e1 sample_fullbiasnanos.
Proof.
  split; [vm_compute; reflexivity|]. split; [vm_compute; reflexivity|].
  intros Heq.
  apply (f_equal (fun r => match r with
                           | Ok x => PrimFloat.eqb x 5023456768%float
                           | Raise _ => false
                           end)) in Heq.
  vm_compute in Heq. discriminate Heq.
Qed.

(** ** C2: the wrap count of the ambiguity correction (3.03) *)

(** C2 (the code departs from it).  For a GPS L1 phase of 1000 m and a
    pseudorange of 22000 km the ratio is 13.78; rounded as the
    specification says, the wrap count is 14 and the corrected phase is
    117435256.96 cycles.  The code adds the half unit and never truncates:
    it uses 14.28 and returns 119805084.31.  The same happens on the
    smallest example, where the wrap count should be 0. *)
Theorem correction_wrap_count_not_rounded :
  let wl := V303.GPS_L1_WAVELENGTH (F := float) in
  V303.get_correction_adr 22000000%float (1000 / wl)%float wl
    = Ok 119805084.30855601%float /\
  correction_as_claimed 22000000%float (1000 / wl)%float wl
    = Ok 117435256.96453144%float /\
  V303.get_correction_adr 0%float 1%float 1%float = Ok 4194304%float /\
  correction_as_claimed 0%float 1%float 1%float = Ok (-1)%float.
Proof.
  repeat split; vm_compute; reflexivity.
Qed.

(** ** C6: integerized epochs (2.11) *)






(** ** C3: the week roll-over of the travel time (both scripts, binary64) *)

(** *** Signs of binary64 sums, from the specification of the primitives *)

Lemma digits2_pos_bound (m : positive) : Zpos m < 2 ^ Zpos (digits2_pos m).
Proof.
  induction m as [p IH|p IH|]; simpl digits2_pos.
  - rewrite Pos2Z.inj_succ, Z.pow_succ_r by lia. lia.
  - rewrite Pos2Z.inj_succ, Z.pow_succ_r by lia. lia.
  - reflexivity.
Qed.

Lemma valid_mantissa_bound (m : positive) (e : Z) :
  bounded prec emax m e = true -> Zpos m < 2 ^ 53.
Proof.
  unfold bounded, canonical_mantissa, fexp. intros Hb.
  apply andb_true_iff in Hb. destruct Hb as [Hc _]. apply Z.eqb_eq in Hc.
  pose proof (digits2_pos_bound m) as Hd.
  assert (Hle : Zpos (digits2_pos m) <= 53) by (unfold prec in Hc; lia).
  eapply Z.lt_le_trans; [exact Hd|]. apply Z.pow_le_mono_r; lia.
Qed.

Lemma iter_xO_value (p d : positive) : Zpos (Pos.iter xO p d) = Zpos p * 2 ^ Zpos d.
Proof.
  change (Pos.iter xO p d) with (shift_pos d p).
  rewrite shift_pos_correct, Zpower_pos_nat, Zpower_nat_Z, positive_nat_Z. lia.
Qed.

Lemma iter_pos_inv (A : Type) (f : A -> A) (P : A -> Prop) :
  (forall x, P x -> P (f x)) -> forall n x, P x -> P (iter_pos f n x).
Proof.
  intros Hf. induction n as [n IH|n IH|]; intros x Hx; simpl; auto.
Qed.

Lemma shr_1_nonneg (mrs : shr_record) : 0 <= shr_m mrs -> 0 <= shr_m (shr_1 mrs).
Proof.
  destruct mrs as [m r s]. simpl. destruct m as [|[p|p|]|[p|p|]]; simpl; lia.
Qed.

Lemma shr_fexp_nonneg (m e : Z) (l : location) :
  0 <= m -> 0 <= shr_m (fst (shr_fexp prec emax m e l)).
Proof.
  intros Hm. unfold shr_fexp, shr.
  assert (H0 : 0 <= shr_m (shr_record_of_loc m l)) by (destruct l as [|[]]; exact Hm).
  destruct (_ - e); simpl; try exact H0.
  apply iter_pos_inv; [apply shr_1_nonneg | exact H0].
Qed.

Lemma binary_round_aux_false (m : positive) (e : Z) :
  SFleb (S754_zero false) (binary_round_aux prec emax false (Zpos m) e loc_Exact) = true.
Proof.
  unfold binary_round_aux.
  pose proof (shr_fexp_nonneg (Zpos m) e loc_Exact ltac:(lia)) as H1.
  destruct (shr_fexp prec emax (Zpos m) e loc_Exact) as [mrs' e'].
  simpl fst in H1.
  assert (H2 : 0 <= round_nearest_even (shr_m mrs') (loc_of_shr_record mrs')).
  { unfold round_nearest_even. destruct (loc_of_shr_record mrs') as [|[]];
      try destruct (Z.even _); lia. }
  pose proof (shr_fexp_nonneg _ e' loc_Exact H2) as H3.
  destruct (shr_fexp prec emax _ e' loc_Exact) as [mrs'' e''].
  simpl fst in H3.
  destruct (shr_m mrs'') as [|p|p]; [reflexivity | | lia].
  destruct (e'' <=? emax - prec); reflexivity.
Qed.

Lemma binary_normalize_nonneg (z e : Z) :
  0 <= z -> SFleb (S754_zero false) (binary_normalize prec emax z e false) = true.
Proof.
  intros Hz. destruct z as [|p|p]; [reflexivity | | lia].
  unfold binary_normalize, binary_round.
  destruct (shl_align _ _ _) as [mz ez]. apply binary_round_aux_false.
Qed.

Lemma add_week_nonneg (tau : float) :
  (-604800 <=? tau)%float = true -> (tau <? 0)%float = true ->
  (0 <=? tau + 604800)%float = true.
Proof.
  rewrite !leb_spec, ltb_spec, add_spec.
  pose proof (Prim2SF_valid tau) as Hv.
  change (Prim2SF 0) with (S754_zero false).
  change (Prim2SF 604800) with (S754_finite false 5195192441241600 (-33)).
  change (Prim2SF (-604800)) with (S754_finite true 5195192441241600 (-33)).
  destruct (Prim2SF tau) as [s|s| |s m e]; try discriminate.
  - destruct s; discriminate.
  - destruct s; [|discriminate]. simpl in Hv.
    intros Hle _. unfold SF64add, SFadd.
    apply binary_normalize_nonneg.
    pose proof (valid_mantissa_bound m e Hv) as Hm.
    unfold SFleb, SFcompare in Hle.
    destruct (Z.compare_spec (-33) e) as [He|He|He]; try discriminate.
    + subst e. rewrite Z.min_id. unfold shl_align. rewrite Z.sub_diag.
      cbn [fst]. unfold cond_Zopp.
      destruct (PosDef.Pos.compare_cont Eq 5195192441241600 m) eqn:Ec;
        cbn [CompOpp] in Hle.
      * apply Pos.compare_eq in Ec. subst m. clear. lia.
      * discriminate Hle.
      * apply Pos.compare_gt_iff, Pos2Z.pos_lt_pos in Ec. clear - Ec. lia.
    + rewrite Z.min_l by lia. unfold shl_align. rewrite Z.sub_diag.
      destruct (e - -33) as [|d|d] eqn:Ed; try lia.
      cbn [fst]. unfold cond_Zopp. rewrite iter_xO_value.
      assert (Hd : 2 ^ 1 <= 2 ^ Zpos d) by (apply Z.pow_le_mono_r; lia).
      change (2 ^ 1) with 2 in Hd.
      change (2 ^ 53) with 9007199254740992 in Hm.
      clear - Hm Hd. set (x := 2 ^ Z.pos d) in *. lia.
Qed.

Lemma tau_nonneg (tau : float) :
  (-604800 <=? tau)%float = true ->
  (0 <=? (if (tau <? 0)%float then tau + 604800 else tau))%float = true.
Proof.
  intros Hle. destruct (tau <? 0)%float eqn:Elt.
  - apply add_week_nonneg; assumption.
  - revert Hle Elt. rewrite !leb_spec, ltb_spec.
    change (Prim2SF 0) with (S754_zero false).
    change (Prim2SF (-604800)) with (S754_finite true 5195192441241600 (-33)).
    destruct (Prim2SF tau) as [s|s| |s m e]; try discriminate; try reflexivity.
    + destruct s; [discriminate | reflexivity].
    + destruct s; [discriminate | reflexivity].
Qed.

(** C3, amended.  In binary64, in both scripts: one week (604800 s) is
    added to a negative travel time, and only then; when the travel time
    [tRxSeconds - tTxSeconds] is not below -604800 s, the value that is
    scaled by the speed of light is not negative. *)
Theorem tau_wraps_one_week (tRxSeconds tTxSeconds : float)
    (Hlow : (-604800 <=? tRxSeconds - tTxSeconds)%float = true) :
  let tau := (tRxSeconds - tTxSeconds)%float in
  V303.tau_of tRxSeconds tTxSeconds
    = (if tau <? 0 then tau + 604800 else tau)%float /\
  V211.tau_of tRxSeconds tTxSeconds
    = (if tau <? 0 then tau + 604800 else tau)%float /\
  (0 <=? V303.tau_of tRxSeconds tTxSeconds)%float = true /\
  (0 <=? V211.tau_of tRxSeconds tTxSeconds)%float = true.
Proof.
  cbv zeta. split; [reflexivity|]. split; [reflexivity|].
  split; apply (tau_nonneg _ Hlow).
Qed.

Lemma tau_wraps_one_week_witness :
  V303.tau_of 1%float 2%float = 604799%float /\
  V211.tau_of 1%float 2%float = 604799%float /\
  (0 <=? V303.tau_of 1%float 2%float)%float = true /\
  (0 <=? V211.tau_of 1%float 2%float)%float = true.
Proof.
  apply (tau_wraps_one_week 1%float 2%float). vm_compute. reflexivity.
Defined.

(** C3 as the specification words it fails when the transmission time is
    more than a week after the reception time: one week is added and the
    travel time stays negative, and so does the pseudorange of such a
    record. *)
Lemma tau_stays_negative_counterexample :
  V303.tau_of 0%float 700000%float = (-95200)%float /\
  V211.tau_of 0%float 700000%float = (-95200)%float /\
  (V303.tau_of 0%float 700000%float <? 0)%float = true /\
  (V211.tau_of 0%float 700000%float <? 0)%float = true /\
  V211.c1_of default_options gps_late 524805.12345695496%float 0%float
    = Ok (-203434628100466.03)%float.
Proof.
  repeat split; vm_compute; reflexivity.
Qed.

(* ================================================================== *)
(** * Further properties of the 3.03 batch *)

Lemma contains_char_app (c : ascii) (s t : string) :
  contains_char c (s ++ t) = contains_char c s || contains_char c t.
Proof.
  induction s as [|a s IH]; simpl; [reflexivity|].
  rewrite IH. now rewrite orb_assoc.
Qed.

Lemma contains_char_repeat_0 (c : ascii) (n : nat) :
  In c V303.block_order -> contains_char c (repeat_string "0" n) = false.
Proof.
  intros Hc. induction n as [|n IH]; simpl; [reflexivity|].
  rewrite IH. simpl in Hc.
  destruct Hc as [<-|[<-|[<-|[<-|[<-|[]]]]]]; reflexivity.
Qed.

Lemma contains_char_uint (c : ascii) (d : Decimal.uint) :
  In c V303.block_order -> contains_char c (NilEmpty.string_of_uint d) = false.
Proof.
  intros Hc. simpl in Hc.
  induction d as [|d IH|d IH|d IH|d IH|d IH|d IH|d IH|d IH|d IH|d IH]; simpl;
    [reflexivity|..]; rewrite IH;
    destruct Hc as [<-|[<-|[<-|[<-|[<-|[]]]]]]; reflexivity.
Qed.

Lemma contains_char_dec (c : ascii) (n : Z) :
  In c V303.block_order -> contains_char c (dec_of_Z n) = false.
Proof.
  intros Hc. unfold dec_of_Z, NilZero.string_of_int.
  pose proof (contains_char_uint c) as Hu.
  assert (Hz : forall d, contains_char c (NilZero.string_of_uint d) = false).
  { intros d. unfold NilZero.string_of_uint. destruct d; try apply (Hu _ Hc).
    simpl in Hc |- *. destruct Hc as [<-|[<-|[<-|[<-|[<-|[]]]]]]; reflexivity. }
  destruct (Z.to_int n) as [d|d]; [apply Hz|].
  simpl. rewrite Hz. simpl in Hc.
  destruct Hc as [<-|[<-|[<-|[<-|[<-|[]]]]]]; reflexivity.
Qed.

Lemma contains_char_fmt_02d (c : ascii) (n : Z) :
  In c V303.block_order -> contains_char c (fmt_02d n) = false.
Proof.
  intros Hc. unfold fmt_02d, pad_left.
  destruct (n <? 0).
  - rewrite !contains_char_app, contains_char_repeat_0, contains_char_dec by exact Hc.
    simpl in Hc |- *. destruct Hc as [<-|[<-|[<-|[<-|[<-|[]]]]]]; reflexivity.
  - now rewrite contains_char_app, contains_char_repeat_0, contains_char_dec.
Qed.

(** An id built by the loop contains exactly one of the letters of the
    five loops of [print]. *)
Lemma loop_svid_printed_once (svid : string) :
  loop_svid svid -> times_printed svid = 1%nat.
Proof.
  intros (letter & prn & Hl & ->). unfold times_printed.
  assert (Hf : forall c, In c V303.block_order ->
             contains_char c (letter ++ fmt_02d prn) = contains_char c letter).
  { intros c Hc. rewrite contains_char_app, contains_char_fmt_02d by exact Hc.
    apply orb_false_r. }
  simpl filter.
  rewrite !Hf by (simpl; tauto).
  simpl in Hl. destruct Hl as [<-|[<-|[<-|[<-|[]]]]]; reflexivity.
Qed.

Lemma join_app (l l' : list string) : join (l ++ l') = join l ++ join l'.
Proof.
  induction l as [|x l IH]; simpl; [reflexivity|].
  rewrite IH. unfold join. simpl.
  induction x as [|a x IHx]; simpl; [reflexivity | now rewrite IHx].
Qed.

Lemma blocks_printed_rows (letters : list ascii) (rs : list row) :
  blocks letters rs =
  join (map format_row
    (concat (map (fun letter => filter (fun r => contains_char letter (r_svid r)) rs)
                 letters))).
Proof.
  unfold blocks, block. induction letters as [|c rest IH]; simpl; [reflexivity|].
  rewrite map_app, join_app, <- IH. reflexivity.
Qed.

(** A row that is in no block of [letters] does not change the blocks;
    a row that is in exactly one is inserted once. *)
Lemma blocks_cons_permutation (letters : list ascii) (r : row) (rs : list row) :
  (List.length (filter (fun c => contains_char c (r_svid r)) letters) <= 1)%nat ->
  Permutation
    (if (List.length (filter (fun c => contains_char c (r_svid r)) letters) =? 1)%nat
     then r :: concat (map (fun c => filter (fun x => contains_char c (r_svid x)) rs) letters)
     else concat (map (fun c => filter (fun x => contains_char c (r_svid x)) rs) letters))
    (concat (map (fun c => filter (fun x => contains_char c (r_svid x)) (r :: rs)) letters)).
Proof.
  induction letters as [|c rest IH]; simpl; intros Hle; [constructor|].
  destruct (contains_char c (r_svid r)) eqn:E; simpl in Hle |- *.
  - assert (H0 : List.length (filter (fun c => contains_char c (r_svid r)) rest) = 0%nat)
      by lia.
    specialize (IH ltac:(lia)). rewrite H0 in IH |- *. simpl in IH |- *.
    constructor. apply Permutation_app_head. exact IH.
  - specialize (IH Hle).
    destruct (List.length (filter _ rest) =? 1)%nat.
    + eapply Permutation_trans; [apply Permutation_middle|].
      apply Permutation_app_head. exact IH.
    + apply Permutation_app_head. exact IH.
Qed.

Lemma printed_rows_permutation (rs : list row) :
  Forall (fun r => times_printed (r_svid r) = 1%nat) rs ->
  Permutation rs (printed_rows rs).
Proof.
  unfold printed_rows, times_printed.
  induction 1 as [|r rs Hr Hrs IH]; simpl.
  - constructor.
  - pose proof (blocks_cons_permutation V303.block_order r rs ltac:(lia)) as Hp.
    rewrite Hr in Hp. simpl Nat.eqb in Hp. cbv iota in Hp.
    eapply Permutation_trans; [|exact Hp].
    constructor. exact IH.
Qed.

Lemma rows_svids (b : V303.RinexBatch) : map r_svid (rows b) = V303.B.svids b.
Proof.
  unfold rows. rewrite map_map. simpl.
  apply nth_ext with (d := "") (d' := "").
  - now rewrite length_map, length_seq.
  - intros n Hn. rewrite length_map, length_seq in Hn.
    rewrite (nth_indep _ "" (nth 0 (V303.B.svids b) "")) by
      (now rewrite length_map, length_seq).
    rewrite (map_nth (fun i => nth i (V303.B.svids b) "")).
    now rewrite seq_nth by exact Hn.
Qed.

(** What [print] returns on a batch that satisfies the invariant. *)
Lemma print_batch_inv (b : V303.RinexBatch) :
  batch_inv b ->
  V303.print b =
    Ok (V303.epoch_line b ++ newline ++ join (map format_row (printed_rows (rows b))), [])
  /\ Permutation (rows b) (printed_rows (rows b)).
Proof.
  intros (Hwf & Hnd & Hsh). split.
  - unfold V303.print. rewrite (has_repeated_NoDup _ Hnd).
    rewrite (print_blocks_rows _ b Hwf). cbn [bind].
    rewrite blocks_printed_rows. reflexivity.
  - apply printed_rows_permutation.
    rewrite <- (rows_svids b) in Hsh. rewrite Forall_map in Hsh.
    eapply Forall_impl; [|exact Hsh].
    intros r Hr. apply loop_svid_printed_once, Hr.
Qed.

Section LoopInvariant.
Context {F : Type} `{PyFloat F}.

Lemma band_codeType (codeType : string) (values : raw F) (c1 wl wl_doppler : F)
    (ct : string) (l d : @V303.pynum F) :
  V303.band codeType values c1 wl wl_doppler = Ok (ct, l, d) -> ct = codeType.
Proof.
  unfold V303.band. intros Hb.
  bind_ok Hb adr E1. bind_ok Hb l1 E2. bind_ok Hb rate E3.
  now injection Hb as <- _ _.
Qed.

(** What the constellation branch guarantees about an observable: the id
    is a constellation letter with the formatted PRN, and the band code is
    one of L1, E1, B1 exactly when the carrier frequency is above
    1500 MHz. *)
Lemma classify_observable (values : raw F) (c1 : F) (prn : Z)
    (svid codeType : string) (l d : @V303.pynum F) :
  V303.classify values c1 prn = Ok (V303.Observable svid codeType l d) ->
  loop_svid svid /\
  V303.is_primary codeType = (V303.carrier_frequency values >? V303.MHZ_1500)%py.
Proof.
  unfold V303.classify. intros Hc.
  bind_ok Hc c Ec.
  repeat match type of Hc with
  | (if ?t then _ else _) = _ => destruct t eqn:?
  | bind ?m _ = _ =>
      let E := fresh "E" in
      destruct m as [[[? ?] ?]|] eqn:E; cbn [bind V303.observable] in Hc;
      [|discriminate Hc]
  end;
  try discriminate Hc;
  injection Hc as <- <- <- <-;
  repeat match goal with
  | E : (if ?t then _ else _) = Ok _ |- _ => destruct t eqn:?
  | E : bind _ _ = Ok _ |- _ =>
      let a := fresh "a" in let Ea := fresh "Ea" in bind_ok E a Ea
  | E : V303.band _ _ _ _ _ = Ok _ |- _ => apply band_codeType in E; subst
  | E : Ok V303.no_band = Ok _ |- _ => injection E as <- <- <-
  end;
  match goal with
  | |- loop_svid (String ?c _) /\ _ =>
      split; [exists (String c ""), prn; split; [simpl; tauto | reflexivity]
             | reflexivity]
  end.
Qed.
End LoopInvariant.

Section LoopRun.
Context {F : Type} `{PyFloat F}.

(** The steps of one iteration of the 3.03 loop that ran to its end. *)
Lemma process_values_steps (args : options) (values : raw F) (st st' : @V303.state F) :
  V303.process_values args values st = Ok st' ->
  exists fb gpsweek gpssow frac epoch st1 tRx_nanos c1 prn decision,
    V303.update_fullbiasnanos args values (V303.fullbiasnanos st) = Ok fb /\
    V303.gpsweek_of fb = Ok gpsweek /\
    V303.gpssow_of fb gpsweek values = Ok gpssow /\
    V303.frac_of args gpssow = Ok frac /\
    gpstime_to_epoch gpsweek (gpssow - frac)%py = Ok epoch /\
    V303.switch_batch epoch
      (V303.end_header_once epoch
         (V303.set_fullbiasnanos fb (V303.sync_check values st))) = Ok st1 /\
    V303.tRx_nanos_of values fb = Ok tRx_nanos /\
    V303.c1_of args values tRx_nanos frac = Ok c1 /\
    py_int_field (Svid values) = Ok prn /\
    V303.classify values c1 prn = Ok decision /\
    match decision with
    | V303.Continue message => st' = V303.write_err message st1
    | V303.Observable svid codeType l1 d1 =>
        exists l1' st2 s1,
          V303.adr_check values svid l1 st1 = Ok (l1', st2) /\
          py_float (Cn0DbHz values) = Ok s1 /\
          V303.store codeType svid c1 s1 l1' d1 st2 = Ok st'
    end.
Proof.
  unfold V303.process_values. intros Hrun.
  assert (Hfb : V303.fullbiasnanos (V303.sync_check values st) = V303.fullbiasnanos st).
  { unfold V303.sync_check.
    destruct (s <- py_int_field (State values) ;; check_state s); reflexivity. }
  rewrite Hfb in Hrun.
  bind_ok Hrun fb Efb. bind_ok Hrun gpsweek Ew. bind_ok Hrun gpssow Es.
  bind_ok Hrun frac Ef. bind_ok Hrun epoch Ee. bind_ok Hrun st1 Esw.
  bind_ok Hrun tRx_nanos Et. bind_ok Hrun c1 Ec1. bind_ok Hrun prn Ep.
  bind_ok Hrun decision Ed.
  exists fb, gpsweek, gpssow, frac, epoch, st1, tRx_nanos, c1, prn, decision.
  repeat (split; [first [assumption | reflexivity]|]).
  destruct decision as [message|svid codeType l1 d1].
  - now injection Hrun as <-.
  - bind_ok Hrun checked Ea. destruct checked as [l1' st2].
    bind_ok Hrun s1 Es1. exists l1', st2, s1. auto.
Qed.

(** [switch_batch] leaves a batch of the given epoch: the one it found,
    when that has the epoch, or an empty one. *)
Lemma switch_batch_cases (epoch : datetime) (st st1 : @V303.state F) :
  V303.switch_batch epoch st = Ok st1 ->
  (exists b, V303.rinex_batch st = Some b /\ V303.B.epoch b = epoch /\ st1 = st) \/
  (V303.rinex_batch st1 = Some (V303.new_batch epoch) /\
   match V303.rinex_batch st with
   | None => V303.out st1 = V303.out st /\ V303.err st1 = V303.err st
   | Some b =>
       V303.B.epoch b <> epoch /\
       exists text warnings,
         V303.print b = Ok (text, warnings) /\
         V303.out st1 = (V303.out st ++ [Epoch text])%list /\
         V303.err st1 = (V303.err st ++ warnings)%list
   end /\
   V303.first_epoch st1 = V303.first_epoch st /\
   V303.fullbiasnanos st1 = V303.fullbiasnanos st).
Proof.
  unfold V303.switch_batch. intros Hs.
  destruct (V303.rinex_batch st) as [b|] eqn:Eb.
  - destruct (V303.B.epoch b =? epoch) eqn:Ee; simpl negb in Hs; cbv iota in Hs.
    + apply Z.eqb_eq in Ee. injection Hs as <-. left. exists b. auto.
    + apply Z.eqb_neq in Ee. right.
      bind_ok Hs flushed Ef. unfold V303.flush in Ef. bind_ok Ef printed Ep.
      destruct printed as [text warnings]. injection Ef as <-.
      injection Hs as <-. simpl.
      repeat split; try assumption. exists text, warnings. auto.
  - injection Hs as <-. right. simpl. auto.
Qed.

Lemma adr_check_state (values : raw F) (svid : string) (l l' : @V303.pynum F)
    (st st' : @V303.state F) :
  V303.adr_check values svid l st = Ok (l', st') ->
  V303.rinex_batch st' = V303.rinex_batch st /\
  V303.out st' = V303.out st /\
  V303.first_epoch st' = V303.first_epoch st /\
  V303.fullbiasnanos st' = V303.fullbiasnanos st /\
  ((l' = l /\ st' = st) \/
   (l' = V303.PyInt 0 /\ st' = V303.write_err (AdrStateWarning svid) st)).
Proof.
  unfold V303.adr_check. intros Hc.
  destruct (bind _ _) as [ok|[]]; try discriminate;
    injection Hc as <- <-; simpl; auto 10.
Qed.

Lemma store_add (codeType svid : string) (c1 s1 : F) (l1 d1 : @V303.pynum F)
    (st st' : @V303.state F) :
  V303.store codeType svid c1 s1 l1 d1 st = Ok st' ->
  exists b b',
    V303.rinex_batch st = Some b /\
    V303.add codeType svid (fmt_3f c1) (fmt_3f s1)
      (V303.fmt_3f_num l1) (V303.fmt_3f_num d1) b = Ok b' /\
    st' = V303.set_batch b' st.
Proof.
  unfold V303.store. intros Hs.
  destruct (V303.rinex_batch st) as [b|]; [|discriminate].
  bind_ok Hs b' Ea. injection Hs as <-. exists b, b'. auto.
Qed.

Lemma add_batch_inv (codeType svid c1 s1 l1 d1 : string) (b b' : V303.RinexBatch) :
  batch_inv b -> loop_svid svid ->
  V303.add codeType svid c1 s1 l1 d1 b = Ok b' -> batch_inv b'.
Proof.
  intros (Hwf & Hnd & Hsh) Hsvid Hadd.
  destruct (add_wf codeType svid c1 s1 l1 d1 b Hwf) as (b1 & Hadd1 & Hwf1 & _ & Hs).
  rewrite Hadd in Hadd1. injection Hadd1 as <-.
  split; [exact Hwf1|]. rewrite Hs.
  destruct (mem svid (V303.B.svids b)) eqn:Em; [split; assumption|].
  split.
  - apply NoDup_app; [exact Hnd | repeat constructor; intros [] |].
    intros x Hx [<-|[]]. apply mem_In in Hx. congruence.
  - apply Forall_app. split; [exact Hsh | repeat constructor; exact Hsvid].
Qed.

Lemma new_batch_inv (epoch : datetime) : batch_inv (V303.new_batch epoch).
Proof.
  split; [reflexivity|]. split; constructor.
Qed.

(** One iteration keeps the invariant and leaves a batch. *)
Lemma process_values_inv (args : options) (values : raw F) (st st' : @V303.state F) :
  state_inv st ->
  V303.process_values args values st = Ok st' ->
  state_inv st' /\ exists b, V303.rinex_batch st' = Some b.
Proof.
  intros Hinv Hrun.
  destruct (process_values_steps args values st st' Hrun)
    as (fb & gpsweek & gpssow & frac & epoch & st1 & tRx & c1 & prn & dec &
        _ & _ & _ & _ & _ & Hsw & _ & _ & _ & Hcl & Hdec).
  assert (Hb0 : V303.rinex_batch
            (V303.end_header_once epoch
               (V303.set_fullbiasnanos fb (V303.sync_check values st)))
          = V303.rinex_batch st).
  { unfold V303.end_header_once, V303.set_fullbiasnanos, V303.sync_check.
    destruct (V303.first_epoch _); simpl;
      destruct (s <- py_int_field (State values) ;; check_state s); reflexivity. }
  assert (H1 : exists b1, V303.rinex_batch st1 = Some b1 /\ batch_inv b1).
  { destruct (switch_batch_cases _ _ _ Hsw) as [(b & Hb & _ & ->)|(Hb & _)].
    - exists b. split; [exact Hb|]. rewrite Hb0 in Hb.
      unfold state_inv in Hinv. now rewrite Hb in Hinv.
    - eexists. split; [exact Hb | apply new_batch_inv]. }
  destruct H1 as (b1 & Hb1 & Hinv1).
  destruct dec as [message|svid codeType l1 d1].
  - subst st'. unfold state_inv. simpl. rewrite Hb1. eauto.
  - destruct Hdec as (l1' & st2 & s1 & Hadr & _ & Hst).
    apply adr_check_state in Hadr. destruct Hadr as (Hb2 & _).
    apply store_add in Hst. destruct Hst as (b & b' & Hb & Hadd & ->).
    rewrite Hb2, Hb1 in Hb. injection Hb as <-.
    apply classify_observable in Hcl. destruct Hcl as [Hsvid _].
    unfold state_inv. simpl. split; [|eauto].
    eapply add_batch_inv; eassumption.
Qed.

Lemma process_all_inv (args : options) (lines : list (raw F)) (st st' : @V303.state F) :
  state_inv st ->
  V303.process_all args lines st = Ok st' ->
  state_inv st' /\
  (lines <> [] -> exists b, V303.rinex_batch st' = Some b).
Proof.
  revert st. induction lines as [|values rest IH]; intros st Hinv Hrun; simpl in Hrun.
  - injection Hrun as <-. split; [exact Hinv | congruence].
  - bind_ok Hrun st1 E1.
    destruct (process_values_inv _ _ _ _ Hinv E1) as [Hinv1 [b1 Hb1]].
    destruct (IH st1 Hinv1 Hrun) as [Hinv' Hb'].
    split; [exact Hinv'|]. intros _.
    destruct rest as [|v rest'].
    + simpl in Hrun. injection Hrun as <-. eauto.
    + apply Hb'. discriminate.
Qed.
End LoopRun.

(** ** The batches of the 3.03 loop are printed in full *)

Section LoopPrint.
Context {F : Type} `{PyFloat F}.

(** X1.  Whenever the 3.03 loop gets through its lines, the batch it leaves
    is printed in full by the final [print]: the repeated-entries test does
    not fire, nothing is raised, nothing goes to stderr, and every satellite
    of the batch has exactly one data line (the printed rows are a
    permutation of the rows of the batch). *)
Theorem main_prints_every_satellite_once
    (args : options) (lines : list (raw F)) (st : @V303.state F)
    (Hlines : lines <> [])
    (Hrun : V303.process_all args lines V303.initial = Ok st) :
  exists b st',
    V303.rinex_batch st = Some b /\
    V303.print b = Ok (batch_text b, []) /\
    Permutation (rows b) (printed_rows (rows b)) /\
    V303.main args lines = Ok st' /\
    V303.out st' = (V303.out st ++ [Epoch (batch_text b)])%list /\
    V303.err st' = V303.err st.
Proof.
  destruct (process_all_inv args lines V303.initial st I Hrun) as [Hinv Hb].
  destruct (Hb Hlines) as [b Eb]. unfold state_inv in Hinv. rewrite Eb in Hinv.
  destruct (print_batch_inv b Hinv) as [Hp Hperm].
  exists b. eexists. split; [exact Eb|]. split; [exact Hp|]. split; [exact Hperm|].
  unfold V303.main. rewrite Hrun. cbn [bind]. rewrite Eb.
  unfold V303.flush. fold (batch_text b) in Hp. rewrite Hp. cbn [bind].
  split; [reflexivity|]. split; [reflexivity|]. simpl. apply app_nil_r.
Qed.

(** X2.  When the 3.03 loop gets through its lines, the final
    [rinex_batch.print()] fails exactly on an input without lines, with the
    [AttributeError] of [None.print()]. *)
Theorem main_fails_only_without_lines
    (args : options) (lines : list (raw F)) (st : @V303.state F)
    (Hrun : V303.process_all args lines V303.initial = Ok st) :
  (lines = [] -> V303.main args lines = Raise AttributeError) /\
  (lines <> [] -> exists st', V303.main args lines = Ok st').
Proof.
  split.
  - intros ->. reflexivity.
  - intros Hne.
    destruct (process_all_inv args lines V303.initial st I Hrun) as [Hinv Hb].
    destruct (Hb Hne) as [b Eb]. unfold state_inv in Hinv. rewrite Eb in Hinv.
    destruct (print_batch_inv b Hinv) as [Hp _].
    unfold V303.main. rewrite Hrun. cbn [bind]. rewrite Eb.
    unfold V303.flush. rewrite Hp. cbn [bind]. eexists. reflexivity.
Qed.
End LoopPrint.

Lemma main_prints_every_satellite_once_witness :
  exists b st',
    V303.rinex_batch sample_state = Some b /\
    V303.print b = Ok (batch_text b, []) /\
    Permutation (rows b) (printed_rows (rows b)) /\
    V303.main default_options sample_lines = Ok st' /\
    V303.out st' = (V303.out sample_state ++ [Epoch (batch_text b)])%list /\
    V303.err st' = V303.err sample_state.
Proof.
  apply (@main_prints_every_satellite_once float F64 default_options sample_lines
           sample_state).
  - discriminate.
  - vm_compute. reflexivity.
Defined.

Lemma main_fails_only_without_lines_witness :
  (sample_lines = [] -> V303.main default_options sample_lines = Raise AttributeError) /\
  (sample_lines <> [] -> exists st', V303.main default_options sample_lines = Ok st').
Proof.
  apply (@main_fails_only_without_lines float F64 default_options sample_lines
           sample_state).
  vm_compute. reflexivity.
Defined.

(** The sample run as it is printed: the two bands of GPS 5 share one
    line, GPS comes before Galileo. *)
Example sample_run_printed :
  exists st, V303.main default_options sample_lines = Ok st /\
    V303.err st = [] /\
    V303.out st =
      [EndHeader 1270000005123457;
       Epoch ("> 2020 04 04 01 46 45.123457   0  2" ++ newline ++
              "G05  22021785.019   119919565.358         648.997          35.500" ++
              "    22021785.019    90612518.651         484.641          35.500" ++
              newline ++
              "E11  23983388682539.227  126033562377565.406         648.997          35.500" ++
              "                                                                " ++
              newline)].
Proof.
  eexists. split; [vm_compute; reflexivity|]. split; vm_compute; reflexivity.
Qed.

(** ** Merging and overwriting in [RinexBatch.add] (3.03) *)

Lemma list_set_last (A : Type) (l : list A) (n : nat) (x v : A) :
  List.length l = n -> list_set (l ++ [x]) n v = Ok (l ++ [v])%list.
Proof.
  intros <-. induction l as [|a l IH]; simpl; [reflexivity|].
  rewrite IH. reflexivity.
Qed.

Lemma list_set_twice (A : Type) (l l1 : list A) (i : nat) (v v' : A) :
  list_set l i v = Ok l1 -> list_set l1 i v' = list_set l i v'.
Proof.
  revert l1 i. induction l as [|a l IH]; intros l1 i Hs; simpl in Hs; [discriminate|].
  destruct i as [|k].
  - injection Hs as <-. reflexivity.
  - bind_ok Hs l' E. injection Hs as <-. simpl. now rewrite (IH _ _ E).
Qed.

Lemma add_new (band svid c s l d : string) (b : V303.RinexBatch) :
  mem svid (V303.B.svids b) = false ->
  V303.add band svid c s l d b =
  Ok (if V303.is_primary band then
        {| V303.B.epoch := V303.B.epoch b;
           V303.B.svids := (V303.B.svids b ++ [svid])%list;
           V303.B.c1 := (V303.B.c1 b ++ [c])%list; V303.B.c2 := (V303.B.c2 b ++ [""])%list;
           V303.B.l1 := (V303.B.l1 b ++ [l])%list; V303.B.l2 := (V303.B.l2 b ++ [""])%list;
           V303.B.s1 := (V303.B.s1 b ++ [s])%list; V303.B.s2 := (V303.B.s2 b ++ [""])%list;
           V303.B.d1 := (V303.B.d1 b ++ [d])%list; V303.B.d2 := (V303.B.d2 b ++ [""])%list |}
      else
        {| V303.B.epoch := V303.B.epoch b;
           V303.B.svids := (V303.B.svids b ++ [svid])%list;
           V303.B.c1 := (V303.B.c1 b ++ [""])%list; V303.B.c2 := (V303.B.c2 b ++ [c])%list;
           V303.B.l1 := (V303.B.l1 b ++ [""])%list; V303.B.l2 := (V303.B.l2 b ++ [l])%list;
           V303.B.s1 := (V303.B.s1 b ++ [""])%list; V303.B.s2 := (V303.B.s2 b ++ [s])%list;
           V303.B.d1 := (V303.B.d1 b ++ [""])%list; V303.B.d2 := (V303.B.d2 b ++ [d])%list |}).
Proof.
  intros Hnew. unfold V303.add.
  pose proof (find_svid_mem svid (V303.B.svids b) 0) as Hm.
  destruct (V303.find_svid svid (V303.B.svids b) 0); [congruence|].
  destruct (V303.is_primary band); reflexivity.
Qed.

(** X3.  Two observations of one satellite in different band classes share one
    row: on a well-formed batch that does not hold the id yet, adding a
    first-band observation and a second-band observation, in either order,
    appends a single row that carries both. *)
Theorem add_merges_two_bands
    (b : V303.RinexBatch) (band1 band2 svid c1 s1 l1 d1 c2 s2 l2 d2 : string)
    (Hwf : wf_batch b = true)
    (Hnew : mem svid (V303.B.svids b) = false)
    (H1 : V303.is_primary band1 = true)
    (H2 : V303.is_primary band2 = false) :
  let merged :=
    {| V303.B.epoch := V303.B.epoch b;
       V303.B.svids := (V303.B.svids b ++ [svid])%list;
       V303.B.c1 := (V303.B.c1 b ++ [c1])%list; V303.B.c2 := (V303.B.c2 b ++ [c2])%list;
       V303.B.l1 := (V303.B.l1 b ++ [l1])%list; V303.B.l2 := (V303.B.l2 b ++ [l2])%list;
       V303.B.s1 := (V303.B.s1 b ++ [s1])%list; V303.B.s2 := (V303.B.s2 b ++ [s2])%list;
       V303.B.d1 := (V303.B.d1 b ++ [d1])%list; V303.B.d2 := (V303.B.d2 b ++ [d2])%list |} in
  (first <- V303.add band1 svid c1 s1 l1 d1 b ;;
   V303.add band2 svid c2 s2 l2 d2 first) = Ok merged /\
  (second <- V303.add band2 svid c2 s2 l2 d2 b ;;
   V303.add band1 svid c1 s1 l1 d1 second) = Ok merged.
Proof.
  cbv zeta. apply wf_batch_lengths in Hwf. cbv zeta in Hwf.
  destruct Hwf as (Hc1 & Hc2 & Hl1 & Hl2 & Hs1 & Hs2 & Hd1 & Hd2).
  rewrite !(add_new _ _ _ _ _ _ b Hnew), H1, H2. cbn [bind].
  split; unfold V303.add;
    cbn [V303.B.svids V303.B.c1 V303.B.c2 V303.B.l1 V303.B.l2
         V303.B.s1 V303.B.s2 V303.B.d1 V303.B.d2 V303.B.epoch];
    rewrite (find_svid_new _ _ Hnew), ?H1, ?H2;
    rewrite !list_set_last by assumption; reflexivity.
Qed.

Lemma add_merges_two_bands_witness :
  let merged :=
    {| V303.B.epoch := 0;
       V303.B.svids := ["G05"];
       V303.B.c1 := ["1.000"]; V303.B.c2 := ["5.000"];
       V303.B.l1 := ["3.000"]; V303.B.l2 := ["7.000"];
       V303.B.s1 := ["2.000"]; V303.B.s2 := ["6.000"];
       V303.B.d1 := ["4.000"]; V303.B.d2 := ["8.000"] |} in
  (first <- V303.add "L1" "G05" "1.000" "2.000" "3.000" "4.000" (V303.new_batch 0) ;;
   V303.add "L5" "G05" "5.000" "6.000" "7.000" "8.000" first) = Ok merged /\
  (second <- V303.add "L5" "G05" "5.000" "6.000" "7.000" "8.000" (V303.new_batch 0) ;;
   V303.add "L1" "G05" "1.000" "2.000" "3.000" "4.000" second) = Ok merged.
Proof.
  exact (add_merges_two_bands (V303.new_batch 0) "L1" "L5" "G05"
           "1.000" "2.000" "3.000" "4.000" "5.000" "6.000" "7.000" "8.000"
           eq_refl eq_refl eq_refl eq_refl).
Defined.

(** X4.  A second observation of a satellite in the same band class replaces
    the first (last write wins): on a well-formed batch, two calls of [add]
    for one id with band codes of one class leave the batch that the
    second call alone would leave. *)
Theorem add_same_band_overwrites
    (b : V303.RinexBatch) (band band' svid c s l d c' s' l' d' : string)
    (Hwf : wf_batch b = true)
    (Hclass : V303.is_primary band = V303.is_primary band') :
  (first <- V303.add band svid c s l d b ;;
   V303.add band' svid c' s' l' d' first)
  = V303.add band' svid c' s' l' d' b.
Proof.
  apply wf_batch_lengths in Hwf. cbv zeta in Hwf.
  destruct Hwf as (Hc1 & Hc2 & Hl1 & Hl2 & Hs1 & Hs2 & Hd1 & Hd2).
  destruct (mem svid (V303.B.svids b)) eqn:Hm.
  - pose proof (find_svid_mem svid (V303.B.svids b) 0) as Hf.
    destruct (V303.find_svid svid (V303.B.svids b) 0) as [i|] eqn:Ef; [|congruence].
    pose proof (find_svid_Some _ _ _ _ Ef) as [Hi _].
    assert (Hfirst : exists x1 x2 x3 x4,
      V303.add band svid c s l d b =
      Ok (if V303.is_primary band then
            {| V303.B.epoch := V303.B.epoch b; V303.B.svids := V303.B.svids b;
               V303.B.c1 := x1; V303.B.c2 := V303.B.c2 b;
               V303.B.l1 := x3; V303.B.l2 := V303.B.l2 b;
               V303.B.s1 := x2; V303.B.s2 := V303.B.s2 b;
               V303.B.d1 := x4; V303.B.d2 := V303.B.d2 b |}
          else
            {| V303.B.epoch := V303.B.epoch b; V303.B.svids := V303.B.svids b;
               V303.B.c1 := V303.B.c1 b; V303.B.c2 := x1;
               V303.B.l1 := V303.B.l1 b; V303.B.l2 := x3;
               V303.B.s1 := V303.B.s1 b; V303.B.s2 := x2;
               V303.B.d1 := V303.B.d1 b; V303.B.d2 := x4 |}) /\
      (if V303.is_primary band then
         list_set (V303.B.c1 b) i c = Ok x1 /\ list_set (V303.B.s1 b) i s = Ok x2 /\
         list_set (V303.B.l1 b) i l = Ok x3 /\ list_set (V303.B.d1 b) i d = Ok x4
       else
         list_set (V303.B.c2 b) i c = Ok x1 /\ list_set (V303.B.s2 b) i s = Ok x2 /\
         list_set (V303.B.l2 b) i l = Ok x3 /\ list_set (V303.B.d2 b) i d = Ok x4)).
    { unfold V303.add. rewrite Ef. destruct (V303.is_primary band).
      - destruct (list_set_total _ (V303.B.c1 b) i c ltac:(lia)) as [x1 E1].
        destruct (list_set_total _ (V303.B.s1 b) i s ltac:(lia)) as [x2 E2].
        destruct (list_set_total _ (V303.B.l1 b) i l ltac:(lia)) as [x3 E3].
        destruct (list_set_total _ (V303.B.d1 b) i d ltac:(lia)) as [x4 E4].
        exists x1, x2, x3, x4. rewrite E1, E2, E3, E4. auto.
      - destruct (list_set_total _ (V303.B.c2 b) i c ltac:(lia)) as [x1 E1].
        destruct (list_set_total _ (V303.B.s2 b) i s ltac:(lia)) as [x2 E2].
        destruct (list_set_total _ (V303.B.l2 b) i l ltac:(lia)) as [x3 E3].
        destruct (list_set_total _ (V303.B.d2 b) i d ltac:(lia)) as [x4 E4].
        exists x1, x2, x3, x4. rewrite E1, E2, E3, E4. auto. }
    destruct Hfirst as (x1 & x2 & x3 & x4 & -> & Hsets). cbn [bind].
    unfold V303.add. rewrite <- Hclass.
    destruct (V303.is_primary band);
      cbn [V303.B.svids V303.B.c1 V303.B.c2 V303.B.l1 V303.B.l2
           V303.B.s1 V303.B.s2 V303.B.d1 V303.B.d2 V303.B.epoch];
      rewrite Ef; destruct Hsets as (E1 & E2 & E3 & E4);
      rewrite (list_set_twice _ _ _ _ _ c' E1), (list_set_twice _ _ _ _ _ s' E2),
        (list_set_twice _ _ _ _ _ l' E3), (list_set_twice _ _ _ _ _ d' E4);
      reflexivity.
  - rewrite !(add_new _ _ _ _ _ _ b Hm), <- Hclass. cbn [bind].
    unfold V303.add. rewrite <- Hclass.
    destruct (V303.is_primary band);
      cbn [V303.B.svids V303.B.c1 V303.B.c2 V303.B.l1 V303.B.l2
           V303.B.s1 V303.B.s2 V303.B.d1 V303.B.d2 V303.B.epoch];
      rewrite (find_svid_new _ _ Hm);
      rewrite !list_set_last by assumption; reflexivity.
Qed.

Lemma add_same_band_overwrites_witness :
  (first <- V303.add "L5" "G05" "1.000" "2.000" "3.000" "4.000" (V303.new_batch 0) ;;
   V303.add "L2" "G05" "5.000" "6.000" "7.000" "8.000" first)
  = V303.add "L2" "G05" "5.000" "6.000" "7.000" "8.000" (V303.new_batch 0).
Proof.
  exact (add_same_band_overwrites (V303.new_batch 0) "L5" "L2" "G05"
           "1.000" "2.000" "3.000" "4.000" "5.000" "6.000" "7.000" "8.000"
           eq_refl eq_refl).
Defined.

(** ** Where an observation lands in the batch (3.03) *)

(** The row of [svid] after [add]: the four values are in the first-band
    columns for the band codes L1, E1 and B1, in the second-band columns
    for every other code. *)
Lemma add_row_columns (band svid c s l d : string) (b b' : V303.RinexBatch) :
  wf_batch b = true ->
  V303.add band svid c s l d b = Ok b' ->
  exists i,
    V303.find_svid svid (V303.B.svids b') 0 = Some i /\
    if V303.is_primary band then
      nth_error (V303.B.c1 b') i = Some c /\ nth_error (V303.B.l1 b') i = Some l /\
      nth_error (V303.B.d1 b') i = Some d /\ nth_error (V303.B.s1 b') i = Some s
    else
      nth_error (V303.B.c2 b') i = Some c /\ nth_error (V303.B.l2 b') i = Some l /\
      nth_error (V303.B.d2 b') i = Some d /\ nth_error (V303.B.s2 b') i = Some s.
Proof.
  intros Hwf Hadd.
  destruct (V303.is_primary band) eqn:Hprim.
  - pose proof Hwf as Hl. apply wf_batch_lengths in Hl. cbv zeta in Hl.
    destruct Hl as (Hc1 & Hc2 & Hl1 & Hl2 & Hs1 & Hs2 & Hd1 & Hd2).
    unfold V303.add in Hadd. rewrite Hprim in Hadd.
    pose proof (find_svid_mem svid (V303.B.svids b) 0) as Hm.
    destruct (V303.find_svid svid (V303.B.svids b) 0) as [i|] eqn:Ef.
    + bind_ok Hadd x1 E1. bind_ok Hadd x2 E2. bind_ok Hadd x3 E3.
      bind_ok Hadd x4 E4.
      injection Hadd as <-. simpl. exists i. rewrite Ef.
      repeat split; eapply list_set_nth; eassumption.
    + injection Hadd as <-. simpl. exists (List.length (V303.B.svids b)).
      rewrite (find_svid_new _ _ Hm).
      repeat split; apply nth_error_last; assumption.
  - destruct (add_second_band band svid c s l d b b' Hwf Hprim Hadd)
      as (i & Hf & Hc & Hl & Hd & Hs & _).
    exists i. auto.
Qed.

Section Landing.
Context {F : Type} `{PyFloat F}.

(** The record is rejected exactly when the constellation branch ends in
    [continue]. *)
Lemma classify_continue (values : raw F) (c1 : F) (prn : Z) (dec : @V303.decision F) :
  py_int_field (Svid values) = Ok prn ->
  V303.classify values c1 prn = Ok dec ->
  match dec with
  | V303.Continue message => rejected values = true /\ In message rejection_messages
  | V303.Observable _ _ _ _ => rejected values = false
  end.
Proof.
  intros Hprn Hc. unfold rejected. rewrite Hprn.
  unfold V303.classify in Hc. bind_ok Hc c Ec.
  unfold rejection_messages.
  repeat match type of Hc with
  | (if ?t then _ else _) = _ => destruct t eqn:?
  | bind ?m _ = _ =>
      let E := fresh "E" in
      destruct m as [[[? ?] ?]|] eqn:E; cbn [bind V303.observable] in Hc;
      [|discriminate Hc]
  end;
  try discriminate Hc; injection Hc as <-; simpl; auto.
Qed.

End Landing.


(** ** Invalid carrier phase, rejected records, missing carrier frequency (3.03) *)

Section Edges.
Context {F : Type} `{PyFloat F}.

Lemma header_steps_batch (epoch : datetime) (fb : F) (values : raw F)
    (st : @V303.state F) :
  V303.rinex_batch
    (V303.end_header_once epoch
       (V303.set_fullbiasnanos fb (V303.sync_check values st)))
  = V303.rinex_batch st.
Proof.
  unfold V303.end_header_once, V303.set_fullbiasnanos, V303.sync_check.
  destruct (V303.first_epoch _); simpl;
    destruct (s <- py_int_field (State values) ;; check_state s); reflexivity.
Qed.



(** X7.  A rejected record adds no satellite: the batch is the one the loop
    had, or, when the record starts another epoch, a new batch without
    satellites, which [print] writes as an epoch line that announces 0
    satellites. *)
Theorem rejected_record_adds_no_satellite
    (args : options) (values : raw F) (st st' : @V303.state F)
    (Hrej : rejected values = true)
    (Hrun : V303.process_values args values st = Ok st') :
  exists b,
    V303.rinex_batch st' = Some b /\
    (V303.rinex_batch st = Some b \/
     (V303.B.svids b = [] /\
      V303.print b =
        Ok (("> " ++ strftime_Y " " (V303.B.epoch b) ++ "   0" ++ "  0") ++ newline,
            []))).
Proof.
  destruct (process_values_steps args values st st' Hrun)
    as (fb & gpsweek & gpssow & frac & epoch & st1 & tRx & c1 & prn & dec &
        _ & _ & _ & _ & _ & Hsw & _ & _ & Hprn & Hcl & Hdec).
  pose proof (classify_continue values c1 prn dec Hprn Hcl) as Hc.
  destruct dec as [message|svid codeType l1 d1]; [|congruence].
  subst st'. simpl.
  destruct (switch_batch_cases _ _ _ Hsw) as [(b0 & Hb0 & _ & ->)|(Hnew & _)].
  - exists b0. split; [exact Hb0|]. left. now rewrite header_steps_batch in Hb0.
  - exists (V303.new_batch epoch). split; [exact Hnew|]. right.
    split; reflexivity.
Qed.

(** X8.  A Galileo record with an empty [CarrierFrequencyHz] never completes
    the iteration: the reception-time branch calls [float()] on the field
    before the default of 2000 MHz is assigned, so the script stops with an
    exception. *)
Theorem galileo_without_carrier_frequency_raises
    (args : options) (values : raw F) (st : @V303.state F)
    (Hgal : py_int_field (ConstellationType values) = Ok CONSTELLATION_GALILEO)
    (Hnone : CarrierFrequencyHz values = None) :
  exists e, V303.process_values args values st = Raise e.
Proof.
  assert (Ht : forall fb x, V303.tRx_nanos_of values fb <> Ok x).
  { intros fb x Hx. unfold V303.tRx_nanos_of in Hx.
    bind_ok Hx w Ew. bind_ok Hx d Ed. bind_ok Hx m Em. bind_ok Hx t Et.
    rewrite Hgal in Hx. cbn [bind] in Hx. rewrite Hnone in Hx.
    discriminate Hx. }
  destruct (V303.process_values args values st) as [st'|e] eqn:Hrun; [|eauto].
  destruct (process_values_steps args values st st' Hrun)
    as (fb & gpsweek & gpssow & frac & epoch & st1 & tRx & c1 & prn & dec &
        _ & _ & _ & _ & _ & _ & Htrx & _).
  destruct (Ht _ _ Htrx).
Qed.
End Edges.


Lemma rejected_record_adds_no_satellite_witness :
  exists b : V303.RinexBatch,
    V303.rinex_batch
      (V303.write_err ConstellationNotSupported gps_low_state) = Some b /\
    (V303.rinex_batch gps_low_state = Some b \/
     (V303.B.svids b = [] /\
      V303.print b =
        Ok (("> " ++ strftime_Y " " (V303.B.epoch b) ++ "   0" ++ "  0") ++ newline,
            []))).
Proof.
  exact (@rejected_record_adds_no_satellite float F64 default_options qzss_l1
           gps_low_state (V303.write_err ConstellationNotSupported gps_low_state)
           eq_refl eq_refl).
Defined.

Lemma galileo_without_carrier_frequency_raises_witness :
  exists e : exn,
    V303.process_values default_options galileo_no_carrier V303.initial = Raise e.
Proof.
  exact (@galileo_without_carrier_frequency_raises float F64 default_options
           galileo_no_carrier V303.initial eq_refl eq_refl).
Defined.

(** ** The loop of 2.11 *)

Section Loop211.
Context {F : Type} `{PyFloat F}.

(** The steps of one iteration of the 2.11 loop that ran to its end. *)
Lemma process_values_steps_211 (args : options) (values : raw F)
    (st st' : @V211.state F) :
  V211.process_values args values st = Ok st' ->
  exists fb gpsweek gpssow frac epoch st1 c1 prn sid,
    V211.update_fullbiasnanos args values (V211.fullbiasnanos st) = Ok fb /\
    V211.gpsweek_of fb = Ok gpsweek /\
    V211.gpssow_of fb gpsweek values = Ok gpssow /\
    V211.frac_of args gpssow = Ok frac /\
    gpstime_to_epoch gpsweek (gpssow - frac)%py = Ok epoch /\
    V211.switch_batch epoch
      (V211.end_header_once epoch
         (V211.set_fullbiasnanos fb (V211.sync_check values st))) = Ok st1 /\
    V211.c1_of args values gpssow frac = Ok c1 /\
    py_int_field (Svid values) = Ok prn /\
    V211.svid_of values prn = Ok sid /\
    match sid with
    | inl message => st' = V211.write_err message st1
    | inr svid =>
        if V211.out_of_bounds args c1 then
          st' = V211.write_err (OutOfBounds svid) st1
        else
          exists adr rate b,
            py_float (AccumulatedDeltaRangeMeters values) = Ok adr /\
            py_float (PseudorangeRateMetersPerSecond values) = Ok rate /\
            V211.rinex_batch st1 = Some b /\
            st' = V211.set_batch
                    (V211.add svid c1 (Cn0DbHz values)
                       (adr / V211.GPS_L1_WAVELENGTH)%py
                       (- rate / V211.GPS_L1_WAVELENGTH)%py b) st1
    end.
Proof.
  unfold V211.process_values. intros Hrun.
  assert (Hfb : V211.fullbiasnanos (V211.sync_check values st) = V211.fullbiasnanos st).
  { unfold V211.sync_check.
    destruct (s <- py_int_field (State values) ;; check_state s); reflexivity. }
  rewrite Hfb in Hrun.
  bind_ok Hrun fb Efb. bind_ok Hrun gpsweek Ew. bind_ok Hrun gpssow Es.
  bind_ok Hrun frac Ef. bind_ok Hrun epoch Ee. bind_ok Hrun st1 Esw.
  bind_ok Hrun c1 Ec1. bind_ok Hrun prn Ep. bind_ok Hrun sid Ei.
  exists fb, gpsweek, gpssow, frac, epoch, st1, c1, prn, sid.
  repeat (split; [first [assumption | reflexivity]|]).
  destruct sid as [message|svid].
  - now injection Hrun as <-.
  - destruct (V211.out_of_bounds args c1).
    + now injection Hrun as <-.
    + bind_ok Hrun adr Ea. bind_ok Hrun rate Er.
      destruct (V211.rinex_batch st1) as [b|]; [|discriminate Hrun].
      injection Hrun as <-. exists adr, rate, b. auto.
Qed.

(** [switch_batch] of 2.11 leaves the batch it found or an empty one. *)
Lemma switch_batch_cases_211 (epoch : datetime) (st st1 : @V211.state F) :
  V211.switch_batch epoch st = Ok st1 ->
  (exists b, V211.rinex_batch st = Some b /\ V211.B.epoch b = epoch /\ st1 = st) \/
  (V211.rinex_batch st1 = Some (V211.new_batch epoch) /\
   match V211.rinex_batch st with
   | None => V211.out st1 = V211.out st /\ V211.err st1 = V211.err st
   | Some b =>
       V211.B.epoch b <> epoch /\
       exists text warnings,
         V211.print b = Ok (text, warnings) /\
         V211.out st1 = (V211.out st ++ [Epoch text])%list /\
         V211.err st1 = (V211.err st ++ warnings)%list
   end /\
   V211.first_epoch st1 = V211.first_epoch st /\
   V211.fullbiasnanos st1 = V211.fullbiasnanos st).
Proof.
  unfold V211.switch_batch. intros Hs.
  destruct (V211.rinex_batch st) as [b|] eqn:Eb.
  - destruct (V211.B.epoch b =? epoch) eqn:Ee; simpl negb in Hs; cbv iota in Hs.
    + apply Z.eqb_eq in Ee. injection Hs as <-. left. exists b. auto.
    + apply Z.eqb_neq in Ee. right.
      bind_ok Hs flushed Ef. unfold V211.flush in Ef. bind_ok Ef printed Ep.
      destruct printed as [text warnings]. injection Ef as <-.
      injection Hs as <-. simpl.
      repeat split; try assumption. exists text, warnings. auto.
  - injection Hs as <-. right. simpl. auto.
Qed.

Lemma header_steps_batch_211 (epoch : datetime) (fb : F) (values : raw F)
    (st : @V211.state F) :
  V211.rinex_batch
    (V211.end_header_once epoch
       (V211.set_fullbiasnanos fb (V211.sync_check values st)))
  = V211.rinex_batch st.
Proof.
  unfold V211.end_header_once, V211.set_fullbiasnanos, V211.sync_check.
  destruct (V211.first_epoch _); simpl;
    destruct (s <- py_int_field (State values) ;; check_state s); reflexivity.
Qed.

(** The batch after an iteration: the batch before it or an empty one,
    with at most one measurement appended, the one of the record. *)
Lemma process_values_batch_211 (args : options) (values : raw F)
    (st st' : @V211.state F) :
  V211.process_values args values st = Ok st' ->
  exists b0 epoch,
    (V211.rinex_batch st = Some b0 \/ b0 = V211.new_batch epoch) /\
    (V211.rinex_batch st' = Some b0 \/
     exists svid c1 l1 d1,
       V211.out_of_bounds args c1 = false /\
       V211.rinex_batch st' = Some (V211.add svid c1 (Cn0DbHz values) l1 d1 b0)).
Proof.
  intros Hrun.
  destruct (process_values_steps_211 args values st st' Hrun)
    as (fb & gpsweek & gpssow & frac & epoch & st1 & c1 & prn & sid &
        _ & _ & _ & _ & _ & Hsw & _ & _ & _ & Hid).
  assert (Hb : exists b0, V211.rinex_batch st1 = Some b0 /\
                 (V211.rinex_batch st = Some b0 \/ b0 = V211.new_batch epoch)).
  { destruct (switch_batch_cases_211 _ _ _ Hsw) as [(b0 & Hb0 & _ & ->)|(Hnew & _)].
    - exists b0. split; [exact Hb0|]. left. now rewrite header_steps_batch_211 in Hb0.
    - exists (V211.new_batch epoch). auto. }
  destruct Hb as (b0 & Hb0 & Hor). exists b0, epoch. split; [exact Hor|].
  destruct sid as [message|svid].
  - subst st'. left. exact Hb0.
  - destruct (V211.out_of_bounds args c1) eqn:Eo.
    + subst st'. left. exact Hb0.
    + destruct Hid as (adr & rate & b & _ & _ & Hb & ->). right.
      rewrite Hb0 in Hb. injection Hb as <-.
      exists svid, c1, (adr / V211.GPS_L1_WAVELENGTH)%py,
             (- rate / V211.GPS_L1_WAVELENGTH)%py.
      split; [exact Eo | reflexivity].
Qed.

Lemma process_values_edited (args : options) (values : raw F)
    (st st' : @V211.state F) :
  skip_edit args = false ->
  edited st ->
  V211.process_values args values st = Ok st' ->
  edited st'.
Proof.
  intros Hedit Hinv Hrun.
  destruct (process_values_batch_211 args values st st' Hrun)
    as (b0 & epoch & Hb0 & Hb').
  assert (H0 : Forall (fun c1 => within_bounds c1 = true) (V211.B.c1 b0)).
  { destruct Hb0 as [Hb0| ->]; [|constructor].
    unfold edited in Hinv. now rewrite Hb0 in Hinv. }
  unfold edited.
  destruct Hb' as [->|(svid & c1 & l1 & d1 & Ho & ->)]; [exact H0|].
  simpl. apply Forall_app. split; [exact H0|].
  constructor; [|constructor].
  unfold V211.out_of_bounds in Ho. rewrite Hedit in Ho. simpl in Ho.
  unfold within_bounds. now rewrite Ho.
Qed.

Lemma process_all_edited (args : options) (lines : list (raw F)) :
  skip_edit args = false ->
  forall st st' : @V211.state F,
    edited st ->
    V211.process_all args lines st = Ok st' ->
    edited st'.
Proof.
  intros Hedit. induction lines as [|values rest IH]; intros st st' Hinv Hrun.
  - simpl in Hrun. now injection Hrun as <-.
  - simpl in Hrun. bind_ok Hrun st1 E1.
    apply (IH st1 st'); [|exact Hrun].
    exact (process_values_edited args values st st1 Hedit Hinv E1).
Qed.

(** X9.  Without [--skip-edit], every pseudorange the 2.11 loop holds in its
    batch passed the edit: neither [c1 > 40e6] nor [c1 < 10e6] held for it
    (a NaN passes both tests). *)
Theorem edit_bounds_stored_pseudoranges
    (args : options) (lines : list (raw F)) (st : @V211.state F)
    (b : V211.RinexBatch)
    (Hedit : skip_edit args = false)
    (Hrun : V211.process_all args lines V211.initial = Ok st)
    (Hb : V211.rinex_batch st = Some b) :
  Forall (fun c1 => (c1 >? V211.C1_MAX)%py = false /\ (c1 <? V211.C1_MIN)%py = false)
    (V211.B.c1 b).
Proof.
  pose proof (process_all_edited args lines Hedit V211.initial st I Hrun) as Hinv.
  unfold edited in Hinv. rewrite Hb in Hinv.
  eapply Forall_impl; [|exact Hinv].
  intros c1 Hc. unfold within_bounds in Hc.
  apply negb_true_iff, orb_false_iff in Hc. exact Hc.
Qed.
End Loop211.

Lemma edit_bounds_stored_pseudoranges_witness :
  Forall (fun c1 : float =>
            (c1 >? V211.C1_MAX)%py = false /\ (c1 <? V211.C1_MIN)%py = false)
    (V211.B.c1 sample_batch_211).
Proof.
  exact (@edit_bounds_stored_pseudoranges float F64 default_options sample_lines
           sample_state_211 sample_batch_211 eq_refl eq_refl eq_refl).
Defined.

(** ** [add] and [print] of 2.11 *)

Lemma string_app_assoc (s t u : string) : (s ++ t) ++ u = s ++ t ++ u.
Proof.
  induction s as [|a s IH]; simpl; [reflexivity | now rewrite IH].
Qed.

Lemma string_app_nil_r (s : string) : s ++ "" = s.
Proof.
  induction s as [|a s IH]; simpl; [reflexivity | now rewrite IH].
Qed.

Section Print211.
Context {F : Type} `{PyFloat F}.

Lemma add_measurements_fields (ms : list (measurement F)) (b : V211.RinexBatch) :
  V211.B.epoch (add_measurements ms b) = V211.B.epoch b /\
  V211.B.svids (add_measurements ms b) = (V211.B.svids b ++ map (@m_svid F) ms)%list /\
  V211.B.c1 (add_measurements ms b) = (V211.B.c1 b ++ map (@m_c1 F) ms)%list /\
  V211.B.s1 (add_measurements ms b) = (V211.B.s1 b ++ map (@m_s1 F) ms)%list /\
  V211.B.l1 (add_measurements ms b) = (V211.B.l1 b ++ map (@m_l1 F) ms)%list /\
  V211.B.d1 (add_measurements ms b) = (V211.B.d1 b ++ map (@m_d1 F) ms)%list.
Proof.
  revert b. induction ms as [|m ms IH]; intros b; simpl.
  - now rewrite !app_nil_r.
  - destruct (IH (add_measurement b m)) as (He & Hs & Hc & Hs1 & Hl & Hd).
    unfold add_measurements in *. rewrite He, Hs, Hc, Hs1, Hl, Hd. simpl.
    now rewrite <- !app_assoc.
Qed.

Lemma nth_error_map_middle {A B : Type} (f : A -> B) (pre rest : list A) (m : A) :
  nth_error (map f (pre ++ m :: rest)) (List.length pre) = Some (f m).
Proof.
  rewrite map_app, nth_error_app2; rewrite length_map; [|lia].
  now rewrite Nat.sub_diag.
Qed.

(** The loop of [print] on a batch built by [add] alone. *)
Lemma print_loop_measurements (b : V211.RinexBatch) (ms : list (measurement F)) :
  V211.B.svids b = map (@m_svid F) ms ->
  V211.B.c1 b = map (@m_c1 F) ms ->
  V211.B.s1 b = map (@m_s1 F) ms ->
  V211.B.l1 b = map (@m_l1 F) ms ->
  V211.B.d1 b = map (@m_d1 F) ms ->
  forall (rest pre : list (measurement F)) (bt data : string),
    ms = (pre ++ rest)%list ->
    V211.print_loop b (seq (List.length pre) (List.length rest)) bt data =
      if forallb has_s1 rest then
        Ok (bt ++ ids_from (List.length pre) (map (@m_svid F) rest),
            data ++ join (map data_line rest))
      else Raise TypeError.
Proof.
  intros Hs Hc Hs1 Hl Hd.
  induction rest as [|m rest IH]; intros pre bt data Hms.
  - simpl. now rewrite !string_app_nil_r.
  - cbn [List.length seq V211.print_loop].
    unfold list_get. rewrite Hs, Hc, Hs1, Hl, Hd, Hms.
    rewrite !nth_error_map_middle. cbn [bind].
    cbn [forallb map ids_from]. unfold has_s1 at 1. unfold data_line at 1.
    destruct (m_s1 m) as [s1|] eqn:Es; cbn [V211.format_line bind andb]; [|reflexivity].
    assert (Hms' : ms = ((pre ++ [m]) ++ rest)%list)
      by (now rewrite <- app_assoc).
    pose proof (IH (pre ++ [m])%list) as IH'.
    rewrite length_app in IH'. simpl List.length in IH'.
    rewrite Nat.add_1_r in IH'. rewrite (IH' _ _ Hms').
    destruct (forallb has_s1 rest); [|reflexivity].
    f_equal. f_equal.
    + destruct ((0 <? List.length pre)%nat && (List.length pre mod 12 =? 0)%nat);
        now rewrite !string_app_assoc.
    + unfold join. simpl. now rewrite !string_app_assoc.
Qed.

Lemma print_measurements (ms : list (measurement F)) (epoch : datetime) :
  has_repeated (map (@m_svid F) ms) = false ->
  V211.print (add_measurements ms (V211.new_batch epoch)) =
    if forallb has_s1 ms then
      Ok ((" " ++ strftime_y " " epoch ++ "   0" ++
           fmt_3d (Z.of_nat (List.length ms)) ++
           ids_from 0 (map (@m_svid F) ms)) ++
          newline ++ join (map data_line ms), [])
    else Raise TypeError.
Proof.
  intros Hnd.
  destruct (add_measurements_fields ms (V211.new_batch epoch))
    as (He & Hs & Hc & Hs1 & Hl & Hd). simpl in He, Hs, Hc, Hs1, Hl, Hd.
  unfold V211.print. rewrite Hs, Hnd, length_map.
  rewrite (print_loop_measurements _ ms Hs Hc Hs1 Hl Hd ms [] _ _ eq_refl).
  destruct (forallb has_s1 ms); [|reflexivity].
  cbn [bind]. unfold V211.epoch_line. rewrite Hs, He, length_map.
  simpl List.length. cbn [append].
  rewrite !string_app_assoc. cbn [append]. rewrite !string_app_assoc.
  reflexivity.
Qed.

(** No index of [ids], counted from [i], starts a continuation line. *)
Lemma ids_from_inside (ids : list string) (i q : nat) :
  (12 * q < i)%nat -> (i + List.length ids <= 12 * S q)%nat ->
  ids_from i ids = join ids.
Proof.
  revert i. induction ids as [|id ids IH]; intros i Hlo Hhi; [reflexivity|].
  simpl List.length in Hhi. cbn [ids_from].
  rewrite (IH (S i)) by lia.
  replace ((i mod 12 =? 0)%nat) with false; [now rewrite andb_false_r|].
  symmetry. apply Nat.eqb_neq. intros Hm.
  pose proof (Nat.div_mod_eq i 12) as Hd. rewrite Hm in Hd.
  assert (i / 12 <= q \/ S q <= i / 12)%nat as [Hq|Hq] by lia; lia.
Qed.

Lemma ids_from_line (ids : list string) (q : nat) :
  ids <> [] ->
  ids_from (12 * q) ids =
    (if (0 <? q)%nat then continuation else "") ++
    join (firstn 12 ids) ++ ids_from (12 * S q) (skipn 12 ids).
Proof.
  intros Hne. destruct ids as [|id ids]; [congruence|].
  cbn [ids_from].
  replace ((12 * q) mod 12)%nat with 0%nat
    by (symmetry; rewrite Nat.mul_comm; apply Nat.Div0.mod_mul).
  replace (0 <? 12 * q)%nat with (0 <? q)%nat
    by (destruct q; [reflexivity | simpl; reflexivity]).
  rewrite andb_true_r. f_equal.
  change (firstn 12 (id :: ids)) with (id :: firstn 11 ids).
  change (skipn 12 (id :: ids)) with (skipn 11 ids).
  change (join (id :: firstn 11 ids)) with (id ++ join (firstn 11 ids)).
  rewrite string_app_assoc. f_equal.
  rewrite <- (firstn_skipn 11 ids) at 1.
  assert (Happ : forall a c i, ids_from i (a ++ c) =
                   ids_from i a ++ ids_from (i + List.length a) c).
  { induction a as [|x a IHa]; intros c i; cbn [ids_from app List.length].
    - now rewrite Nat.add_0_r.
    - rewrite IHa, !string_app_assoc.
      replace (i + S (List.length a))%nat with (S i + List.length a)%nat by lia.
      reflexivity. }
  rewrite Happ.
  rewrite (ids_from_inside (firstn 11 ids) (S (12 * q)) q);
    [|lia|rewrite length_firstn; lia].
  f_equal.
  destruct (Nat.le_gt_cases 11 (List.length ids)) as [Hl|Hl].
  - rewrite length_firstn, Nat.min_l by exact Hl. f_equal. lia.
  - rewrite skipn_all2 by lia. destruct (_ + _)%nat; reflexivity.
Qed.

Lemma ids_from_continued (fuel : nat) :
  forall (ids : list string) (q : nat),
    (List.length ids <= fuel)%nat ->
    ids_from (12 * S q) ids =
      join (map (append continuation) (id_lines fuel ids)).
Proof.
  induction fuel as [|fuel IH]; intros ids q Hlen.
  - destruct ids; [reflexivity | simpl in Hlen; lia].
  - destruct ids as [|id ids]; [reflexivity|].
    rewrite ids_from_line by discriminate.
    cbn [id_lines map]. change (0 <? S q)%nat with true. cbv iota.
    rewrite (IH (skipn 12 (id :: ids)) (S q)).
    + unfold join at 3. cbn [fold_right]. now rewrite string_app_assoc.
    + rewrite length_skipn. simpl List.length in *. lia.
Qed.

Lemma ids_from_lines (ids : list string) :
  ids_from 0 ids = join_with continuation (id_lines (List.length ids) ids).
Proof.
  destruct ids as [|id ids]; [reflexivity|].
  change (ids_from 0 (id :: ids)) with (ids_from (12 * 0) (id :: ids)).
  rewrite ids_from_line by discriminate.
  cbn [List.length id_lines join_with]. change (0 <? 0)%nat with false. cbv iota.
  rewrite (ids_from_continued (List.length ids) (skipn 12 (id :: ids)) 0).
  - reflexivity.
  - rewrite length_skipn. simpl List.length. lia.
Qed.

(** X10.  The 2.11 [print] of a batch filled by [add], no satellite twice and
    every [s1] a number: the epoch line with the number of satellites and
    the ids twelve to a line, continuation lines behind 32 blanks, then one
    data line per measurement in the order of the calls of [add]. *)
Theorem print_lists_ids_twelve_per_line
    (ms : list (measurement F)) (epoch : datetime)
    (Hnd : has_repeated (map (@m_svid F) ms) = false)
    (Hs1 : forallb has_s1 ms = true) :
  V211.print (add_measurements ms (V211.new_batch epoch)) =
    Ok ((" " ++ strftime_y " " epoch ++ "   0" ++
         fmt_3d (Z.of_nat (List.length ms)) ++
         join_with continuation
           (id_lines (List.length ms) (map (@m_svid F) ms))) ++
        newline ++ join (map data_line ms), []).
Proof.
  rewrite (print_measurements ms epoch Hnd), Hs1.
  rewrite ids_from_lines, length_map. reflexivity.
Qed.

(** X11.  The 2.11 [print] of a batch filled by [add], no satellite twice,
    raises [TypeError] exactly when a measurement was stored without
    [Cn0DbHz]: [add] takes the [None], the float format of the data line
    refuses it. *)
Theorem print_raises_on_missing_cn0
    (ms : list (measurement F)) (epoch : datetime)
    (Hnd : has_repeated (map (@m_svid F) ms) = false) :
  V211.print (add_measurements ms (V211.new_batch epoch)) = Raise TypeError <->
  exists m, In m ms /\ m_s1 m = None.
Proof.
  rewrite (print_measurements ms epoch Hnd).
  destruct (forallb has_s1 ms) eqn:E.
  - split; [discriminate|]. intros (m & Hin & Hm).
    rewrite forallb_forall in E. specialize (E m Hin).
    unfold has_s1 in E. rewrite Hm in E. discriminate E.
  - split; [|reflexivity]. intros _. clear Hnd.
    induction ms as [|m ms IH]; [discriminate E|].
    simpl in E. apply andb_false_iff in E. destruct E as [E|E].
    + exists m. split; [now left|]. unfold has_s1 in E. now destruct (m_s1 m).
    + destruct (IH E) as (m' & Hin & Hm). exists m'. split; [now right | exact Hm].
Qed.
End Print211.

Lemma print_lists_ids_twelve_per_line_witness :
  V211.print (add_measurements sample_measurements (V211.new_batch 0)) =
    Ok ((" " ++ strftime_y " " 0 ++ "   0" ++
         fmt_3d (Z.of_nat (List.length sample_measurements)) ++
         join_with continuation
           (id_lines (List.length sample_measurements)
              (map (@m_svid float) sample_measurements))) ++
        newline ++ join (map data_line sample_measurements), []).
Proof.
  exact (@print_lists_ids_twelve_per_line float F64 sample_measurements 0
           eq_refl eq_refl).
Defined.

Lemma print_raises_on_missing_cn0_witness :
  V211.print (add_measurements [measurement_without_cn0] (V211.new_batch 0))
    = Raise TypeError <->
  exists m, In m [measurement_without_cn0] /\ m_s1 m = None.
Proof.
  exact (@print_raises_on_missing_cn0 float F64 [measurement_without_cn0] 0 eq_refl).
Defined.

(** ** The output stream and the clock bias of the 3.03 loop *)

Section Streams.
Context {F : Type} `{PyFloat F}.

(** What one iteration does to [first_epoch], [fullbiasnanos] and [out]. *)
Lemma process_values_streams (args : options) (values : raw F)
    (st st' : @V303.state F) :
  V303.process_values args values st = Ok st' ->
  exists fb e flushed,
    V303.update_fullbiasnanos args values (V303.fullbiasnanos st) = Ok fb /\
    epoch_of args fb values = Ok e /\
    V303.fullbiasnanos st' = Some fb /\
    V303.first_epoch st' =
      match V303.first_epoch st with
      | None => Some false
      | Some v => Some v
      end /\
    V303.out st' =
      (V303.out st ++
       match V303.first_epoch st with
       | None => [EndHeader e]
       | Some _ => []
       end ++ flushed)%list /\
    forallb is_epoch flushed = true /\
    (List.length flushed <= 1)%nat /\
    (V303.rinex_batch st = None -> flushed = []).
Proof.
  intros Hrun.
  destruct (process_values_steps args values st st' Hrun)
    as (fb & gpsweek & gpssow & frac & epoch & st1 & tRx & c1 & prn & dec &
        Hfb & Hw & Hs & Hf & He & Hsw & _ & _ & _ & _ & Hdec).
  set (st0 := V303.end_header_once epoch
                (V303.set_fullbiasnanos fb (V303.sync_check values st))) in *.
  assert (H0 : V303.fullbiasnanos st0 = Some fb /\
               V303.first_epoch st0 =
                 match V303.first_epoch st with
                 | None => Some false
                 | Some v => Some v
                 end /\
               V303.out st0 =
                 (V303.out st ++
                  match V303.first_epoch st with
                  | None => [EndHeader epoch]
                  | Some _ => []
                  end)%list /\
               V303.rinex_batch st0 = V303.rinex_batch st).
  { unfold st0, V303.end_header_once, V303.set_fullbiasnanos, V303.sync_check.
    destruct (s <- py_int_field (State values) ;; check_state s); simpl;
      destruct (V303.first_epoch st); simpl; rewrite ?app_nil_r; auto. }
  destruct H0 as (H0f & H0e & H0o & H0b).
  assert (H1 : exists flushed,
             V303.fullbiasnanos st1 = Some fb /\
             V303.first_epoch st1 = V303.first_epoch st0 /\
             V303.out st1 = (V303.out st0 ++ flushed)%list /\
             forallb is_epoch flushed = true /\
             (List.length flushed <= 1)%nat /\
             (V303.rinex_batch st = None -> flushed = [])).
  { destruct (switch_batch_cases _ _ _ Hsw) as [(b0 & Hb0 & _ & ->)|(_ & Hcase & Hfe & Hfbn)].
    - exists []. rewrite app_nil_r. simpl. repeat split; auto.
    - rewrite H0b in Hcase. destruct (V303.rinex_batch st) as [b|].
      + destruct Hcase as (_ & text & warnings & _ & Hout & _).
        exists [Epoch text]. rewrite Hfbn. simpl. repeat split; auto. discriminate.
      + destruct Hcase as (Hout & _). exists []. rewrite app_nil_r, Hfbn. simpl.
        repeat split; auto. }
  destruct H1 as (flushed & H1f & H1e & H1o & Hfl & Hlen & Hnone).
  assert (H2 : V303.fullbiasnanos st' = V303.fullbiasnanos st1 /\
               V303.first_epoch st' = V303.first_epoch st1 /\
               V303.out st' = V303.out st1).
  { destruct dec as [message|svid codeType l1 d1].
    - subst st'. simpl. auto.
    - destruct Hdec as (l1' & st2 & s1 & Hadr & _ & Hst).
      destruct (adr_check_state _ _ _ _ _ _ Hadr) as (_ & Ho & Hfe & Hfbn & _).
      apply store_add in Hst. destruct Hst as (b & b' & _ & _ & ->). simpl. auto. }
  destruct H2 as (H2f & H2e & H2o).
  exists fb, epoch, flushed.
  split; [exact Hfb|]. split.
  { unfold epoch_of. rewrite Hw. cbn [bind]. rewrite Hs. cbn [bind].
    rewrite Hf. cbn [bind]. exact He. }
  split; [congruence|]. split; [congruence|].
  split; [rewrite H2o, H1o, H0o; now rewrite <- app_assoc|].
  auto.
Qed.

(** Once the header is closed the loop writes epoch records only, at
    most one for each line. *)
Lemma process_all_out (args : options) (lines : list (raw F)) :
  forall st st' : @V303.state F,
    V303.first_epoch st <> None ->
    V303.process_all args lines st = Ok st' ->
    exists records,
      V303.out st' = (V303.out st ++ records)%list /\
      forallb is_epoch records = true /\
      (List.length records <= List.length lines)%nat.
Proof.
  induction lines as [|values rest IH]; intros st st' Hfe Hrun; simpl in Hrun.
  - injection Hrun as <-. exists []. rewrite app_nil_r. simpl. auto.
  - bind_ok Hrun st1 E1.
    destruct (process_values_streams args values st st1 E1)
      as (fb & e & flushed & _ & _ & _ & Hfe1 & Hout & Hfl & Hlen & _).
    destruct (V303.first_epoch st) as [v|] eqn:Ev; [|congruence].
    destruct (IH st1 st') as (records & Ho & Hr & Hl); [congruence | exact Hrun |].
    exists (flushed ++ records)%list. simpl in Hout.
    rewrite Ho, Hout, forallb_app, Hfl, Hr, length_app, <- app_assoc. simpl.
    repeat split. lia.
Qed.

(** X12.  The output of a 3.03 run that comes to its end: the end of the header
    with the epoch of the first [Raw] line as TIME OF FIRST OBS, written
    once, and after it epoch records only, at least one and at most one for
    each line. *)
Theorem header_end_once_then_epochs
    (args : options) (first : raw F) (rest : list (raw F)) (st : @V303.state F)
    (Hrun : V303.main args (first :: rest) = Ok st) :
  exists fb e records,
    py_float (FullBiasNanos first) = Ok fb /\
    epoch_of args fb first = Ok e /\
    V303.out st = EndHeader e :: records /\
    forallb is_epoch records = true /\
    (1 <= List.length records <= S (List.length rest))%nat.
Proof.
  unfold V303.main in Hrun. bind_ok Hrun st2 Eall.
  destruct (V303.rinex_batch st2) as [b|] eqn:Eb; [|discriminate Hrun].
  unfold V303.flush in Hrun. bind_ok Hrun printed Ep.
  destruct printed as [text warnings]. injection Hrun as <-.
  simpl in Eall. bind_ok Eall st1 E1.
  destruct (process_values_streams args first V303.initial st1 E1)
    as (fb & e & flushed & Hfb & He & _ & Hfe & Hout & _ & _ & Hnone).
  rewrite (Hnone eq_refl) in Hout. simpl in Hfb, Hfe, Hout.
  destruct (process_all_out args rest st1 st2) as (records & Ho & Hr & Hl);
    [congruence | exact Eall |].
  exists fb, e, (records ++ [Epoch text])%list.
  split; [exact Hfb|]. split; [exact He|]. simpl.
  rewrite Ho, Hout, forallb_app, Hr, length_app. simpl.
  repeat split; lia.
Qed.

Lemma last_cons_default {A : Type} (l : list A) (x a b : A) :
  last (x :: l) a = last (x :: l) b.
Proof.
  revert x. induction l as [|y l IH]; intros x; [reflexivity|].
  change (last (x :: y :: l) a) with (last (y :: l) a).
  change (last (x :: y :: l) b) with (last (y :: l) b). apply IH.
Qed.

Lemma process_all_fullbiasnanos (args : options) (lines : list (raw F)) :
  forall (previous : raw F) (st st' : @V303.state F),
    V303.fullbiasnanos st = FullBiasNanos previous ->
    V303.fullbiasnanos st <> None ->
    V303.process_all args lines st = Ok st' ->
    V303.fullbiasnanos st' =
      (if fix_bias args then FullBiasNanos previous
       else FullBiasNanos (last lines previous)) /\
    V303.fullbiasnanos st' <> None.
Proof.
  induction lines as [|values rest IH]; intros previous st st' Hp Hsome Hrun;
    simpl in Hrun.
  - injection Hrun as <-. simpl. now destruct (fix_bias args).
  - bind_ok Hrun st1 E1.
    destruct (process_values_streams args values st st1 E1)
      as (fb & e & flushed & Hfb & _ & Hf1 & _).
    unfold V303.update_fullbiasnanos in Hfb.
    destruct (V303.fullbiasnanos st) as [fb0|] eqn:E0; [|congruence].
    destruct (fix_bias args) eqn:Efix; simpl negb in Hfb; cbv iota in Hfb.
    + injection Hfb as <-.
      apply (IH previous st1 st'); [congruence | congruence | exact Hrun].
    + destruct (FullBiasNanos values) as [x|] eqn:Ex; [|discriminate Hfb].
      injection Hfb as <-.
      destruct (IH values st1 st') as [Heq Hne];
        [congruence | congruence | exact Hrun |].
      split; [|exact Hne]. rewrite Heq.
      destruct rest as [|r rest]; [reflexivity|].
      change (last (values :: r :: rest) previous) with (last (r :: rest) previous).
      f_equal. apply last_cons_default.
Qed.

(** X13.  With [--fix-bias] the loop holds the [FullBiasNanos] of the first
    [Raw] line to the end; without it, [fullbiasnanos] is the field of the
    line processed last.  Either way it is a number once a line has been
    processed. *)
Theorem fix_bias_holds_first_fullbiasnanos
    (args : options) (first : raw F) (rest : list (raw F)) (st : @V303.state F)
    (Hrun : V303.process_all args (first :: rest) V303.initial = Ok st) :
  V303.fullbiasnanos st =
    (if fix_bias args then FullBiasNanos first
     else FullBiasNanos (last rest first)) /\
  V303.fullbiasnanos st <> None.
Proof.
  simpl in Hrun. bind_ok Hrun st1 E1.
  destruct (process_values_streams args first V303.initial st1 E1)
    as (fb & e & flushed & Hfb & _ & Hf1 & _).
  simpl in Hfb. unfold py_float in Hfb.
  destruct (FullBiasNanos first) as [x|] eqn:Ex; [|discriminate Hfb].
  injection Hfb as <-. rewrite <- Ex.
  apply (process_all_fullbiasnanos args rest first st1 st);
    [congruence | congruence | exact Hrun].
Qed.
End Streams.

Lemma header_end_once_then_epochs_witness :
  exists (fb : float) (e : datetime) (records : list written),
    py_float (FullBiasNanos gps_l1) = Ok fb /\
    epoch_of default_options fb gps_l1 = Ok e /\
    V303.out sample_output = EndHeader e :: records /\
    forallb is_epoch records = true /\
    (1 <= List.length records <= S (List.length [galileo_e1; gps_l5]))%nat.
Proof.
  exact (@header_end_once_then_epochs float F64 default_options gps_l1
           [galileo_e1; gps_l5] sample_output eq_refl).
Defined.

Lemma fix_bias_holds_first_fullbiasnanos_witness :
  V303.fullbiasnanos sample_state =
    (if fix_bias fix_bias_options then FullBiasNanos gps_l1
     else FullBiasNanos (last [galileo_e1; gps_l5] gps_l1)) /\
  V303.fullbiasnanos sample_state <> None.
Proof.
  exact (@fix_bias_holds_first_fullbiasnanos float F64 fix_bias_options gps_l1
           [galileo_e1; gps_l5] sample_state eq_refl).
Defined.

(** ** The header (3.03) *)

Lemma string_length_app (s t : string) :
  String.length (s ++ t) = (String.length s + String.length t)%nat.
Proof.
  induction s as [|a s IH]; simpl; [reflexivity | now rewrite IH].
Qed.

Lemma length_repeat_string (c : ascii) (n : nat) :
  String.length (repeat_string (String c "") n) = n.
Proof.
  induction n as [|n IH]; simpl; [reflexivity | now rewrite IH].
Qed.

Lemma length_pad_right (c : ascii) (w : nat) (s : string) :
  (String.length s <= w)%nat ->
  String.length (pad_right (String c "") w s) = w.
Proof.
  intros Hs. unfold pad_right.
  rewrite string_length_app, length_repeat_string. lia.
Qed.

Lemma length_substring_0 (n : nat) (s : string) :
  String.length (substring 0 n s) = Nat.min n (String.length s).
Proof.
  revert n. induction s as [|a s IH]; intros [|n]; simpl; try reflexivity.
  now rewrite IH.
Qed.

Lemma substring_0_all (n : nat) (s : string) :
  (String.length s <= n)%nat -> substring 0 n s = s.
Proof.
  revert n. induction s as [|a s IH]; intros [|n] Hn; simpl in *;
    try reflexivity; try lia.
  rewrite IH; [reflexivity | lia].
Qed.

Lemma substring_0_prefix (n : nat) (s : string) :
  prefix (substring 0 n s) s = true.
Proof.
  revert n. induction s as [|a s IH]; intros [|n]; simpl; try reflexivity.
  destruct (ascii_dec a a) as [_|Hne]; [apply IH | congruence].
Qed.

(** X14.  [check_rinex_field] on a value that is there: the field returned is
    the value cut to [size] characters, a prefix of the value; a notice is
    written exactly when something was cut off; and the field returned
    passes the check unchanged and without a notice. *)
Theorem check_rinex_field_crops (name name' value : string) (size : nat) :
  let field := fst (check_rinex_field name (Some value) size) in
  let notices := snd (check_rinex_field name (Some value) size) in
  String.length field = Nat.min size (String.length value) /\
  prefix field value = true /\
  (notices = [] <-> field = value) /\
  (notices <> [] -> notices = [TooLong name value size]) /\
  check_rinex_field name' (Some field) size = (field, []).
Proof.
  unfold check_rinex_field.
  destruct (size <? String.length value)%nat eqn:E; cbn [fst snd].
  - apply Nat.ltb_lt in E. split; [apply length_substring_0|].
    split; [apply substring_0_prefix|]. split; [|split; [reflexivity|]].
    + split; [discriminate|]. intros Heq.
      pose proof (length_substring_0 size value) as Hl. rewrite Heq in Hl. lia.
    + rewrite length_substring_0.
      replace (size <? Nat.min size (String.length value))%nat with false;
        [reflexivity|]. symmetry. apply Nat.ltb_ge. lia.
  - pose proof E as E'. apply Nat.ltb_ge in E'.
    split; [lia|]. split.
    + rewrite <- (substring_0_all (String.length value) value) at 1 by lia.
      apply substring_0_prefix.
    + split; [tauto|]. split; [congruence|]. now rewrite E.
Qed.

Lemma check_rinex_field_length (name : string) (value : option string) (size : nat) :
  (4 <= size)%nat ->
  (String.length (fst (check_rinex_field name value size)) <= size)%nat.
Proof.
  intros Hs. destruct value as [value|]; [|simpl; lia].
  unfold check_rinex_field.
  destruct (size <? String.length value)%nat eqn:E; cbn [fst].
  - rewrite length_substring_0. lia.
  - apply Nat.ltb_ge in E. exact E.
Qed.

(** X15.  The records of [rinex_header], whatever the arguments, provided the
    date string has at most 20 characters (the 19 of ["%Y%m%d %H%M%S UTC"]
    in a four-digit year): each is 60 columns of content followed by its
    label, so that every label starts in column 61.  The label of the last
    record carries the double quote of the source. *)
Theorem rinex_header_labels_in_column_61
    (datestr : string)
    (runby marker observer agency receiver rxtype version antenna anttype
       : option string)
    (Hdate : (String.length datestr <= 20)%nat) :
  exists rows : list (string * string),
    fst (H303.rinex_header datestr runby marker observer agency receiver
           rxtype version antenna anttype) = join (map header_row rows) /\
    Forall (fun r => String.length (fst r) = 60%nat) rows /\
    map snd rows =
      ["RINEX VERSION / TYPE"; "PGM / RUN BY / DATE"; "COMMENT"; "COMMENT";
       "MARKER NAME"; "MARKER TYPE"; "OBSERVER / AGENCY"; "REC # / TYPE / VERS";
       "ANT # / TYPE"; "APPROX POSITION XYZ"; "ANTENNA: DELTA H/E/N";
       "SYS / # / OBS TYPES"; "SYS / # / OBS TYPES"; "SYS / # / OBS TYPES";
       "SYS / # / OBS TYPES"; String.append "SYS / # / OBS TYPES" (String "034" "")].
Proof.
  unfold H303.rinex_header.
  pose proof (check_rinex_field_length "RUNBY" runby 20) as L1.
  pose proof (check_rinex_field_length "MARKER NAME" marker 60) as L2.
  pose proof (check_rinex_field_length "OBSERVER" observer 20) as L4.
  pose proof (check_rinex_field_length "AGENCY" agency 40) as L5.
  pose proof (check_rinex_field_length "RECEIVER NUMBER" receiver 20) as L6.
  pose proof (check_rinex_field_length "RECEIVER TYPE" rxtype 20) as L7.
  pose proof (check_rinex_field_length "RECEIVER VERSION" version 20) as L8.
  pose proof (check_rinex_field_length "ANTENNA NUMBER" antenna 20) as L9.
  pose proof (check_rinex_field_length "ANTENNA TYPE" anttype 40) as L10.
  destruct (check_rinex_field "RUNBY" runby 20) as [f1 w1].
  destruct (check_rinex_field "MARKER NAME" marker 60) as [f2 w2].
  pose proof (check_rinex_field_length "MARKER TYPE" (Some f2) 60) as L3.
  destruct (check_rinex_field "MARKER TYPE" (Some f2) 60) as [f3 w3].
  destruct (check_rinex_field "OBSERVER" observer 20) as [f4 w4].
  destruct (check_rinex_field "AGENCY" agency 40) as [f5 w5].
  destruct (check_rinex_field "RECEIVER NUMBER" receiver 20) as [f6 w6].
  destruct (check_rinex_field "RECEIVER TYPE" rxtype 20) as [f7 w7].
  destruct (check_rinex_field "RECEIVER VERSION" version 20) as [f8 w8].
  destruct (check_rinex_field "ANTENNA NUMBER" antenna 20) as [f9 w9].
  destruct (check_rinex_field "ANTENNA TYPE" anttype 40) as [f10 w10].
  cbn [fst] in *.
  exists
    [("     3.03" ++ "           " ++ pad_right " " 20 "OBSERVATION DATA" ++
        pad_right " " 20 "M: Mixed", "RINEX VERSION / TYPE");
     (pad_right " " 20 "ANDROID_RINEX" ++ pad_right " " 20 f1 ++
        pad_right " " 20 datestr, "PGM / RUN BY / DATE");
     (pad_right " " 60 "Generated by Hi-target android_rinex program", "COMMENT");
     (pad_right " " 60 "Contact us at Nander@hitargetgroup.com.cn", "COMMENT");
     (pad_right " " 60 f2, "MARKER NAME");
     (pad_right " " 60 f3, "MARKER TYPE");
     (pad_right " " 20 f4 ++ pad_right " " 40 f5, "OBSERVER / AGENCY");
     (pad_right " " 20 f6 ++ pad_right " " 20 f7 ++ pad_right " " 20 f8,
        "REC # / TYPE / VERS");
     (pad_right " " 20 f9 ++ pad_right " " 40 f10, "ANT # / TYPE");
     ("        0.0000" ++ "        0.0000" ++ "        0.0000" ++
        "                  ", "APPROX POSITION XYZ");
     ("        0.0000" ++ "        0.0000" ++ "        0.0000" ++
        "                  ", "ANTENNA: DELTA H/E/N");
     ("G    8 C1C L1C D1C S1C C5Q L5Q D5Q S5Q                      ",
        "SYS / # / OBS TYPES");
     ("R    4 C1C L1C D1C S1C                                      ",
        "SYS / # / OBS TYPES");
     ("E   12 C1C L1C D1C S1C C5I L5I D5I S5I C7I L7I D7I S7I      ",
        "SYS / # / OBS TYPES");
     ("C    4 C2I L2I D2I S2I                                      ",
        "SYS / # / OBS TYPES");
     ("J    8 C1C L1C D1C S1C C5Q L5Q D5Q S5Q                      ",
        String.append "SYS / # / OBS TYPES" (String "034" ""))].
  split; [|split; [|reflexivity]].
  - unfold join, header_row. cbn [map fold_right fst snd].
    rewrite !string_app_assoc. reflexivity.
  - repeat constructor; cbn [fst];
      rewrite ?string_length_app, ?length_pad_right by (simpl; lia);
      try reflexivity.
Qed.

(** X16.  The GLONASS SLOT / FRQ # records that [end_header] writes list each
    of the slots 1 to 24 once, and the channel they give for a slot is the
    channel [GLN_LIST] has for it, with which the loop computes the GLONASS
    wavelengths, for every slot but 10 and 17. *)
Theorem header_glonass_channels_differ_from_GLN_LIST :
  map fst (glonass_slots H303.glonass_and_phase_shift) =
    [1; 2; 3; 4; 5; 6; 7; 8; 9; 10; 11; 12; 13; 14; 15; 16; 17; 18; 19; 20;
     21; 22; 23; 24] /\
  Forall (fun entry =>
            py_index V303.GLN_LIST (fst entry - 1) = Ok (snd entry) <->
            fst entry <> 10 /\ fst entry <> 17)
    (glonass_slots H303.glonass_and_phase_shift).
Proof.
  split; [vm_compute; reflexivity|].
  replace (glonass_slots H303.glonass_and_phase_shift)
    with [(1, 1); (2, -4); (3, 5); (4, 6); (5, 1); (6, -4); (7, 5); (8, 6);
          (9, -2); (10, -5); (11, 0); (12, -1); (13, -2); (14, -7); (15, 0);
          (16, -1); (17, 4); (18, -3); (19, 3); (20, 2); (21, 4); (22, -3);
          (23, 3); (24, 2)]
    by (vm_compute; reflexivity).
  repeat (constructor;
          [cbn [fst snd]; split;
           [intros Hk; first [split; lia | vm_compute in Hk; discriminate Hk]
           |intros [H10 H17]; first [vm_compute; reflexivity | exfalso; lia]]|]).
  constructor.
Qed.

Lemma rinex_header_labels_in_column_61_witness :
  exists rows : list (string * string),
    fst (H303.rinex_header "20261103 101500 UTC" None (Some "UNKN")
           (Some "an observer whose name is longer than the field")
           (Some "UNKN") (Some "UNKN") (Some "UNKN") (Some "AndroidOS >7.0")
           (Some "UNKN") (Some "internal")) = join (map header_row rows) /\
    Forall (fun r => String.length (fst r) = 60%nat) rows /\
    map snd rows =
      ["RINEX VERSION / TYPE"; "PGM / RUN BY / DATE"; "COMMENT"; "COMMENT";
       "MARKER NAME"; "MARKER TYPE"; "OBSERVER / AGENCY"; "REC # / TYPE / VERS";
       "ANT # / TYPE"; "APPROX POSITION XYZ"; "ANTENNA: DELTA H/E/N";
       "SYS / # / OBS TYPES"; "SYS / # / OBS TYPES"; "SYS / # / OBS TYPES";
       "SYS / # / OBS TYPES"; String.append "SYS / # / OBS TYPES" (String "034" "")].
Proof.
  apply (rinex_header_labels_in_column_61 "20261103 101500 UTC" None (Some "UNKN")
           (Some "an observer whose name is longer than the field")
           (Some "UNKN") (Some "UNKN") (Some "UNKN") (Some "AndroidOS >7.0")
           (Some "UNKN") (Some "internal")).
  simpl. lia.
Defined.

(** ** A record without constellation type (both scripts) *)

Section EmptyConstellation.
Context {F : Type} `{PyFloat F}.

(** X17.  A record whose [ConstellationType] field is empty.  3.03 applies
    [int()] to the field, so that the iteration never comes to its end: the
    script stops with an exception.  2.11 compares the field with the
    constellation numbers, finds it equal to none of them and, when the
    iteration comes to its end, has skipped the record with the message of
    an unknown constellation. *)
Theorem empty_constellation_type_stops_303_only
    (args : options) (values : raw F)
    (Hnone : ConstellationType values = None) :
  (forall st : @V303.state F,
     exists e, V303.process_values args values st = Raise e) /\
  (forall st st' : @V211.state F,
     V211.process_values args values st = Ok st' ->
     exists st1, st' = V211.write_err ConstellationUnknown st1).
Proof.
  split.
  - intros st.
    assert (Ht : forall fb x, V303.tRx_nanos_of values fb <> Ok x).
    { intros fb x Hx. unfold V303.tRx_nanos_of in Hx.
      bind_ok Hx w Ew. bind_ok Hx d Ed. bind_ok Hx m Em. bind_ok Hx t Et.
      rewrite Hnone in Hx. discriminate Hx. }
    destruct (V303.process_values args values st) as [st'|e] eqn:Hrun; [|eauto].
    destruct (process_values_steps args values st st' Hrun)
      as (fb & gpsweek & gpssow & frac & epoch & st1 & tRx & c1 & prn & dec &
          _ & _ & _ & _ & _ & _ & Htrx & _).
    destruct (Ht _ _ Htrx).
  - intros st st' Hrun.
    destruct (process_values_steps_211 args values st st' Hrun)
      as (fb & gpsweek & gpssow & frac & epoch & st1 & c1 & prn & sid &
          _ & _ & _ & _ & _ & _ & _ & _ & Hsid & Hst).
    unfold V211.svid_of, V211.constellation_is in Hsid. rewrite Hnone in Hsid.
    injection Hsid as <-. exists st1. exact Hst.
Qed.
End EmptyConstellation.

Lemma empty_constellation_type_stops_303_only_witness :
  (forall st : @V303.state float,
     exists e, V303.process_values default_options no_constellation st = Raise e) /\
  (forall st st' : @V211.state float,
     V211.process_values default_options no_constellation st = Ok st' ->
     exists st1, st' = V211.write_err ConstellationUnknown st1).
Proof.
  exact (@empty_constellation_type_stops_303_only float F64 default_options
           no_constellation eq_refl).
Defined.

(** ** The 3.03 loop skips no epoch *)

Section NoSkip.
Context {F : Type} `{PyFloat F}.

(** What one iteration of the 3.03 loop appends to the two streams. *)
Lemma process_values_appends (args : options) (values : raw F)
    (st st' : @V303.state F) :
  state_inv st ->
  V303.process_values args values st = Ok st' ->
  exists messages records,
    V303.err st' = (V303.err st ++ messages)%list /\
    V303.out st' = (V303.out st ++ records)%list /\
    existsb is_repeated_entries messages = false /\
    existsb is_skipped_epoch records = false.
Proof.
  intros Hinv Hrun.
  destruct (process_values_steps args values st st' Hrun)
    as (fb & gpsweek & gpssow & frac & epoch & st1 & tRx & c1 & prn & dec &
        _ & _ & _ & _ & _ & Hsw & _ & _ & Hprn & Hcl & Hdec).
  set (st0 := V303.end_header_once epoch
                (V303.set_fullbiasnanos fb (V303.sync_check values st))) in *.
  assert (H0 : exists m0 r0,
             V303.err st0 = (V303.err st ++ m0)%list /\
             V303.out st0 = (V303.out st ++ r0)%list /\
             existsb is_repeated_entries m0 = false /\
             existsb is_skipped_epoch r0 = false).
  { unfold st0, V303.end_header_once, V303.set_fullbiasnanos, V303.sync_check.
    destruct (s <- py_int_field (State values) ;; check_state s) as [ok|e]; simpl;
      destruct (V303.first_epoch st); simpl.
    - exists [], []. now rewrite !app_nil_r.
    - exists [], [EndHeader epoch]. now rewrite !app_nil_r.
    - exists [InvalidState e], []. now rewrite !app_nil_r.
    - exists [InvalidState e], [EndHeader epoch]. auto. }
  destruct H0 as (m0 & r0 & He0 & Ho0 & Hm0 & Hr0).
  assert (H1 : exists r1,
             V303.err st1 = V303.err st0 /\
             V303.out st1 = (V303.out st0 ++ r1)%list /\
             existsb is_skipped_epoch r1 = false).
  { destruct (switch_batch_cases _ _ _ Hsw) as [(b0 & _ & _ & ->)|(_ & Hcase & _)].
    - exists []. now rewrite app_nil_r.
    - unfold st0 in Hcase at 1. rewrite header_steps_batch in Hcase.
      unfold state_inv in Hinv.
      destruct (V303.rinex_batch st) as [b|].
      + destruct Hcase as (_ & text & warnings & Hp & Hout & Herr).
        destruct (print_batch_inv b Hinv) as [Hp' _].
        rewrite Hp' in Hp. injection Hp as <- <-.
        exists [Epoch (V303.epoch_line b ++ newline ++
                       join (map format_row (printed_rows (rows b))))].
        rewrite Herr, app_nil_r. split; [reflexivity|]. split; [exact Hout|].
        reflexivity.
      + destruct Hcase as (Hout & Herr). exists []. now rewrite app_nil_r. }
  destruct H1 as (r1 & He1 & Ho1 & Hr1).
  assert (H2 : exists m2,
             V303.err st' = (V303.err st1 ++ m2)%list /\
             V303.out st' = V303.out st1 /\
             existsb is_repeated_entries m2 = false).
  { pose proof (classify_continue values c1 prn dec Hprn Hcl) as Hc.
    destruct dec as [message|svid codeType l1 d1].
    - subst st'. exists [message]. simpl. repeat split.
      destruct Hc as [_ [<-|[<-|[<-|[]]]]]; reflexivity.
    - destruct Hdec as (l1' & st2 & s1 & Hadr & _ & Hst).
      destruct (adr_check_state _ _ _ _ _ _ Hadr) as (_ & Ho & _ & _ & Hcase).
      apply store_add in Hst. destruct Hst as (b & b' & _ & _ & ->). simpl.
      destruct Hcase as [[_ ->]|[_ ->]].
      + exists []. now rewrite app_nil_r.
      + exists [AdrStateWarning svid]. auto. }
  destruct H2 as (m2 & He2 & Ho2 & Hm2).
  exists (m0 ++ m2)%list, (r0 ++ r1)%list.
  rewrite He2, He1, He0, Ho2, Ho1, Ho0, <- !app_assoc, !existsb_app,
    Hm0, Hm2, Hr0, Hr1.
  auto.
Qed.

Lemma process_all_appends (args : options) (lines : list (raw F)) :
  forall st st' : @V303.state F,
    state_inv st ->
    V303.process_all args lines st = Ok st' ->
    exists messages records,
      V303.err st' = (V303.err st ++ messages)%list /\
      V303.out st' = (V303.out st ++ records)%list /\
      existsb is_repeated_entries messages = false /\
      existsb is_skipped_epoch records = false.
Proof.
  induction lines as [|values rest IH]; intros st st' Hinv Hrun; simpl in Hrun.
  - injection Hrun as <-. exists [], []. now rewrite !app_nil_r.
  - bind_ok Hrun st1 E1.
    destruct (process_values_appends args values st st1 Hinv E1)
      as (m1 & r1 & He1 & Ho1 & Hm1 & Hr1).
    destruct (process_values_inv _ _ _ _ Hinv E1) as [Hinv1 _].
    destruct (IH st1 st' Hinv1 Hrun) as (m2 & r2 & He2 & Ho2 & Hm2 & Hr2).
    exists (m1 ++ m2)%list, (r1 ++ r2)%list.
    rewrite He2, He1, Ho2, Ho1, <- !app_assoc, !existsb_app, Hm1, Hm2, Hr1, Hr2.
    auto.
Qed.

(** X19.  A 3.03 run that comes to its end has skipped no epoch: [add] merges
    the observations of a satellite, so that the repeated-entries test of
    [print] never fires in the loop, no [Detected repeated entries] message
    is on stderr and no empty epoch record is in the output. *)
Theorem loop_303_skips_no_epoch
    (args : options) (lines : list (raw F)) (st : @V303.state F)
    (Hrun : V303.main args lines = Ok st) :
  existsb is_repeated_entries (V303.err st) = false /\
  existsb is_skipped_epoch (V303.out st) = false.
Proof.
  unfold V303.main in Hrun. bind_ok Hrun st1 Eall.
  destruct (V303.rinex_batch st1) as [b|] eqn:Eb; [|discriminate Hrun].
  destruct (process_all_inv args lines V303.initial st1 I Eall) as [Hinv _].
  unfold state_inv in Hinv. rewrite Eb in Hinv.
  destruct (print_batch_inv b Hinv) as [Hp _].
  unfold V303.flush in Hrun. rewrite Hp in Hrun. cbn [bind] in Hrun.
  injection Hrun as <-. simpl.
  destruct (process_all_appends args lines V303.initial st1 I Eall)
    as (messages & records & He & Ho & Hm & Hr).
  simpl in He, Ho. rewrite He, Ho, app_nil_r, existsb_app, Hm, Hr.
  split; reflexivity.
Qed.
End NoSkip.

Lemma loop_303_skips_no_epoch_witness :
  existsb is_repeated_entries (V303.err sample_output) = false /\
  existsb is_skipped_epoch (V303.out sample_output) = false.
Proof.
  exact (@loop_303_skips_no_epoch float F64 default_options sample_lines
           sample_output eq_refl).
Defined.

(** ** The last epoch of 2.11 *)

Section Main211.
Context {F : Type} `{PyFloat F}.

Lemma process_values_built (args : options) (values : raw F)
    (st st' : @V211.state F) :
  built st ->
  V211.process_values args values st = Ok st' ->
  built st' /\ exists b, V211.rinex_batch st' = Some b.
Proof.
  intros Hinv Hrun.
  destruct (process_values_batch_211 args values st st' Hrun)
    as (b0 & epoch & Hb0 & Hb').
  assert (H0 : exists ms e, b0 = add_measurements ms (V211.new_batch e)).
  { destruct Hb0 as [Hb0| ->].
    - unfold built in Hinv. now rewrite Hb0 in Hinv.
    - exists [], epoch. reflexivity. }
  destruct H0 as (ms & e & ->).
  unfold built.
  destruct Hb' as [->|(svid & c1 & l1 & d1 & _ & ->)].
  - split; [exists ms, e; reflexivity | eauto].
  - split; [|eauto].
    exists (ms ++ [{| m_svid := svid; m_c1 := c1; m_s1 := Cn0DbHz values;
                      m_l1 := l1; m_d1 := d1 |}])%list, e.
    unfold add_measurements. rewrite fold_left_app. reflexivity.
Qed.

Lemma process_all_built (args : options) (lines : list (raw F)) :
  forall st st' : @V211.state F,
    built st ->
    V211.process_all args lines st = Ok st' ->
    built st' /\ (lines <> [] -> exists b, V211.rinex_batch st' = Some b).
Proof.
  induction lines as [|values rest IH]; intros st st' Hinv Hrun; simpl in Hrun.
  - injection Hrun as <-. split; [exact Hinv | congruence].
  - bind_ok Hrun st1 E1.
    destruct (process_values_built args values st st1 Hinv E1) as [Hinv1 Hb1].
    destruct (IH st1 st' Hinv1 Hrun) as [Hinv' Hb'].
    split; [exact Hinv'|]. intros _.
    destruct rest as [|v rest'].
    + simpl in Hrun. injection Hrun as <-. exact Hb1.
    + apply Hb'. discriminate.
Qed.

(** X20.  How a 2.11 run ends when the loop got through at least one line.  The
    batch it holds is what [add] was given for the last epoch, and the final
    [print] has three outcomes: a satellite that was added twice makes it
    skip the epoch with a message; otherwise a measurement stored without
    [Cn0DbHz] makes it raise [TypeError]; otherwise it writes the epoch.
    It never fails with an index out of range. *)
Theorem main_211_last_epoch
    (args : options) (lines : list (raw F)) (st : @V211.state F)
    (Hlines : lines <> [])
    (Hrun : V211.process_all args lines V211.initial = Ok st) :
  exists ms epoch,
    V211.rinex_batch st = Some (add_measurements ms (V211.new_batch epoch)) /\
    if has_repeated (map (@m_svid F) ms) then
      exists st', V211.main args lines = Ok st' /\
        V211.out st' = (V211.out st ++ [Epoch ""])%list /\
        V211.err st' = (V211.err st ++ [RepeatedEntries epoch])%list
    else if forallb has_s1 ms then
      exists st', V211.main args lines = Ok st' /\
        V211.out st' = (V211.out st ++ [Epoch (epoch_text epoch ms)])%list /\
        V211.err st' = V211.err st
    else V211.main args lines = Raise TypeError.
Proof.
  destruct (process_all_built args lines V211.initial st I Hrun) as [Hinv Hb].
  destruct (Hb Hlines) as [b Eb]. unfold built in Hinv. rewrite Eb in Hinv.
  destruct Hinv as (ms & epoch & ->). exists ms, epoch. split; [exact Eb|].
  unfold V211.main. rewrite Hrun. cbn [bind]. rewrite Eb. unfold V211.flush.
  destruct (has_repeated (map (@m_svid F) ms)) eqn:Er.
  - destruct (add_measurements_fields ms (V211.new_batch epoch))
      as (He & Hs & _). simpl in He, Hs.
    unfold V211.print. rewrite Hs, Er, He. cbn [bind].
    eexists. split; [reflexivity|]. split; reflexivity.
  - rewrite (print_measurements ms epoch Er), ids_from_lines, length_map.
    destruct (forallb has_s1 ms); [|reflexivity]. cbn [bind].
    eexists. split; [reflexivity|]. split; [reflexivity|]. simpl. apply app_nil_r.
Qed.
End Main211.

Lemma main_211_last_epoch_witness :
  exists (ms : list (measurement float)) (epoch : datetime),
    V211.rinex_batch sample_state_211
      = Some (add_measurements ms (V211.new_batch epoch)) /\
    if has_repeated (map (@m_svid float) ms) then
      exists st', V211.main default_options sample_lines = Ok st' /\
        V211.out st' = (V211.out sample_state_211 ++ [Epoch ""])%list /\
        V211.err st' = (V211.err sample_state_211 ++ [RepeatedEntries epoch])%list
    else if forallb has_s1 ms then
      exists st', V211.main default_options sample_lines = Ok st' /\
        V211.out st' =
          (V211.out sample_state_211 ++ [Epoch (epoch_text epoch ms)])%list /\
        V211.err st' = V211.err sample_state_211
    else V211.main default_options sample_lines = Raise TypeError.
Proof.
  apply (@main_211_last_epoch float F64 default_options sample_lines
           sample_state_211).
  - discriminate.
  - reflexivity.
Defined.

(** ** What one iteration does with a record *)

Lemma join_in_split (A : Type) (f : A -> string) (l : list A) (a : A) :
  In a l -> exists before after, join (map f l) = before ++ f a ++ after.
Proof.
  induction l as [|x tl IH]; intros Hin; [contradiction|].
  destruct Hin as [->|Hin].
  - exists "", (join (map f tl)). reflexivity.
  - destruct (IH Hin) as (before & after & Heq).
    exists (f x ++ before), after. simpl. rewrite Heq.
    now rewrite string_app_assoc.
Qed.

Section Record303.
Context {F : Type} `{PyFloat F}.

Lemma sync_check_err (values : raw F) (st : @V303.state F) :
  V303.rinex_batch (V303.sync_check values st) = V303.rinex_batch st /\
  exists w, V303.err (V303.sync_check values st) = (V303.err st ++ w)%list /\
    match sync values with
    | Ok _ => w = []
    | Raise e => w = [InvalidState e]
    end.
Proof.
  unfold V303.sync_check, sync.
  destruct (s <- py_int_field (State values) ;; check_state s); simpl.
  - split; [reflexivity|]. exists []. now rewrite app_nil_r.
  - split; [reflexivity|]. eauto.
Qed.

(** The id of an observable is the id of the record. *)
Lemma classify_record_svid (values : raw F) (c1 : F) (prn : Z)
    (svid codeType : string) (l d : @V303.pynum F) :
  py_int_field (Svid values) = Ok prn ->
  V303.classify values c1 prn = Ok (V303.Observable svid codeType l d) ->
  record_svid values = Some svid.
Proof.
  intros Hprn Hc. unfold record_svid. rewrite Hprn.
  unfold V303.classify in Hc. bind_ok Hc c Ec.
  unfold constellation_letter.
  repeat match type of Hc with
  | (if (?a =? ?b)%Z then _ else _) = _ => destruct (a =? b)%Z eqn:?
  | (if (?a <=? ?b)%Z then _ else _) = _ => destruct (a <=? b)%Z eqn:?
  | bind ?m _ = _ =>
      let E := fresh "E" in
      destruct m as [[[? ?] ?]|] eqn:E; cbn [bind V303.observable] in Hc;
      [|discriminate Hc]
  end;
  try discriminate Hc; injection Hc as <- _ _ _; reflexivity.
Qed.

(** One iteration of the 3.03 loop that ran to its end, in terms of the
    record and of the state in which the loop met it. *)
Lemma process_values_record (args : options) (values : raw F)
    (st st' : @V303.state F) :
  V303.process_values args values st = Ok st' ->
  exists epoch c1 prn decision st1 flushed,
    record_epoch args values st = Ok epoch /\
    record_c1 args values st = Ok c1 /\
    py_int_field (Svid values) = Ok prn /\
    V303.classify values c1 prn = Ok decision /\
    V303.rinex_batch st1 = Some (batch_for epoch st) /\
    V303.err st1 = (V303.err (V303.sync_check values st) ++ flushed)%list /\
    match decision with
    | V303.Continue message => st' = V303.write_err message st1
    | V303.Observable svid codeType l1 d1 =>
        exists l1' s1 b' warned,
          l1' = (if adr_state_valid values then l1 else V303.PyInt 0) /\
          Cn0DbHz values = Some s1 /\
          V303.add codeType svid (fmt_3f c1) (fmt_3f s1)
            (V303.fmt_3f_num l1') (V303.fmt_3f_num d1) (batch_for epoch st) = Ok b' /\
          V303.rinex_batch st' = Some b' /\
          V303.err st' = (V303.err st1 ++ warned)%list
    end.
Proof.
  intros Hrun.
  destruct (process_values_steps args values st st' Hrun)
    as (fb & gpsweek & gpssow & frac & epoch & st1 & tRx & c1 & prn & dec &
        Hfb & Hw & Hs & Hf & He & Hsw & Ht & Hc1 & Hprn & Hcl & Hdec).
  exists epoch, c1, prn, dec, st1.
  set (st0 := V303.end_header_once epoch
                (V303.set_fullbiasnanos fb (V303.sync_check values st))) in *.
  assert (H0 : V303.rinex_batch st0 = V303.rinex_batch st /\
               V303.err st0 = V303.err (V303.sync_check values st)).
  { unfold st0, V303.end_header_once, V303.set_fullbiasnanos.
    destruct (sync_check_err values st) as [Hb _].
    destruct (V303.first_epoch _); simpl; auto. }
  destruct H0 as [H0b H0e].
  assert (H1 : V303.rinex_batch st1 = Some (batch_for epoch st) /\
               exists flushed, V303.err st1 = (V303.err st0 ++ flushed)%list).
  { unfold batch_for.
    destruct (switch_batch_cases _ _ _ Hsw)
      as [(b0 & Hb0 & Hep & ->)|(Hnew & Hcase & _)].
    - rewrite <- H0b, Hb0, Hep, Z.eqb_refl. split; [reflexivity|].
      exists []. now rewrite app_nil_r.
    - rewrite H0b in Hcase. destruct (V303.rinex_batch st) as [b|].
      + destruct Hcase as (Hne & text & warnings & _ & _ & Herr).
        apply Z.eqb_neq in Hne. rewrite Hne. split; [exact Hnew|]. eauto.
      + destruct Hcase as [_ Herr]. split; [exact Hnew|].
        exists []. now rewrite app_nil_r. }
  destruct H1 as [H1b [flushed H1e]]. exists flushed.
  split.
  { unfold record_epoch, epoch_of. rewrite Hfb. cbn [bind]. rewrite Hw. cbn [bind].
    rewrite Hs. cbn [bind]. rewrite Hf. cbn [bind]. exact He. }
  split.
  { unfold record_c1. rewrite Hfb. cbn [bind]. rewrite Hw. cbn [bind].
    rewrite Hs. cbn [bind]. rewrite Hf. cbn [bind]. rewrite Ht. exact Hc1. }
  split; [exact Hprn|]. split; [exact Hcl|]. split; [exact H1b|].
  split; [now rewrite H1e, H0e|].
  destruct dec as [message|svid codeType l1 d1]; [exact Hdec|].
  destruct Hdec as (l1' & st2 & s1 & Hadr & Hs1 & Hst).
  apply store_add in Hst. destruct Hst as (b & b' & Hb & Hadd & ->).
  assert (Hs1' : Cn0DbHz values = Some s1).
  { unfold py_float in Hs1. destruct (Cn0DbHz values); [|discriminate].
    now injection Hs1 as ->. }
  unfold V303.adr_check in Hadr. unfold adr_state_valid.
  destruct (s <- py_int_field (AccumulatedDeltaRangeState values) ;;
            V303.check_adr_state s) as [ok|[]]; try discriminate Hadr;
    injection Hadr as <- <-.
  - rewrite H1b in Hb. injection Hb as <-.
    exists l1, s1, b', []. rewrite app_nil_r. repeat split; auto.
  - simpl in Hb. rewrite H1b in Hb. injection Hb as <-.
    exists (V303.PyInt 0), s1, b', [AdrStateWarning svid]. repeat split; auto.
Qed.

(** The batch a record is added to satisfies the invariant of the loop. *)
Lemma batch_for_inv (epoch : datetime) (st : @V303.state F) :
  state_inv st -> batch_inv (batch_for epoch st).
Proof.
  unfold state_inv, batch_for. intros Hinv.
  destruct (V303.rinex_batch st) as [b|]; [|apply new_batch_inv].
  destruct (V303.B.epoch b =? epoch)%Z; [exact Hinv | apply new_batch_inv].
Qed.
End Record303.

(** ** C10: a record below every band threshold (3.03) *)

Section BelowBandStored.
Context {F : Type} `{PyFloat F}.

(** C10.  A record of a supported constellation whose carrier frequency
    fails every band test is not rejected.  Whenever the loop body
    completes on it, in a state that satisfies the invariant of the loop,
    the loop has called [add] on the batch of the record's epoch with the
    empty band code, the record's id, its formatted pseudorange and signal
    strength, phase ["0.000"] and Doppler ["0.000"]; the resulting batch is
    the batch of the state; the four values are in the second-band columns
    of the satellite's row; and the text that [print] returns for this
    batch contains the satellite's line, whose last four fields are these
    values. *)
Theorem below_band_record_is_stored
    (args : options) (values : raw F) (st st' : @V303.state F)
    (Hinv : state_inv st)
    (Hlow : below_every_band values = true)
    (Hrun : V303.process_values args values st = Ok st') :
  rejected values = false /\
  exists (epoch : datetime) (c1 s1 : F) (svid : string)
         (b' : V303.RinexBatch) (i : nat),
    record_epoch args values st = Ok epoch /\
    record_c1 args values st = Ok c1 /\
    Cn0DbHz values = Some s1 /\
    record_svid values = Some svid /\
    V303.add "" svid (fmt_3f c1) (fmt_3f s1) "0.000" "0.000"
      (batch_for epoch st) = Ok b' /\
    V303.rinex_batch st' = Some b' /\
    V303.find_svid svid (V303.B.svids b') 0 = Some i /\
    nth_error (V303.B.c2 b') i = Some (fmt_3f c1) /\
    nth_error (V303.B.l2 b') i = Some "0.000" /\
    nth_error (V303.B.d2 b') i = Some "0.000" /\
    nth_error (V303.B.s2 b') i = Some (fmt_3f s1) /\
    exists (c l d s text before after : string),
      nth_error (V303.B.c1 b') i = Some c /\
      nth_error (V303.B.l1 b') i = Some l /\
      nth_error (V303.B.d1 b') i = Some d /\
      nth_error (V303.B.s1 b') i = Some s /\
      V303.print b' = Ok (text, []) /\
      text =
        before ++
        (pad_right " " 5 svid ++ pad_left " " 12 c ++
         "  " ++ pad_left " " 14 l ++ "  " ++ pad_left " " 14 d ++
         "  " ++ pad_left " " 14 s ++ "  " ++ pad_left " " 14 (fmt_3f c1) ++
         "  " ++ pad_left " " 14 "0.000" ++ "  " ++ pad_left " " 14 "0.000" ++
         "  " ++ pad_left " " 14 (fmt_3f s1) ++ newline) ++
        after.
Proof.
  destruct (process_values_record args values st st' Hrun)
    as (epoch & c1 & prn & dec & st1 & flushed &
        Hep & Hc1 & Hprn & Hcl & Hb1 & _ & Hdec).
  destruct (classify_below_every_band values c1 prn Hlow Hprn) as (letter & _ & Hc).
  rewrite Hc in Hcl. injection Hcl as <-.
  pose proof (classify_continue values c1 prn _ Hprn Hc) as Hrej.
  pose proof (classify_record_svid values c1 prn _ _ _ _ Hprn Hc) as Hsvid.
  destruct (classify_observable values c1 prn _ _ _ _ Hc) as [Hloop _].
  split; [exact Hrej|].
  destruct Hdec as (l1' & s1 & b' & warned & Hl1 & Hs1 & Hadd & Hb' & _).
  assert (El : V303.fmt_3f_num l1' = "0.000").
  { subst l1'. destruct (adr_state_valid values); reflexivity. }
  rewrite El in Hadd.
  change (V303.fmt_3f_num (V303.PyInt 0)) with "0.000" in Hadd.
  pose proof (batch_for_inv epoch st Hinv) as Hinv0.
  pose proof (add_batch_inv _ _ _ _ _ _ _ _ Hinv0 Hloop Hadd) as Hinv'.
  destruct (add_second_band "" _ _ _ _ _ _ b' (proj1 Hinv0) eq_refl Hadd)
    as (i & Hf & Hc2 & Hl2 & Hd2 & Hs2 & _).
  exists epoch, c1, s1, (letter ++ fmt_02d prn), b', i.
  do 11 (split; [assumption|]).
  pose proof (find_svid_Some _ _ _ _ Hf) as [Hi Hn].
  rewrite Nat.sub_0_r in Hn. simpl in Hi.
  pose proof (proj1 Hinv') as Hwf'. apply wf_batch_lengths in Hwf'. cbv zeta in Hwf'.
  destruct Hwf' as (L1 & L2 & L3 & L4 & L5 & L6 & L7 & L8).
  destruct (print_batch_inv b' Hinv') as [Hprint Hperm].
  assert (Hin : In (row_at b' i) (printed_rows (rows b'))).
  { eapply Permutation_in; [exact Hperm|].
    unfold rows. apply in_map, in_seq. lia. }
  destruct (join_in_split _ format_row _ _ Hin) as (before & after & Hjoin).
  exists (nth i (V303.B.c1 b') ""), (nth i (V303.B.l1 b') ""),
         (nth i (V303.B.d1 b') ""), (nth i (V303.B.s1 b') "").
  exists (V303.epoch_line b' ++ newline ++
          join (map format_row (printed_rows (rows b')))),
         (V303.epoch_line b' ++ newline ++ before), after.
  split; [apply nth_error_nth'; lia|].
  split; [apply nth_error_nth'; lia|].
  split; [apply nth_error_nth'; lia|].
  split; [apply nth_error_nth'; lia|].
  split; [exact Hprint|].
  rewrite Hjoin. unfold format_row, row_at, V303.format_line. cbn [r_svid r_c1 r_l1 r_d1 r_s1 r_c2 r_l2 r_d2 r_s2].
  rewrite (nth_error_nth _ _ "" Hn), (nth_error_nth _ _ "" Hc2),
    (nth_error_nth _ _ "" Hl2), (nth_error_nth _ _ "" Hd2),
    (nth_error_nth _ _ "" Hs2).
  rewrite !string_app_assoc. reflexivity.
Qed.
End BelowBandStored.

Lemma below_band_record_is_stored_witness :
  rejected gps_low = false /\
  exists (epoch : datetime) (c1 s1 : float) (svid : string)
         (b' : V303.RinexBatch) (i : nat),
    record_epoch default_options gps_low V303.initial = Ok epoch /\
    record_c1 default_options gps_low V303.initial = Ok c1 /\
    Cn0DbHz gps_low = Some s1 /\
    record_svid gps_low = Some svid /\
    V303.add "" svid (fmt_3f c1) (fmt_3f s1) "0.000" "0.000"
      (batch_for epoch (V303.initial (F := float))) = Ok b' /\
    V303.rinex_batch gps_low_state = Some b' /\
    V303.find_svid svid (V303.B.svids b') 0 = Some i /\
    nth_error (V303.B.c2 b') i = Some (fmt_3f c1) /\
    nth_error (V303.B.l2 b') i = Some "0.000" /\
    nth_error (V303.B.d2 b') i = Some "0.000" /\
    nth_error (V303.B.s2 b') i = Some (fmt_3f s1) /\
    exists (c l d s text before after : string),
      nth_error (V303.B.c1 b') i = Some c /\
      nth_error (V303.B.l1 b') i = Some l /\
      nth_error (V303.B.d1 b') i = Some d /\
      nth_error (V303.B.s1 b') i = Some s /\
      V303.print b' = Ok (text, []) /\
      text =
        before ++
        (pad_right " " 5 svid ++ pad_left " " 12 c ++
         "  " ++ pad_left " " 14 l ++ "  " ++ pad_left " " 14 d ++
         "  " ++ pad_left " " 14 s ++ "  " ++ pad_left " " 14 (fmt_3f c1) ++
         "  " ++ pad_left " " 14 "0.000" ++ "  " ++ pad_left " " 14 "0.000" ++
         "  " ++ pad_left " " 14 (fmt_3f s1) ++ newline) ++
        after.
Proof.
  apply (@below_band_record_is_stored float F64 default_options gps_low
           V303.initial gps_low_state); [exact I | vm_compute; reflexivity ..].
Defined.

(** ** Where an observation lands in the batch (3.03) *)

Section Landing303.
Context {F : Type} `{PyFloat F}.

(** X5.  An observation that the loop stores lands in the row of the
    record's satellite, in the batch of the record's epoch: the record's
    formatted pseudorange and signal strength are in the first-band columns
    when the carrier frequency is above 1500 MHz (2000 MHz stands for an
    empty field) and in the second-band columns otherwise; a rejected
    record only leaves its message. *)
Theorem observation_lands_by_carrier_frequency
    (args : options) (values : raw F) (st st' : @V303.state F)
    (Hinv : state_inv st)
    (Hrun : V303.process_values args values st = Ok st') :
  if rejected values then
    exists message,
      In message rejection_messages /\
      exists others, V303.err st' = (others ++ [message])%list
  else
    exists epoch c1 s1 svid b i,
      record_epoch args values st = Ok epoch /\
      record_c1 args values st = Ok c1 /\
      Cn0DbHz values = Some s1 /\
      record_svid values = Some svid /\
      V303.rinex_batch st' = Some b /\
      V303.B.epoch b = epoch /\
      V303.find_svid svid (V303.B.svids b) 0 = Some i /\
      if (V303.carrier_frequency values >? V303.MHZ_1500)%py then
        nth_error (V303.B.c1 b) i = Some (fmt_3f c1) /\
        nth_error (V303.B.s1 b) i = Some (fmt_3f s1)
      else
        nth_error (V303.B.c2 b) i = Some (fmt_3f c1) /\
        nth_error (V303.B.s2 b) i = Some (fmt_3f s1).
Proof.
  destruct (process_values_record args values st st' Hrun)
    as (epoch & c1 & prn & dec & st1 & flushed &
        Hep & Hc1 & Hprn & Hcl & Hb1 & _ & Hdec).
  pose proof (classify_continue values c1 prn dec Hprn Hcl) as Hrej.
  destruct dec as [message|svid codeType l1 d1].
  - destruct Hrej as [-> Hin]. exists message. split; [exact Hin|].
    subst st'. simpl. eauto.
  - rewrite Hrej.
    destruct Hdec as (l1' & s1 & b' & warned & _ & Hs1 & Hadd & Hb' & _).
    destruct (classify_observable values c1 prn svid codeType l1 d1 Hcl)
      as [Hsvid Hprim].
    pose proof (batch_for_inv epoch st Hinv) as Hinv0.
    destruct (add_row_columns _ _ _ _ _ _ _ b' (proj1 Hinv0) Hadd) as (i & Hf & Hcols).
    destruct (add_wf codeType svid (fmt_3f c1) (fmt_3f s1) (V303.fmt_3f_num l1')
                (V303.fmt_3f_num d1) _ (proj1 Hinv0)) as (b1 & Hadd1 & _ & Hepoch & _).
    rewrite Hadd in Hadd1. injection Hadd1 as <-.
    exists epoch, c1, s1, svid, b', i.
    split; [exact Hep|]. split; [exact Hc1|]. split; [exact Hs1|].
    split; [exact (classify_record_svid values c1 prn _ _ _ _ Hprn Hcl)|].
    split; [exact Hb'|].
    split.
    { rewrite Hepoch. unfold batch_for.
      destruct (V303.rinex_batch st) as [b|]; [|reflexivity].
      destruct (V303.B.epoch b =? epoch)%Z eqn:E; [now apply Z.eqb_eq|reflexivity]. }
    split; [exact Hf|].
    rewrite <- Hprim. destruct (V303.is_primary codeType); tauto.
Qed.
End Landing303.

Lemma observation_lands_by_carrier_frequency_witness :
  exists (epoch : datetime) (c1 s1 : float) (svid : string)
         (b : V303.RinexBatch) (i : nat),
    record_epoch default_options gps_low V303.initial = Ok epoch /\
    record_c1 default_options gps_low V303.initial = Ok c1 /\
    Cn0DbHz gps_low = Some s1 /\
    record_svid gps_low = Some svid /\
    V303.rinex_batch gps_low_state = Some b /\
    V303.B.epoch b = epoch /\
    V303.find_svid svid (V303.B.svids b) 0 = Some i /\
    nth_error (V303.B.c2 b) i = Some (fmt_3f c1) /\
    nth_error (V303.B.s2 b) i = Some (fmt_3f s1).
Proof.
  exact (@observation_lands_by_carrier_frequency float F64 default_options gps_low
           V303.initial gps_low_state I eq_refl).
Defined.

Section Record211.
Context {F : Type} `{PyFloat F}.

Lemma sync_check_err_211 (values : raw F) (st : @V211.state F) :
  V211.rinex_batch (V211.sync_check values st) = V211.rinex_batch st /\
  exists w, V211.err (V211.sync_check values st) = (V211.err st ++ w)%list /\
    match sync values with
    | Ok _ => w = []
    | Raise e => w = [InvalidState e]
    end.
Proof.
  unfold V211.sync_check, sync.
  destruct (s <- py_int_field (State values) ;; check_state s); simpl.
  - split; [reflexivity|]. exists []. now rewrite app_nil_r.
  - split; [reflexivity|]. eauto.
Qed.

(** One iteration of the 2.11 loop that ran to its end, in terms of the
    record and of the state in which the loop met it. *)
Lemma process_values_record_211 (args : options) (values : raw F)
    (st st' : @V211.state F) :
  V211.process_values args values st = Ok st' ->
  exists gpsweek gpssow frac epoch c1 prn sid st1 flushed,
    record_gpssow_211 args values st = Ok (gpsweek, gpssow) /\
    V211.frac_of args gpssow = Ok frac /\
    gpstime_to_epoch gpsweek (gpssow - frac)%py = Ok epoch /\
    V211.c1_of args values gpssow frac = Ok c1 /\
    py_int_field (Svid values) = Ok prn /\
    V211.svid_of values prn = Ok sid /\
    V211.rinex_batch st1 = Some (batch_for_211 epoch st) /\
    V211.err st1 = (V211.err (V211.sync_check values st) ++ flushed)%list /\
    match sid with
    | inl message => st' = V211.write_err message st1
    | inr svid =>
        if V211.out_of_bounds args c1 then
          st' = V211.write_err (OutOfBounds svid) st1
        else
          exists adr rate,
            AccumulatedDeltaRangeMeters values = Some adr /\
            PseudorangeRateMetersPerSecond values = Some rate /\
            st' = V211.set_batch
                    (V211.add svid c1 (Cn0DbHz values)
                       (adr / V211.GPS_L1_WAVELENGTH)%py
                       (- rate / V211.GPS_L1_WAVELENGTH)%py
                       (batch_for_211 epoch st)) st1
    end.
Proof.
  intros Hrun.
  destruct (process_values_steps_211 args values st st' Hrun)
    as (fb & gpsweek & gpssow & frac & epoch & st1 & c1 & prn & sid &
        Hfb & Hw & Hs & Hf & He & Hsw & Hc1 & Hprn & Hsid & Hid).
  exists gpsweek, gpssow, frac, epoch, c1, prn, sid, st1.
  set (st0 := V211.end_header_once epoch
                (V211.set_fullbiasnanos fb (V211.sync_check values st))) in *.
  assert (H0 : V211.rinex_batch st0 = V211.rinex_batch st /\
               V211.err st0 = V211.err (V211.sync_check values st)).
  { unfold st0, V211.end_header_once, V211.set_fullbiasnanos.
    destruct (sync_check_err_211 values st) as [Hb _].
    destruct (V211.first_epoch _); simpl; auto. }
  destruct H0 as [H0b H0e].
  assert (H1 : V211.rinex_batch st1 = Some (batch_for_211 epoch st) /\
               exists flushed, V211.err st1 = (V211.err st0 ++ flushed)%list).
  { unfold batch_for_211.
    destruct (switch_batch_cases_211 _ _ _ Hsw)
      as [(b0 & Hb0 & Hep & ->)|(Hnew & Hcase & _)].
    - rewrite <- H0b, Hb0, Hep, Z.eqb_refl. split; [reflexivity|].
      exists []. now rewrite app_nil_r.
    - rewrite H0b in Hcase. destruct (V211.rinex_batch st) as [b|].
      + destruct Hcase as (Hne & text & warnings & _ & _ & Herr).
        apply Z.eqb_neq in Hne. rewrite Hne. split; [exact Hnew|]. eauto.
      + destruct Hcase as [_ Herr]. split; [exact Hnew|].
        exists []. now rewrite app_nil_r. }
  destruct H1 as [H1b [flushed H1e]]. exists flushed.
  split.
  { unfold record_gpssow_211. rewrite Hfb. cbn [bind]. rewrite Hw. cbn [bind].
    rewrite Hs. reflexivity. }
  do 5 (split; [assumption|]).
  split; [exact H1b|]. split; [now rewrite H1e, H0e|].
  destruct sid as [message|svid]; [exact Hid|].
  destruct (V211.out_of_bounds args c1); [exact Hid|].
  destruct Hid as (adr & rate & b & Ha & Hr & Hb & ->).
  rewrite H1b in Hb. injection Hb as <-.
  exists adr, rate.
  unfold py_float in Ha, Hr.
  destruct (AccumulatedDeltaRangeMeters values); [|discriminate].
  destruct (PseudorangeRateMetersPerSecond values); [|discriminate].
  injection Ha as ->. injection Hr as ->. auto.
Qed.
End Record211.

(** ** C7: a record without sync bits is processed all the same *)

Section UnsyncedRecord.
Context {F : Type} `{PyFloat F}.

Lemma sync_unsynced (values : raw F) (s : Z) :
  py_int_field (State values) = Ok s ->
  Z.land s STATE_CODE_LOCK = 0 \/ Z.land s STATE_TOW_DECODED = 0 ->
  sync values = Raise Exception.
Proof.
  intros Hstate Hbits. unfold sync. rewrite Hstate. cbn [bind].
  now apply check_state_unsynced.
Qed.

(** C7.  In both scripts, a record whose sync state lacks the code-lock
    bit or the TOW-decoded bit gets the "Invalid state" message on stderr
    and is then processed as any other record.  (1) The outcome of the
    iteration, a raised exception included, is the outcome for the same
    record with a valid sync state, met in the state whose stderr has
    received the message.  (2) Whenever the iteration completes, stderr
    holds what it held before, then the message, then what the rest of the
    iteration wrote.  (3) Whenever it completes and the constellation
    branch does not reject the record (and, in 2.11, the pseudorange passes
    the edit), the loop has called [add] on the batch of the record's epoch
    with the record's id, pseudorange and signal strength, and the
    resulting batch is the batch of the state. *)
Theorem unsynced_record_is_processed
    (args : options) (values : raw F) (s : Z) (good : option F)
    (Hstate : py_int_field (State values) = Ok s)
    (Hbits : Z.land s STATE_CODE_LOCK = 0 \/ Z.land s STATE_TOW_DECODED = 0)
    (Hgood : sync (with_State good values) = Ok true) :
  (forall st : @V303.state F,
     V303.process_values args values st =
       V303.process_values args (with_State good values)
         (V303.write_err (InvalidState Exception) st)) /\
  (forall st : @V211.state F,
     V211.process_values args values st =
       V211.process_values args (with_State good values)
         (V211.write_err (InvalidState Exception) st)) /\
  (forall st st' : @V303.state F,
     V303.process_values args values st = Ok st' ->
     (exists rest,
        V303.err st' = (V303.err st ++ InvalidState Exception :: rest)%list) /\
     (rejected values = false ->
      exists epoch c1 s1 prn svid codeType l d l' b',
        record_epoch args values st = Ok epoch /\
        record_c1 args values st = Ok c1 /\
        Cn0DbHz values = Some s1 /\
        py_int_field (Svid values) = Ok prn /\
        V303.classify values c1 prn = Ok (V303.Observable svid codeType l d) /\
        l' = (if adr_state_valid values then l else V303.PyInt 0) /\
        V303.add codeType svid (fmt_3f c1) (fmt_3f s1)
          (V303.fmt_3f_num l') (V303.fmt_3f_num d) (batch_for epoch st) = Ok b' /\
        V303.rinex_batch st' = Some b')) /\
  (forall st st' : @V211.state F,
     V211.process_values args values st = Ok st' ->
     (exists rest,
        V211.err st' = (V211.err st ++ InvalidState Exception :: rest)%list) /\
     (forall prn svid c1,
        py_int_field (Svid values) = Ok prn ->
        V211.svid_of values prn = Ok (inr svid) ->
        record_c1_211 args values st = Ok c1 ->
        V211.out_of_bounds args c1 = false ->
        exists epoch adr rate,
          record_epoch_211 args values st = Ok epoch /\
          AccumulatedDeltaRangeMeters values = Some adr /\
          PseudorangeRateMetersPerSecond values = Some rate /\
          V211.rinex_batch st' =
            Some (V211.add svid c1 (Cn0DbHz values)
                    (adr / V211.GPS_L1_WAVELENGTH)%py
                    (- rate / V211.GPS_L1_WAVELENGTH)%py
                    (batch_for_211 epoch st)))).
Proof.
  pose proof (sync_unsynced values s Hstate Hbits) as Hsync.
  pose proof Hbits as Hraise. apply check_state_unsynced in Hraise.
  unfold sync in Hgood.
  split; [|split; [|split]].
  - intros st. unfold V303.process_values, V303.sync_check.
    rewrite Hgood, Hstate. cbn [bind]. rewrite Hraise. reflexivity.
  - intros st. unfold V211.process_values, V211.sync_check.
    rewrite Hgood, Hstate. cbn [bind]. rewrite Hraise. reflexivity.
  - intros st st' Hrun.
    destruct (process_values_record args values st st' Hrun)
      as (epoch & c1 & prn & dec & st1 & flushed &
          Hep & Hc1 & Hprn & Hcl & Hb1 & Herr & Hdec).
    destruct (sync_check_err values st) as [_ (w & Hw & Hm)].
    rewrite Hsync in Hm. subst w. rewrite Hw in Herr.
    pose proof (classify_continue values c1 prn dec Hprn Hcl) as Hrej.
    destruct dec as [message|svid codeType l d].
    + split.
      * subst st'. simpl. rewrite Herr. exists (flushed ++ [message])%list.
        rewrite <- !app_assoc. reflexivity.
      * destruct Hrej as [Hrej _]. rewrite Hrej. discriminate.
    + destruct Hdec as (l' & s1 & b' & warned & Hl & Hs1 & Hadd & Hb' & Herr').
      split.
      * rewrite Herr', Herr. exists (flushed ++ warned)%list.
        rewrite <- !app_assoc. reflexivity.
      * intros _. exists epoch, c1, s1, prn, svid, codeType, l, d, l', b'.
        repeat (split; [assumption|]). exact Hb'.
  - intros st st' Hrun.
    destruct (process_values_record_211 args values st st' Hrun)
      as (gpsweek & gpssow & frac & epoch & c1 & prn & sid & st1 & flushed &
          Hg & Hf & He & Hc1 & Hprn & Hsid & Hb1 & Herr & Hid).
    destruct (sync_check_err_211 values st) as [_ (w & Hw & Hm)].
    rewrite Hsync in Hm. subst w. rewrite Hw in Herr.
    split.
    + destruct sid as [message|svid].
      * subst st'. simpl. rewrite Herr. exists (flushed ++ [message])%list.
        rewrite <- !app_assoc. reflexivity.
      * destruct (V211.out_of_bounds args c1).
        -- subst st'. simpl. rewrite Herr.
           exists (flushed ++ [OutOfBounds svid])%list.
           rewrite <- !app_assoc. reflexivity.
        -- destruct Hid as (adr & rate & _ & _ & ->). simpl. rewrite Herr.
           exists flushed. rewrite <- !app_assoc. reflexivity.
    + intros prn' svid c1' Hprn' Hsvid Hc1' Hbounds.
      rewrite Hprn in Hprn'. injection Hprn' as <-.
      rewrite Hsid in Hsvid. injection Hsvid as ->.
      unfold record_c1_211 in Hc1'. rewrite Hg in Hc1'. cbn [bind] in Hc1'.
      rewrite Hf in Hc1'. cbn [bind] in Hc1'. rewrite Hc1 in Hc1'.
      injection Hc1' as <-.
      rewrite Hbounds in Hid. destruct Hid as (adr & rate & Ha & Hr & ->).
      exists epoch, adr, rate.
      split.
      { unfold record_epoch_211. rewrite Hg. cbn [bind]. rewrite Hf. exact He. }
      auto.
Qed.
End UnsyncedRecord.

(** The unsynced twin of [gps_l1], met first: both scripts write the
    message and store the record. *)
Lemma unsynced_record_is_processed_witness :
  (exists rest,
     V303.err gps_l1_unsynced_state = ([] ++ InvalidState Exception :: rest)%list) /\
  (exists epoch c1 s1 prn svid codeType l d l' b',
     record_epoch default_options gps_l1_unsynced V303.initial = Ok epoch /\
     record_c1 default_options gps_l1_unsynced V303.initial = Ok c1 /\
     Cn0DbHz gps_l1_unsynced = Some s1 /\
     py_int_field (Svid gps_l1_unsynced) = Ok prn /\
     V303.classify gps_l1_unsynced c1 prn = Ok (V303.Observable svid codeType l d) /\
     l' = (if adr_state_valid gps_l1_unsynced then l else V303.PyInt 0) /\
     V303.add codeType svid (fmt_3f c1) (fmt_3f s1)
       (V303.fmt_3f_num l') (V303.fmt_3f_num d)
       (batch_for epoch (V303.initial (F := float))) = Ok b' /\
     V303.rinex_batch gps_l1_unsynced_state = Some b') /\
  (exists rest,
     V211.err gps_l1_unsynced_state_211 = ([] ++ InvalidState Exception :: rest)%list) /\
  (exists c1 epoch adr rate,
     record_c1_211 default_options gps_l1_unsynced V211.initial = Ok c1 /\
     record_epoch_211 default_options gps_l1_unsynced V211.initial = Ok epoch /\
     AccumulatedDeltaRangeMeters gps_l1_unsynced = Some adr /\
     PseudorangeRateMetersPerSecond gps_l1_unsynced = Some rate /\
     V211.rinex_batch gps_l1_unsynced_state_211 =
       Some (V211.add "G05" c1 (Cn0DbHz gps_l1_unsynced)
               (adr / V211.GPS_L1_WAVELENGTH)%py
               (- rate / V211.GPS_L1_WAVELENGTH)%py
               (batch_for_211 epoch (V211.initial (F := float))))).
Proof.
  destruct (@unsynced_record_is_processed float F64 default_options
              gps_l1_unsynced 0 (Some 15%float) eq_refl (or_introl eq_refl) eq_refl)
    as (_ & _ & R3 & R2).
  destruct (R3 V303.initial gps_l1_unsynced_state eq_refl) as [E3 S3].
  destruct (R2 V211.initial gps_l1_unsynced_state_211 eq_refl) as [E2 S2].
  split; [exact E3|]. split; [exact (S3 eq_refl)|]. split; [exact E2|].
  eexists.
  destruct (S2 5 "G05" _ eq_refl eq_refl eq_refl eq_refl)
    as (epoch & adr & rate & H1 & H2 & H3 & H4).
  exists epoch, adr, rate. split; [reflexivity|]. auto.
Defined.

(** ** C5: the ambiguity correction is applied once (3.03) *)

Section CorrectionOnce.
Context {F : Type} `{PyFloat F}.

Lemma band_phase (codeType : string) (values : raw F) (c1 wl wl_doppler : F)
    (ct : string) (l d : @V303.pynum F) :
  V303.band codeType values c1 wl wl_doppler = Ok (ct, l, d) ->
  exists adr y,
    AccumulatedDeltaRangeMeters values = Some adr /\
    V303.get_correction_adr c1 (adr / wl)%py wl = Ok y /\
    l = V303.PyFlt y.
Proof.
  unfold V303.band. intros Hb.
  bind_ok Hb adr E1. bind_ok Hb l1 E2. bind_ok Hb rate E3.
  injection Hb as _ <- _. exists adr, l1.
  unfold py_float in E1. destruct (AccumulatedDeltaRangeMeters values); [|discriminate].
  injection E1 as ->. auto.
Qed.

(** What the constellation branch computes as the phase of an observable:
    nothing (the int [0]) below every band, and otherwise the correction,
    applied once to the raw cycle count, with the wavelength of the band. *)
Lemma classify_phase (values : raw F) (c1 : F) (c prn : Z)
    (svid codeType : string) (l d : @V303.pynum F) :
  py_int_field (ConstellationType values) = Ok c ->
  V303.classify values c1 prn = Ok (V303.Observable svid codeType l d) ->
  (codeType = "" /\ l = V303.PyInt 0) \/
  (exists adr wl y,
     AccumulatedDeltaRangeMeters values = Some adr /\
     band_wavelength c codeType prn = Ok (Some wl) /\
     V303.get_correction_adr c1 (adr / wl)%py wl = Ok y /\
     l = V303.PyFlt y).
Proof.
  intros Hcon Hc. unfold V303.classify in Hc. rewrite Hcon in Hc. cbn [bind] in Hc.
  unfold band_wavelength.
  repeat match type of Hc with
  | (if (?a =? ?b)%Z then _ else _) = _ => destruct (a =? b)%Z eqn:?
  | (if (?a <=? ?b)%Z then _ else _) = _ => destruct (a <=? b)%Z eqn:?
  | bind ?m _ = _ =>
      let E := fresh "E" in
      destruct m as [[[? ?] ?]|] eqn:E; cbn [bind V303.observable] in Hc;
      [|discriminate Hc]
  end;
  try discriminate Hc;
  injection Hc as <- <- <- <-;
  repeat match goal with
  | E : (if ?t then _ else _) = Ok _ |- _ => destruct t eqn:?
  | E : bind _ _ = Ok _ |- _ =>
      let a := fresh "a" in let Ea := fresh "Ea" in bind_ok E a Ea
  | E : Ok V303.no_band = Ok _ |- _ => injection E as <- <- <-
  end;
  try (left; split; reflexivity); right.
  all: match goal with E : V303.band _ _ _ _ _ = Ok _ |- _ => pose proof (band_codeType _ _ _ _ _ _ _ _ E); subst; destruct (band_phase _ _ _ _ _ _ _ _ E) as (adr & y & Ha & Hy & ->); exists adr; eexists; exists y end.
  all: repeat match goal with |- context [(?a =? ?b)%string] => let v := eval vm_compute in (a =? b)%string in change (a =? b)%string with v end; cbv iota.
  all: cbv beta iota delta [bind]; repeat match goal with E' : ?m = Ok _ |- context [?m] => rewrite E'; cbv beta iota end.
  all: (split; [exact Ha|]; split; [reflexivity|]; split; [exact Hy | reflexivity]).
Qed.
(** C5, amended.  The loop applies the correction once.  Whenever the loop
    body completes on a record that the constellation branch does not
    reject, the phase column of the record's band, in the row of the
    record's satellite, holds ["0.000"] when the record is below every band
    or its accumulated-delta-range state is not valid, and otherwise the
    formatted result of one application of [get_correction_adr] to the
    record's pseudorange, to the accumulated delta range divided by the
    wavelength of the band, and to that wavelength. *)
Theorem correction_applied_once
    (args : options) (values : raw F) (st st' : @V303.state F)
    (Hinv : state_inv st)
    (Hrej : rejected values = false)
    (Hrun : V303.process_values args values st = Ok st') :
  exists c1 c prn svid codeType l d b' i phase,
    record_c1 args values st = Ok c1 /\
    py_int_field (ConstellationType values) = Ok c /\
    py_int_field (Svid values) = Ok prn /\
    V303.classify values c1 prn = Ok (V303.Observable svid codeType l d) /\
    V303.rinex_batch st' = Some b' /\
    V303.find_svid svid (V303.B.svids b') 0 = Some i /\
    nth_error (phase_column codeType b') i = Some phase /\
    ((codeType = "" /\ phase = "0.000") \/
     (exists adr wl y,
        AccumulatedDeltaRangeMeters values = Some adr /\
        band_wavelength c codeType prn = Ok (Some wl) /\
        V303.get_correction_adr c1 (adr / wl)%py wl = Ok y /\
        phase = if adr_state_valid values then fmt_3f y else "0.000")).
Proof.
  destruct (process_values_record args values st st' Hrun)
    as (epoch & c1 & prn & dec & st1' & flushed &
        Hep & Hc1 & Hprn & Hcl & Hb1 & _ & Hdec).
  pose proof (classify_continue values c1 prn dec Hprn Hcl) as Hc.
  destruct dec as [message|svid codeType l d]; [destruct Hc; congruence|].
  assert (Hcon : exists c, py_int_field (ConstellationType values) = Ok c).
  { unfold V303.classify in Hcl.
    destruct (py_int_field (ConstellationType values)) as [c|]; [eauto|discriminate]. }
  destruct Hcon as [c Hcon].
  destruct Hdec as (l' & s1 & b' & warned & Hl & Hs1 & Hadd & Hb' & _).
  pose proof (batch_for_inv epoch st Hinv) as Hinv0.
  destruct (add_row_columns _ _ _ _ _ _ _ b' (proj1 Hinv0) Hadd) as (i & Hf & Hcols).
  exists c1, c, prn, svid, codeType, l, d, b', i, (V303.fmt_3f_num l').
  do 6 (split; [assumption|]).
  split.
  { unfold phase_column. destruct (V303.is_primary codeType); tauto. }
  destruct (classify_phase values c1 c prn svid codeType l d Hcon Hcl)
    as [[-> ->]|(adr & wl & y & Ha & Hw & Hy & ->)].
  - left. split; [reflexivity|]. subst l'.
    destruct (adr_state_valid values); reflexivity.
  - right. exists adr, wl, y. do 3 (split; [assumption|]).
    subst l'. destruct (adr_state_valid values); reflexivity.
Qed.
End CorrectionOnce.

Lemma correction_applied_once_witness :
  exists c1 c prn svid codeType l d b' i phase,
    record_c1 default_options gps_l1_unsynced V303.initial = Ok c1 /\
    py_int_field (ConstellationType gps_l1_unsynced) = Ok c /\
    py_int_field (Svid gps_l1_unsynced) = Ok prn /\
    V303.classify gps_l1_unsynced c1 prn = Ok (V303.Observable svid codeType l d) /\
    V303.rinex_batch gps_l1_unsynced_state = Some b' /\
    V303.find_svid svid (V303.B.svids b') 0 = Some i /\
    nth_error (phase_column codeType b') i = Some phase /\
    ((codeType = "" /\ phase = "0.000") \/
     (exists adr wl y,
        AccumulatedDeltaRangeMeters gps_l1_unsynced = Some adr /\
        band_wavelength c codeType prn = Ok (Some wl) /\
        V303.get_correction_adr c1 (adr / wl)%py wl = Ok y /\
        phase = if adr_state_valid gps_l1_unsynced then fmt_3f y else "0.000")).
Proof.
  exact (@correction_applied_once float F64 default_options gps_l1_unsynced
           V303.initial gps_l1_unsynced_state I eq_refl eq_refl).
Defined.

(** C5 as the specification words it fails.  For a pseudorange of 22000 km
    on GPS L1 and an accumulated delta range of -25000 km, the correction
    returns 111416476.31 cycles; applied to this value it returns
    119805084.31 cycles.  The correction with the wrap count rounded as the
    specification words it is no fixed point either: it returns
    114598670.71 cycles and then 111893745.29 cycles. *)
Lemma correction_not_idempotent_counterexample :
  V303.get_correction_adr 22000000%float
      ((-25000000) / V303.GPS_L1_WAVELENGTH)%float V303.GPS_L1_WAVELENGTH
    = Ok 111416476.30855601%float /\
  V303.get_correction_adr 22000000%float
      111416476.30855601%float V303.GPS_L1_WAVELENGTH
    = Ok 119805084.30855601%float /\
  (y <- V303.get_correction_adr 22000000%float
          ((-25000000) / V303.GPS_L1_WAVELENGTH)%float V303.GPS_L1_WAVELENGTH ;;
   V303.get_correction_adr 22000000%float y V303.GPS_L1_WAVELENGTH)
    <> V303.get_correction_adr 22000000%float
         ((-25000000) / V303.GPS_L1_WAVELENGTH)%float V303.GPS_L1_WAVELENGTH /\
  correction_as_claimed 22000000%float
      ((-25000000) / V303.GPS_L1_WAVELENGTH)%float V303.GPS_L1_WAVELENGTH
    = Ok 114598670.71426818%float /\
  correction_as_claimed 22000000%float
      114598670.71426818%float V303.GPS_L1_WAVELENGTH
    = Ok 111893745.28573182%float.
Proof.
  split; [vm_compute; reflexivity|]. split; [vm_compute; reflexivity|].
  split; [|split; vm_compute; reflexivity].
  intros Heq.
  apply (f_equal (fun r => match r with
                           | Ok x => PrimFloat.eqb x 119805084.30855601%float
                           | Raise _ => false
                           end)) in Heq.
  vm_compute in Heq. discriminate Heq.
Qed.

(** ** The Doppler of Galileo E6 (3.03) *)

Section GalileoE6.
Context {F : Type} `{PyFloat F}.

(** X22.  A Galileo record whose carrier frequency is above 1250 MHz and not
    above 1500 MHz is stored under the band code E6, in the second-band
    columns of its satellite's row; its phase is corrected with the
    wavelength of E6, but its Doppler is the range rate divided by the
    wavelength of E5b. *)
Theorem galileo_e6_doppler_uses_e5b_wavelength
    (args : options) (values : raw F) (rate : F) (st st' : @V303.state F)
    (Hinv : state_inv st)
    (Hgal : py_int_field (ConstellationType values) = Ok CONSTELLATION_GALILEO)
    (Hlow : (V303.carrier_frequency values >? V303.MHZ_1500)%py = false)
    (Hhigh : (V303.carrier_frequency values >? V303.MHZ_1250)%py = true)
    (Hrate : PseudorangeRateMetersPerSecond values = Some rate)
    (Hrun : V303.process_values args values st = Ok st') :
  exists c1 prn svid adr y b' i,
    record_c1 args values st = Ok c1 /\
    py_int_field (Svid values) = Ok prn /\
    record_svid values = Some svid /\
    AccumulatedDeltaRangeMeters values = Some adr /\
    V303.get_correction_adr c1 (adr / V303.GAL_E6_WAVELENGTH)%py
      V303.GAL_E6_WAVELENGTH = Ok y /\
    V303.classify values c1 prn =
      Ok (V303.Observable svid "E6" (V303.PyFlt y)
            (V303.PyFlt (- rate / V303.GAL_E5B_WAVELENGTH)%py)) /\
    V303.rinex_batch st' = Some b' /\
    V303.find_svid svid (V303.B.svids b') 0 = Some i /\
    nth_error (V303.B.d2 b') i =
      Some (fmt_3f (- rate / V303.GAL_E5B_WAVELENGTH)%py).
Proof.
  destruct (process_values_record args values st st' Hrun)
    as (epoch & c1 & prn & dec & st1 & flushed &
        Hep & Hc1 & Hprn & Hcl & Hb1 & _ & Hdec).
  assert (Hobs : exists adr y,
    AccumulatedDeltaRangeMeters values = Some adr /\
    V303.get_correction_adr c1 (adr / V303.GAL_E6_WAVELENGTH)%py
      V303.GAL_E6_WAVELENGTH = Ok y /\
    dec = V303.Observable ("E" ++ fmt_02d prn) "E6" (V303.PyFlt y)
            (V303.PyFlt (- rate / V303.GAL_E5B_WAVELENGTH)%py)).
  { unfold V303.classify in Hcl. rewrite Hgal in Hcl. cbn [bind] in Hcl.
    change (CONSTELLATION_GALILEO =? CONSTELLATION_GPS) with false in Hcl.
    change (CONSTELLATION_GALILEO =? CONSTELLATION_GLONASS) with false in Hcl.
    change (CONSTELLATION_GALILEO =? CONSTELLATION_GALILEO) with true in Hcl.
    cbv iota in Hcl. rewrite Hlow, Hhigh in Hcl.
    bind_ok Hcl b Eb. unfold V303.band in Eb.
    bind_ok Eb adr Ea. bind_ok Eb y Ey. rewrite Hrate in Eb.
    cbn [py_float bind] in Eb. injection Eb as <-. cbn [V303.observable] in Hcl.
    injection Hcl as <-. exists adr, y.
    unfold py_float in Ea.
    destruct (AccumulatedDeltaRangeMeters values); [|discriminate].
    injection Ea as ->. auto. }
  destruct Hobs as (adr & y & Ha & Hy & ->).
  destruct Hdec as (l' & s1 & b' & warned & _ & _ & Hadd & Hb' & _).
  pose proof (batch_for_inv epoch st Hinv) as Hinv0.
  destruct (add_second_band "E6" _ _ _ _ _ _ b' (proj1 Hinv0) eq_refl Hadd)
    as (i & Hf & _ & _ & Hd2 & _).
  exists c1, prn, ("E" ++ fmt_02d prn), adr, y, b', i.
  split; [exact Hc1|]. split; [exact Hprn|].
  split; [exact (classify_record_svid values c1 prn _ _ _ _ Hprn Hcl)|].
  auto 10.
Qed.
End GalileoE6.

(** For [galileo_e6], whose range rate is -123.5 m/s, the stored Doppler is
    497.283 Hz; with the wavelength of E6 it would be 526.783 Hz. *)
Lemma galileo_e6_doppler_uses_e5b_wavelength_witness :
  (exists c1 prn svid adr y b' i,
     record_c1 default_options galileo_e6 V303.initial = Ok c1 /\
     py_int_field (Svid galileo_e6) = Ok prn /\
     record_svid galileo_e6 = Some svid /\
     AccumulatedDeltaRangeMeters galileo_e6 = Some adr /\
     V303.get_correction_adr c1 (adr / V303.GAL_E6_WAVELENGTH)%py
       V303.GAL_E6_WAVELENGTH = Ok y /\
     V303.classify galileo_e6 c1 prn =
       Ok (V303.Observable svid "E6" (V303.PyFlt y)
             (V303.PyFlt (- (-123.5)%float / V303.GAL_E5B_WAVELENGTH)%py)) /\
     V303.rinex_batch galileo_e6_state = Some b' /\
     V303.find_svid svid (V303.B.svids b') 0 = Some i /\
     nth_error (V303.B.d2 b') i =
       Some (fmt_3f (- (-123.5)%float / V303.GAL_E5B_WAVELENGTH)%py)) /\
  fmt_3f (- (-123.5)%float / V303.GAL_E5B_WAVELENGTH (F := float))%py = "497.283" /\
  fmt_3f (- (-123.5)%float / V303.GAL_E6_WAVELENGTH (F := float))%py = "526.783".
Proof.
  split; [|split; vm_compute; reflexivity].
  exact (@galileo_e6_doppler_uses_e5b_wavelength float F64 default_options
           galileo_e6 (-123.5)%float V303.initial galileo_e6_state
           I eq_refl eq_refl eq_refl eq_refl eq_refl).
Defined.

